(** * CMRP dashboard front end: a shallow embedding of script.js and
    mrf_items_log.js, with the properties of their table sort, inline
    editing, CSV export, forecast form and date helpers.

    Conventions of the embedding.
    - A JavaScript string is a [string]: a sequence of 8-bit code units.
      Text outside ASCII is carried as its UTF-8 bytes; case mapping and
      white space are the ASCII ones.
    - A JavaScript number is a [num]: NaN, the two infinities, or an exact
      rational.  Binary64 rounding is not modelled: the code below only
      looks at signs and comparisons of differences, multiplies by 0.30,
      and rounds to one decimal; negative zero is identified with zero.
    - Functions of the browser that ECMAScript leaves to the implementation,
      or that depend on binary64 digits, are fields of a [Host] record.
    - An [async] function is split at its [await]: the part run before the
      request is sent, and the continuation run on the response. *)

From Stdlib Require Import ZArith QArith Qround Qabs List String Ascii Bool Lia Lqa.
From Stdlib Require Import DecimalString DecimalN.
From Stdlib Require Import Permutation Sorted.
Import ListNotations.
Local Open Scope string_scope.
Local Open Scope Z_scope.

(* ================================================================== *)
(** * JavaScript values *)
(* ================================================================== *)

Module Js.

(** ** Numbers *)

Inductive num : Type :=
  | NaN
  | PosInf
  | NegInf
  | Fin (q : Q).

Definition isNaN (n : num) : bool :=
  match n with NaN => true | _ => false end.

Definition Qsign (q : Q) : comparison := Qcompare q 0.

Definition num_neg (n : num) : num :=
  match n with
  | NaN => NaN
  | PosInf => NegInf
  | NegInf => PosInf
  | Fin q => Fin (- q)
  end.

(** [a - b] on numbers. *)
Definition num_sub (a b : num) : num :=
  match a, b with
  | NaN, _ | _, NaN => NaN
  | PosInf, PosInf => NaN
  | NegInf, NegInf => NaN
  | PosInf, _ => PosInf
  | NegInf, _ => NegInf
  | Fin _, PosInf => NegInf
  | Fin _, NegInf => PosInf
  | Fin x, Fin y => Fin (x - y)
  end.

Definition inf_of_sign (c : comparison) : num :=
  match c with Gt => PosInf | Lt => NegInf | Eq => NaN end.

(** [a * b] on numbers. *)
Definition num_mul (a b : num) : num :=
  match a, b with
  | NaN, _ | _, NaN => NaN
  | PosInf, PosInf | NegInf, NegInf => PosInf
  | PosInf, NegInf | NegInf, PosInf => NegInf
  | PosInf, Fin y => inf_of_sign (Qsign y)
  | NegInf, Fin y => inf_of_sign (CompOpp (Qsign y))
  | Fin x, PosInf => inf_of_sign (Qsign x)
  | Fin x, NegInf => inf_of_sign (CompOpp (Qsign x))
  | Fin x, Fin y => Fin (x * y)
  end.

(** The relational operators [a < b], [a > b]; false whenever an operand
    is NaN. *)
Definition num_lt (a b : num) : bool :=
  match a, b with
  | NaN, _ | _, NaN => false
  | _, NegInf => false
  | PosInf, _ => false
  | NegInf, _ => true
  | Fin _, PosInf => true
  | Fin x, Fin y => match Qcompare x y with Lt => true | _ => false end
  end.

Definition num_gt (a b : num) : bool := num_lt b a.

(** Strict equality [a === b] on numbers. *)
Definition num_eq (a b : num) : bool :=
  match a, b with
  | PosInf, PosInf | NegInf, NegInf => true
  | Fin x, Fin y => Qeq_bool x y
  | _, _ => false
  end.

Definition num_of_Z (z : Z) : num := Fin (inject_Z z).

(** The order of the extended number line; NaN is related to nothing. *)
Definition num_le (a b : num) : bool :=
  match a, b with
  | NaN, _ | _, NaN => false
  | NegInf, _ => true
  | _, PosInf => true
  | Fin x, Fin y => Qle_bool x y
  | _, _ => false
  end.


(** ** Strings *)

Definition is_digit (c : ascii) : bool :=
  let n := N_of_ascii c in ((48 <=? n) && (n <=? 57))%N.

(** White space recognised by [trim] (ASCII part). *)
Definition is_space (c : ascii) : bool :=
  let n := N_of_ascii c in (((9 <=? n) && (n <=? 13)) || (n =? 32))%N.

Definition lower_char (c : ascii) : ascii :=
  let n := N_of_ascii c in
  if ((65 <=? n) && (n <=? 90))%N then ascii_of_N (n + 32) else c.

(** [s.toLowerCase()] *)
Fixpoint toLowerCase (s : string) : string :=
  match s with
  | EmptyString => EmptyString
  | String c r => String (lower_char c) (toLowerCase r)
  end.

Fixpoint trimStart (s : string) : string :=
  match s with
  | EmptyString => EmptyString
  | String c r => if is_space c then trimStart r else s
  end.

Fixpoint rev_string (s acc : string) : string :=
  match s with
  | EmptyString => acc
  | String c r => rev_string r (String c acc)
  end.

(** [s.trim()] *)
Definition trim (s : string) : string :=
  rev_string (trimStart (rev_string (trimStart s) "")) "".

(** [!s] for a string [s]. *)
Definition str_empty (s : string) : bool :=
  match s with EmptyString => true | _ => false end.

(** [a < b] and [a > b] on strings: code-unit lexicographic order. *)
Definition str_lt (a b : string) : bool := String.ltb a b.
Definition str_gt (a b : string) : bool := String.ltb b a.

(** Leading decimal digits of a string and what follows them. *)
Fixpoint span_digits (s : string) : string * string :=
  match s with
  | String c r =>
      if is_digit c then let '(d, t) := span_digits r in (String c d, t)
      else (EmptyString, s)
  | EmptyString => (EmptyString, EmptyString)
  end.

Definition digit_val (c : ascii) : Z := Z.of_N (N_of_ascii c) - 48.

(** Value of a string of decimal digits, most significant first. *)
Fixpoint digits_val (acc : Z) (s : string) : Z :=
  match s with
  | EmptyString => acc
  | String c r => digits_val (10 * acc + digit_val c) r
  end.

(** [parseInt(s, 10)] for a string of decimal digits, as the regular
    expressions of [parseDate] capture them. *)
Definition parseInt10 (s : string) : Z := digits_val 0 s.

Definition strip_prefix (p s : string) : option string :=
  if String.prefix p s
  then Some (String.substring (String.length p) (String.length s - String.length p) s)
  else None.

(** An optional sign: [true] for a leading minus. *)
Definition take_sign (s : string) : bool * string :=
  match s with
  | String "-" r => (true, r)
  | String "+" r => (false, r)
  | _ => (false, s)
  end.

(** The exponent part of a decimal literal, when one is present and well
    formed; 0 otherwise. *)
Definition take_exponent (s : string) : Z :=
  match s with
  | String c r =>
      if (Ascii.eqb c "e" || Ascii.eqb c "E")%bool then
        let '(neg, r') := take_sign r in
        let '(d, _) := span_digits r' in
        if str_empty d then 0
        else if neg then - digits_val 0 d else digits_val 0 d
      else 0
  | EmptyString => 0
  end.

Definition pow10 (e : Z) : Q :=
  if 0 <=? e then inject_Z (10 ^ e) else / inject_Z (10 ^ (- e)).

(** The global [parseFloat]: the value of the longest prefix of the
    trimmed argument that is a decimal literal, NaN when there is none. *)
Definition parseFloat (s : string) : num :=
  let '(neg, r) := take_sign (trimStart s) in
  let sign (n : num) := if neg then num_neg n else n in
  match strip_prefix "Infinity" r with
  | Some _ => sign PosInf
  | None =>
      let '(ip, r1) := span_digits r in
      let '(fp, r2) :=
        match r1 with
        | String "." r1' => span_digits r1'
        | _ => (EmptyString, r1)
        end in
      if (str_empty ip && str_empty fp)%bool then NaN
      else
        let m := digits_val 0 (ip ++ fp) in
        let e := take_exponent r2 - Z.of_nat (String.length fp) in
        sign (Fin (inject_Z m * pow10 e))
  end.

(** ** Values of object properties, as JSON delivers them *)

Inductive jsval : Type :=
  | JUndefined
  | JNull
  | JBool (b : bool)
  | JNum (n : num)
  | JStr (s : string).

(** An object: its properties in insertion order. *)
Definition obj : Type := list (string * jsval).

(** [o[key]]: the first binding of [key], [undefined] when there is none. *)
Fixpoint get (o : obj) (key : string) : jsval :=
  match o with
  | [] => JUndefined
  | (k, v) :: r => if String.eqb k key then v else get r key
  end.

(** [o[key] = v]: in place when [o] has the property, at the end
    otherwise. *)
Fixpoint set_prop (o : obj) (key : string) (v : jsval) : obj :=
  match o with
  | [] => [(key, v)]
  | (k, w) :: r =>
      if String.eqb k key then (k, v) :: r else (k, w) :: set_prop r key v
  end.

(** [{ ...a, ...b }]: the properties of [b] are set on a copy of [a]. *)
Definition spread (a b : obj) : obj :=
  fold_left (fun o kv => set_prop o (fst kv) (snd kv)) b a.

(** Truthiness, as [!v], [v || d] and [if (v)] test it. *)
Definition truthy (v : jsval) : bool :=
  match v with
  | JUndefined | JNull => false
  | JBool b => b
  | JNum NaN => false
  | JNum (Fin q) => negb (Qeq_bool q 0)
  | JNum _ => true
  | JStr s => negb (str_empty s)
  end.

(** [v ?? d] *)
Definition nullish_or (v d : jsval) : jsval :=
  match v with JUndefined | JNull => d | _ => v end.

(** [v || d] *)
Definition or_else (v d : jsval) : jsval := if truthy v then v else d.

(** Decimal digits of a natural number. *)
Definition Z_digits (n : Z) : string :=
  NilZero.string_of_uint (N.to_uint (Z.to_N n)).

(** [s.padStart(n, '0')] *)
Definition padStart0 (n : nat) (s : string) : string :=
  string_of_list_ascii (List.repeat "0"%char (n - String.length s)) ++ s.

(** What the browser supplies and ECMAScript does not determine from the
    exact value of a number or from the text of a date. *)
Record Host : Type := {
  (** [Number::toString] of a finite number: the shortest digits that
      read back as the same binary64 value. *)
  Number_toString : Q -> string;
  (** [new Date(s).getTime()]; [None] is the invalid date. *)
  Date_parse : string -> option Z;
  (** Offset of local time from UTC at a time value, in milliseconds. *)
  LocalTZA : Z -> Z;
  (** [Intl.NumberFormat('en-PH', {style:'currency', currency:'PHP', ...})
      .format(x)] *)
  Intl_format_PHP : num -> string
}.

Section Conversions.
Variable h : Host.

(** [String(n)] for a number. *)
Definition num_toString (n : num) : string :=
  match n with
  | NaN => "NaN"
  | PosInf => "Infinity"
  | NegInf => "-Infinity"
  | Fin q => Number_toString h q
  end.

(** [String(v)] *)
Definition ToString (v : jsval) : string :=
  match v with
  | JUndefined => "undefined"
  | JNull => "null"
  | JBool true => "true"
  | JBool false => "false"
  | JNum n => num_toString n
  | JStr s => s
  end.

(** [x.toFixed(f)]: the sign, then for [|x|] below 10^21 the integer [n]
    with [n / 10^f] nearest to [|x|], the larger one on a tie, printed with
    [f] decimals. *)
Definition toFixed (x : num) (f : nat) : string :=
  match x with
  | Fin q =>
      let neg := match Qcompare q 0 with Lt => true | _ => false end in
      let a := Qabs q in
      let m :=
        if Qle_bool (inject_Z (10 ^ 21)) a then Number_toString h a
        else
          let n := Qfloor (a * inject_Z (10 ^ Z.of_nat f) + (1 # 2)) in
          let digits := padStart0 (S f) (Z_digits n) in
          let k := (String.length digits - f)%nat in
          match f with
          | O => digits
          | _ => String.substring 0 k digits ++ "." ++ String.substring k f digits
          end in
      if neg then "-" ++ m else m
  | _ => num_toString x
  end.
End Conversions.

End Js.
Import Js.

(* ================================================================== *)
(** * Dates: the time values of ECMAScript *)
(* ================================================================== *)

Module DateTime.

Definition msPerDay : Z := 86400000.

Definition Day (t : Z) : Z := t / msPerDay.

Definition DayFromYear (y : Z) : Z :=
  365 * (y - 1970) + (y - 1969) / 4 - (y - 1901) / 100 + (y - 1601) / 400.

Definition InLeapYear (y : Z) : bool :=
  ((y mod 4 =? 0) && negb (y mod 100 =? 0)) || (y mod 400 =? 0).

Definition leap_days (y : Z) : Z := if InLeapYear y then 1 else 0.

(** The year of a day number: the largest [y] with [DayFromYear y <= d]. *)
Definition YearFromDay (d : Z) : Z :=
  let c := 1970 + (400 * d) / 146097 in
  if d <? DayFromYear c then c - 1
  else if DayFromYear (c + 1) <=? d then c + 1
  else c.

Definition YearFromTime (t : Z) : Z := YearFromDay (Day t).

Definition DayWithinYear (t : Z) : Z := Day t - DayFromYear (YearFromTime t).

(** Month number 0..11 of a time value. *)
Definition MonthFromTime (t : Z) : Z :=
  let dw := DayWithinYear t in
  let l := leap_days (YearFromTime t) in
  if dw <? 31 then 0
  else if dw <? 59 + l then 1
  else if dw <? 90 + l then 2
  else if dw <? 120 + l then 3
  else if dw <? 151 + l then 4
  else if dw <? 181 + l then 5
  else if dw <? 212 + l then 6
  else if dw <? 243 + l then 7
  else if dw <? 273 + l then 8
  else if dw <? 304 + l then 9
  else if dw <? 334 + l then 10
  else 11.

(** Number of days of the year before month [m] (0..11) begins. *)
Definition days_before_month (l m : Z) : Z :=
  match m with
  | 0 => 0
  | 1 => 31
  | 2 => 59 + l
  | 3 => 90 + l
  | 4 => 120 + l
  | 5 => 151 + l
  | 6 => 181 + l
  | 7 => 212 + l
  | 8 => 243 + l
  | 9 => 273 + l
  | 10 => 304 + l
  | _ => 334 + l
  end.

(** Day of the month 1..31 of a time value. *)
Definition DateFromTime (t : Z) : Z :=
  DayWithinYear t
  - days_before_month (leap_days (YearFromTime t)) (MonthFromTime t) + 1.

(** [MakeDay(year, month, date)] on integers. *)
Definition MakeDay (year month date : Z) : Z :=
  let ym := year + month / 12 in
  let mn := month mod 12 in
  DayFromYear ym + days_before_month (leap_days ym) mn + date - 1.

(** [TimeClip] *)
Definition TimeClip (t : Z) : option Z :=
  if Z.abs t <=? 8640000000000000 then Some t else None.

(** [Date.UTC(year, month, date)]: years 0..99 denote 1900..1999. *)
Definition Date_UTC (year month date : Z) : option Z :=
  let yr := if (0 <=? year) && (year <=? 99) then 1900 + year else year in
  TimeClip (MakeDay yr month date * msPerDay).

Definition getUTCFullYear (t : Z) : Z := YearFromTime t.
Definition getUTCMonth (t : Z) : Z := MonthFromTime t.
Definition getUTCDate (t : Z) : Z := DateFromTime t.

Section Local.
Variable h : Host.
Definition LocalTime (t : Z) : Z := t + LocalTZA h t.
Definition getFullYear (t : Z) : Z := YearFromTime (LocalTime t).
Definition getMonth (t : Z) : Z := MonthFromTime (LocalTime t).
Definition getDate (t : Z) : Z := DateFromTime (LocalTime t).
End Local.

End DateTime.
Import DateTime.

(* ================================================================== *)
(** * script.js: utility functions *)
(* ================================================================== *)

Module Script.

(** The double quote character. *)
Definition dquote : ascii := "034"%char.

(** The peso sign, U+20B1, in UTF-8. *)
Definition peso : string :=
  String "226" (String "130" (String "177" EmptyString)).

(** [s.replace(/[$,<peso>%]/g, '').replace(/,/g, '')] *)
Fixpoint strip_symbols (fuel : nat) (s : string) : string :=
  match fuel with
  | O => s
  | S fuel' =>
      match strip_prefix peso s with
      | Some r => strip_symbols fuel' r
      | None =>
          match s with
          | EmptyString => EmptyString
          | String c r =>
              if (Ascii.eqb c "$" || Ascii.eqb c "," || Ascii.eqb c "%")%bool
              then strip_symbols fuel' r
              else String c (strip_symbols fuel' r)
          end
      end
  end.

Definition remove_symbols (s : string) : string :=
  strip_symbols (String.length s) s.

Section Utilities.
Variable h : Host.

(** [safeFloat(value, fallback)].  The fallback is a number at some call
    sites and a string at others; [ret] injects the parsed number into
    the type of the fallback. *)
Definition safeFloatWith {A : Type} (ret : num -> A)
    (value : jsval) (fallback : A) : A :=
  match value with
  | JNull | JUndefined => fallback
  | _ =>
      let strValue := trim (remove_symbols (ToString h value)) in
      if str_empty strValue then fallback
      else
        let n := parseFloat strValue in
        if isNaN n then fallback else ret n
  end.

(** [safeFloat] with a numeric fallback (NaN is the default one). *)
Definition safeFloat (value : jsval) (fallback : num) : num :=
  safeFloatWith (fun n => n) value fallback.

(** [formatCurrency(value, fallback)]: [Intl.NumberFormat] does not throw
    on a number, so the [catch] branch is not reached. *)
Definition formatCurrency (value : jsval) (fallback : string) : string :=
  let numVal := safeFloat value NaN in
  if isNaN numVal then fallback else Intl_format_PHP h numVal.

(** [formatPercent(value, fallback)] *)
Definition formatPercent (value : jsval) (fallback : string) : string :=
  let numVal := safeFloat value NaN in
  if isNaN numVal then fallback else toFixed h numVal 1 ++ "%".

(** A [Date] object is its time value. *)
Definition date : Type := Z.

(** [/^(\d{4})-(\d{2})-(\d{2})/]: the three captured groups. *)
Definition isoMatch (s : string) : option (string * string * string) :=
  match s with
  | String y1 (String y2 (String y3 (String y4 (String "-"
      (String m1 (String m2 (String "-" (String d1 (String d2 _))))))))) =>
      if (is_digit y1 && is_digit y2 && is_digit y3 && is_digit y4
          && is_digit m1 && is_digit m2 && is_digit d1 && is_digit d2)%bool
      then Some (String y1 (String y2 (String y3 (String y4 EmptyString))),
                 String m1 (String m2 EmptyString),
                 String d1 (String d2 EmptyString))
      else None
  | _ => None
  end.

(** [\d{1,2}] at the head of a string, greedy. *)
Definition digits_1_2 (s : string) : option (string * string) :=
  match s with
  | String a r =>
      if is_digit a then
        match r with
        | String b r' =>
            if is_digit b then Some (String a (String b EmptyString), r')
            else Some (String a EmptyString, r)
        | EmptyString => Some (String a EmptyString, r)
        end
      else None
  | EmptyString => None
  end.

(** [/^(\d{1,2})\/(\d{1,2})\/(\d{4})/]: the three captured groups. *)
Definition slashMatch (s : string) : option (string * string * string) :=
  match digits_1_2 s with
  | Some (g1, String "/" r1) =>
      match digits_1_2 r1 with
      | Some (g2, String "/" (String y1 (String y2 (String y3 (String y4 _))))) =>
          if (is_digit y1 && is_digit y2 && is_digit y3 && is_digit y4)%bool
          then Some (g1, g2,
                     String y1 (String y2 (String y3 (String y4 EmptyString))))
          else None
      | _ => None
      end
  | _ => None
  end.

(** The body shared by the ISO and the US branch of [parseDate]: range
    check, [Date.UTC], and comparison of the parts read back. *)
Definition checked_utc (year month day : Z) : option date :=
  if ((1 <=? month) && (month <=? 12) && (1 <=? day) && (day <=? 31))%bool then
    match Date_UTC year (month - 1) day with
    | Some t =>
        if ((getUTCFullYear t =? year) && (getUTCMonth t + 1 =? month)
            && (getUTCDate t =? day))%bool
        then Some t else None
    | None => None
    end
  else None.

Definition parseDate_iso (strInput : string) : option date :=
  match isoMatch strInput with
  | Some (g1, g2, g3) =>
      checked_utc (parseInt10 g1) (parseInt10 g2) (parseInt10 g3)
  | None => None
  end.

Definition parseDate_slash (strInput : string) : option date :=
  match slashMatch strInput with
  | Some (g1, g2, g3) =>
      checked_utc (parseInt10 g3) (parseInt10 g1) (parseInt10 g2)
  | None => None
  end.

(** The last resort of [parseDate]: the [Date] constructor, then the
    local date parts moved to UTC. *)
Definition parseDate_fallback (strInput : string) : option date :=
  match Date_parse h strInput with
  | Some t => Date_UTC (getFullYear h t) (getMonth h t) (getDate h t)
  | None => None
  end.

(** [parseDate(dateStr)]; [None] is [null].  Property values are never
    [Date] objects, so the [instanceof Date] branch is not taken. *)
Definition parseDate (dateStr : jsval) : option date :=
  if negb (truthy dateStr) then None
  else
    let strInput := trim (ToString h dateStr) in
    if str_empty strInput then None
    else
      match parseDate_iso strInput with
      | Some d => Some d
      | None =>
          match parseDate_slash strInput with
          | Some d => Some d
          | None => parseDate_fallback strInput
          end
      end.

(** [String(z)] for an integer. *)
Definition Z_toString (z : Z) : string :=
  if z <? 0 then "-" ++ Z_digits (- z) else Z_digits z.

(** [formatDate(dateStr, fallback)] *)
Definition formatDate (dateStr : jsval) (fallback : string) : string :=
  if negb (truthy dateStr) then fallback
  else
    match parseDate dateStr with
    | Some d =>
        padStart0 2 (Z_toString (getUTCMonth d + 1)) ++ "/"
        ++ padStart0 2 (Z_toString (getUTCDate d)) ++ "/"
        ++ Z_toString (getUTCFullYear d)
    | None => fallback
    end.

(** [s.replace(/Q/g, 'QQ')], with Q the double quote. *)
Fixpoint escape_quotes (s : string) : string :=
  match s with
  | EmptyString => EmptyString
  | String c r =>
      if Ascii.eqb c dquote then String dquote (String dquote (escape_quotes r))
      else String c (escape_quotes r)
  end.

(** The test of the regular expression of [formatCsvCell]: the string
    holds a double quote, a comma or a line feed. *)
Fixpoint needs_quoting (s : string) : bool :=
  match s with
  | EmptyString => false
  | String c r =>
      (Ascii.eqb c dquote || Ascii.eqb c "," || Ascii.eqb c "010")%bool
      || needs_quoting r
  end.

(** The [stringValue] of [formatCsvCell]: [String(value)], the empty
    string for null and undefined. *)
Definition stringValue (value : jsval) : string :=
  match value with
  | JNull | JUndefined => EmptyString
  | _ => ToString h value
  end.

(** [formatCsvCell(value)] *)
Definition formatCsvCell (value : jsval) : string :=
  if needs_quoting (stringValue value)
  then String dquote (escape_quotes (stringValue value) ++ String dquote EmptyString)
  else stringValue value.

End Utilities.

(* ------------------------------------------------------------------ *)
(** ** Sorting the project tables *)

(** [currentSort.direction]: the click handler only ever stores ['asc'] or
    ['desc']. *)
Inductive direction : Type := asc | desc.

Record sortState : Type := {
  sort_key : string;
  sort_direction : direction
}.

Definition numericKeys : list string :=
  ["amount"; "status"; "remaining_amount"; "total_running_weeks"; "year"].

Definition dateKeys : list string := ["po_date"; "date_completed"].

(** [keys.includes(key)] *)
Definition includes (keys : list string) (key : string) : bool :=
  existsb (String.eqb key) keys.

(** [Array.prototype.sort(comparefn)].  ECMAScript asks for a stable sort
    and reads a NaN returned by the comparator as +0; for a comparator
    that is a consistent ordering every such sort returns the same array,
    the one this insertion sort builds. *)
Section ArraySort.
Context {A : Type}.
Variable comparefn : A -> A -> num.

Definition sorts_after (x y : A) : bool :=
  num_gt (comparefn x y) (Fin 0%Q).

Fixpoint insert_sorted (x : A) (l : list A) : list A :=
  match l with
  | [] => [x]
  | y :: t => if sorts_after x y then y :: insert_sorted x t else x :: l
  end.

Definition Array_sort (l : list A) : list A :=
  fold_right insert_sorted [] l.
End ArraySort.

Section Tables.
Variable h : Host.

(** The value that stands for a missing one in the numeric and date
    branches: [direction === 'asc' ? Infinity : -Infinity]. *)
Definition missing_value (d : direction) : num :=
  match d with asc => PosInf | desc => NegInf end.

(** The tail shared by the two text branches of the comparator. *)
Definition compare_text (sortMultiplier : num) (textA textB : string) : num :=
  if (str_empty textA && negb (str_empty textB))%bool then Fin 1%Q
  else if (negb (str_empty textA) && str_empty textB)%bool then Fin (-1)%Q
  else if (str_empty textA && str_empty textB)%bool then Fin 0%Q
  else if str_lt textA textB then num_mul (Fin (-1)%Q) sortMultiplier
  else if str_gt textA textB then num_mul (Fin 1%Q) sortMultiplier
  else Fin 0%Q.

(** The comparator that [renderActiveTable] and [renderCompletedTable]
    hand to [sort]. *)
Definition compareRows (key : string) (d : direction) (a b : obj) : num :=
  let sortMultiplier := match d with asc => Fin 1%Q | desc => Fin (-1)%Q end in
  let valA := get a key in
  let valB := get b key in
  if String.eqb key "latest_update" then
    let textA :=
      toLowerCase (ToString h (or_else (get a "latest_update") (JStr ""))) in
    let textB :=
      toLowerCase (ToString h (or_else (get b "latest_update") (JStr ""))) in
    compare_text sortMultiplier textA textB
  else if includes dateKeys key then
    let dateA := parseDate h valA in
    let dateB := parseDate h valB in
    let timeA :=
      match dateA with Some t => num_of_Z t | None => missing_value d end in
    let timeB :=
      match dateB with Some t => num_of_Z t | None => missing_value d end in
    num_mul (num_sub timeA timeB) sortMultiplier
  else if includes numericKeys key then
    let numA := safeFloat h valA (missing_value d) in
    let numB := safeFloat h valB (missing_value d) in
    num_mul (num_sub numA numB) sortMultiplier
  else
    let valA' := toLowerCase (ToString h (nullish_or valA (JStr ""))) in
    let valB' := toLowerCase (ToString h (nullish_or valB (JStr ""))) in
    compare_text sortMultiplier valA' valB'.

(** The copy of the data that a render function sorts and passes to
    [renderProjectTable]. *)
Definition sortedForRender (currentSort : sortState) (data : list obj)
  : list obj :=
  let dataToRender := data in
  if negb (str_empty (sort_key currentSort)) then
    Array_sort (compareRows (sort_key currentSort) (sort_direction currentSort))
               dataToRender
  else dataToRender.

End Tables.

End Script.
Import Script.

(* ================================================================== *)
(** * script.js: the state of the dashboard page and its handlers *)
(* ================================================================== *)

Module Dashboard.

Inductive table : Type := ActiveTable | CompletedTable.

Definition table_eqb (a b : table) : bool :=
  match a, b with
  | ActiveTable, ActiveTable | CompletedTable, CompletedTable => true
  | _, _ => false
  end.

(** What a table cell shows: text, or the [<input>] of an inline edit. *)
Inductive cellContent : Type :=
  | Text (s : string)
  | InputBox.

(** What the [blur] and [keydown] handlers installed by [makeCellEditable]
    close over: the input element (its current value), and the two
    originals. *)
Record editSession : Type := {
  input_value : string;
  originalNumericValue : num;
  originalDisplayValue : string
}.

(** A [<td>] created by [renderProjectTable].  Only the status cell and the
    remaining-amount cell of a row are written again after rendering, so
    only they are kept.  A cell that a later render removed from the
    document stays reachable from handlers: it is marked detached. *)
Record cell : Type := {
  cell_table : table;
  cell_attached : bool;
  cell_row : nat;
  data_field : string;
  data_projectId : string;
  remaining_amount_cell : bool;
  content : cellContent;
  data_originalValue : option string;
  inlineEditListeners : option editSession
}.

Definition cellId : Type := nat.

Inductive method : Type := GET | PUT | POST.

(** A call of [apiFetch]. *)
Record request : Type := {
  req_method : method;
  req_url : string;
  req_body : obj
}.

(** What runs when the response of a request arrives. *)
Inductive continuation : Type :=
  | AfterSave (c : cellId) (projectId fieldKey : string)
              (valueToSend : num) (displayValue : string) (originalValue : num)
  | AfterFetchActive
  | AfterFetchCompleted
  | AfterFetchDashboard.

(** The global variables of script.js and the part of the page they drive. *)
Record state : Type := {
  currentProjectsData : list obj;
  currentCompletedProjectsData : list obj;
  currentSort : sortState;
  currentlyEditingCell : option cellId;
  cells : list cell;
  shownActive : list obj;
  shownCompleted : list obj;
  feedback : option (string * string);
  editForm : option obj;
  requests : list request;
  awaiting : list continuation;
  downloads : list (string * string)
}.

Definition initial_state : state := {|
  currentProjectsData := [];
  currentCompletedProjectsData := [];
  currentSort := {| sort_key := "remaining_amount"; sort_direction := desc |};
  currentlyEditingCell := None;
  cells := [];
  shownActive := [];
  shownCompleted := [];
  feedback := None;
  editForm := None;
  requests := [];
  awaiting := [];
  downloads := []
|}.

(** *** Field updates *)

Definition with_content (v : cellContent) (c : cell) : cell :=
  {| cell_table := cell_table c; cell_attached := cell_attached c;
     cell_row := cell_row c; data_field := data_field c;
     data_projectId := data_projectId c;
     remaining_amount_cell := remaining_amount_cell c;
     content := v;
     data_originalValue := data_originalValue c;
     inlineEditListeners := inlineEditListeners c |}.

Definition with_originalValue (v : option string) (c : cell) : cell :=
  {| cell_table := cell_table c; cell_attached := cell_attached c;
     cell_row := cell_row c; data_field := data_field c;
     data_projectId := data_projectId c;
     remaining_amount_cell := remaining_amount_cell c;
     content := content c;
     data_originalValue := v;
     inlineEditListeners := inlineEditListeners c |}.

Definition with_listeners (v : option editSession) (c : cell) : cell :=
  {| cell_table := cell_table c; cell_attached := cell_attached c;
     cell_row := cell_row c; data_field := data_field c;
     data_projectId := data_projectId c;
     remaining_amount_cell := remaining_amount_cell c;
     content := content c;
     data_originalValue := data_originalValue c;
     inlineEditListeners := v |}.

Definition with_attached (v : bool) (c : cell) : cell :=
  {| cell_table := cell_table c; cell_attached := v;
     cell_row := cell_row c; data_field := data_field c;
     data_projectId := data_projectId c;
     remaining_amount_cell := remaining_amount_cell c;
     content := content c;
     data_originalValue := data_originalValue c;
     inlineEditListeners := inlineEditListeners c |}.

Definition set_cells (v : list cell) (st : state) : state :=
  {| currentProjectsData := currentProjectsData st;
     currentCompletedProjectsData := currentCompletedProjectsData st;
     currentSort := currentSort st;
     currentlyEditingCell := currentlyEditingCell st;
     cells := v;
     shownActive := shownActive st; shownCompleted := shownCompleted st;
     feedback := feedback st; editForm := editForm st;
     requests := requests st; awaiting := awaiting st;
     downloads := downloads st |}.

Definition set_editing (v : option cellId) (st : state) : state :=
  {| currentProjectsData := currentProjectsData st;
     currentCompletedProjectsData := currentCompletedProjectsData st;
     currentSort := currentSort st;
     currentlyEditingCell := v;
     cells := cells st;
     shownActive := shownActive st; shownCompleted := shownCompleted st;
     feedback := feedback st; editForm := editForm st;
     requests := requests st; awaiting := awaiting st;
     downloads := downloads st |}.

Definition set_data (active completed : list obj) (st : state) : state :=
  {| currentProjectsData := active;
     currentCompletedProjectsData := completed;
     currentSort := currentSort st;
     currentlyEditingCell := currentlyEditingCell st;
     cells := cells st;
     shownActive := shownActive st; shownCompleted := shownCompleted st;
     feedback := feedback st; editForm := editForm st;
     requests := requests st; awaiting := awaiting st;
     downloads := downloads st |}.

Definition set_sort (v : sortState) (st : state) : state :=
  {| currentProjectsData := currentProjectsData st;
     currentCompletedProjectsData := currentCompletedProjectsData st;
     currentSort := v;
     currentlyEditingCell := currentlyEditingCell st;
     cells := cells st;
     shownActive := shownActive st; shownCompleted := shownCompleted st;
     feedback := feedback st; editForm := editForm st;
     requests := requests st; awaiting := awaiting st;
     downloads := downloads st |}.

Definition set_shown (active completed : list obj) (st : state) : state :=
  {| currentProjectsData := currentProjectsData st;
     currentCompletedProjectsData := currentCompletedProjectsData st;
     currentSort := currentSort st;
     currentlyEditingCell := currentlyEditingCell st;
     cells := cells st;
     shownActive := active; shownCompleted := completed;
     feedback := feedback st; editForm := editForm st;
     requests := requests st; awaiting := awaiting st;
     downloads := downloads st |}.

Definition set_editForm (v : option obj) (st : state) : state :=
  {| currentProjectsData := currentProjectsData st;
     currentCompletedProjectsData := currentCompletedProjectsData st;
     currentSort := currentSort st;
     currentlyEditingCell := currentlyEditingCell st;
     cells := cells st;
     shownActive := shownActive st; shownCompleted := shownCompleted st;
     feedback := feedback st; editForm := v;
     requests := requests st; awaiting := awaiting st;
     downloads := downloads st |}.

Definition set_awaiting (v : list continuation) (st : state) : state :=
  {| currentProjectsData := currentProjectsData st;
     currentCompletedProjectsData := currentCompletedProjectsData st;
     currentSort := currentSort st;
     currentlyEditingCell := currentlyEditingCell st;
     cells := cells st;
     shownActive := shownActive st; shownCompleted := shownCompleted st;
     feedback := feedback st; editForm := editForm st;
     requests := requests st; awaiting := v;
     downloads := downloads st |}.

Definition add_download (v : string * string) (st : state) : state :=
  {| currentProjectsData := currentProjectsData st;
     currentCompletedProjectsData := currentCompletedProjectsData st;
     currentSort := currentSort st;
     currentlyEditingCell := currentlyEditingCell st;
     cells := cells st;
     shownActive := shownActive st; shownCompleted := shownCompleted st;
     feedback := feedback st; editForm := editForm st;
     requests := requests st; awaiting := awaiting st;
     downloads := (downloads st ++ [v])%list |}.

(** [displayFeedback(message, type)] *)
Definition displayFeedback (message type : string) (st : state) : state :=
  {| currentProjectsData := currentProjectsData st;
     currentCompletedProjectsData := currentCompletedProjectsData st;
     currentSort := currentSort st;
     currentlyEditingCell := currentlyEditingCell st;
     cells := cells st;
     shownActive := shownActive st; shownCompleted := shownCompleted st;
     feedback := Some (message, type); editForm := editForm st;
     requests := requests st; awaiting := awaiting st;
     downloads := downloads st |}.

(** [clearFeedback()] *)
Definition clearFeedback (st : state) : state :=
  {| currentProjectsData := currentProjectsData st;
     currentCompletedProjectsData := currentCompletedProjectsData st;
     currentSort := currentSort st;
     currentlyEditingCell := currentlyEditingCell st;
     cells := cells st;
     shownActive := shownActive st; shownCompleted := shownCompleted st;
     feedback := None; editForm := editForm st;
     requests := requests st; awaiting := awaiting st;
     downloads := downloads st |}.

(** [apiFetch(url, {method, body})] up to its [await]: the request goes
    out and [k] waits for the response. *)
Definition apiFetch (m : method) (url : string) (body : obj)
    (k : continuation) (st : state) : state :=
  {| currentProjectsData := currentProjectsData st;
     currentCompletedProjectsData := currentCompletedProjectsData st;
     currentSort := currentSort st;
     currentlyEditingCell := currentlyEditingCell st;
     cells := cells st;
     shownActive := shownActive st; shownCompleted := shownCompleted st;
     feedback := feedback st; editForm := editForm st;
     requests := (requests st ++ [{| req_method := m; req_url := url;
                                     req_body := body |}])%list;
     awaiting := (awaiting st ++ [k])%list;
     downloads := downloads st |}.

(** Replaces the element at a position of a list; nothing when the
    position is out of range. *)
Fixpoint list_set {A : Type} (i : nat) (v : A) (l : list A) : list A :=
  match l, i with
  | [], _ => []
  | _ :: t, O => v :: t
  | x :: t, S j => x :: list_set j v t
  end.

Definition update_cell (c : cellId) (f : cell -> cell) (st : state) : state :=
  match nth_error (cells st) c with
  | Some cl => set_cells (list_set c (f cl) (cells st)) st
  | None => st
  end.

(** [cell.textContent = s] *)
Definition set_textContent (c : cellId) (s : string) (st : state) : state :=
  update_cell c (with_content (Text s)) st.

(** [cell.textContent]: an [<input>] has no text of its own. *)
Definition textContent (cl : cell) : string :=
  match content cl with
  | Text s => s
  | InputBox => EmptyString
  end.

Definition API_BASE_URL : string := "/api".
Definition PROJECTS_API : string := API_BASE_URL ++ "/projects".
Definition COMPLETED_PROJECTS_API : string := API_BASE_URL ++ "/projects/completed".
Definition DASHBOARD_API : string := API_BASE_URL ++ "/dashboard".
Definition ADD_FORECAST_API : string := API_BASE_URL ++ "/forecast".
Definition UPDATE_PROJECT_API (projectId : string) : string :=
  PROJECTS_API ++ "/" ++ projectId.

(** The rest of a string after its longest decimal literal, when it starts
    with one. *)
Definition literal_rest (s : string) : option string :=
  let '(_, r) := take_sign s in
  match strip_prefix "Infinity" r with
  | Some rest => Some rest
  | None =>
      let '(ip, r1) := span_digits r in
      let '(fp, r2) :=
        match r1 with
        | String "." r1' => span_digits r1'
        | _ => (EmptyString, r1)
        end in
      if (str_empty ip && str_empty fp)%bool then None
      else
        match r2 with
        | String c r3 =>
            if (Ascii.eqb c "e" || Ascii.eqb c "E")%bool then
              let '(_, r4) := take_sign r3 in
              let '(d, r5) := span_digits r4 in
              if str_empty d then Some r2 else Some r5
            else Some r2
        | EmptyString => Some r2
        end
  end.

(** [Number(s)] for a string: the decimal literal that the whole trimmed
    string spells, 0 for white space only, NaN otherwise (the prefixed
    hexadecimal, octal and binary forms are left out). *)
Definition StringToNumber (s : string) : num :=
  let t := trim s in
  if str_empty t then Fin 0%Q
  else match literal_rest t with
       | Some EmptyString => parseFloat t
       | _ => NaN
       end.

(** [v == s] for a string [s]. *)
Definition loose_eq_string (v : jsval) (s : string) : bool :=
  match v with
  | JStr t => String.eqb t s
  | JNum n => num_eq n (StringToNumber s)
  | JBool b => num_eq (Fin (if b then 1 else 0)%Q) (StringToNumber s)
  | JNull | JUndefined => false
  end.

(** [v === n] for a number [n]. *)
Definition strict_eq_num (v : jsval) (n : num) : bool :=
  match v with
  | JNum m => num_eq m n
  | _ => false
  end.

(** [arr.findIndex(pred)]; [None] is -1. *)
Fixpoint findIndex {A : Type} (pred : A -> bool) (l : list A) : option nat :=
  match l with
  | [] => None
  | x :: t => if pred x then Some O else option_map S (findIndex pred t)
  end.

(** The part of [s] before the first occurrence of the character [c]:
    [s.split(c)[0]]. *)
Fixpoint before_char (c : ascii) (s : string) : string :=
  match s with
  | EmptyString => EmptyString
  | String x r => if Ascii.eqb x c then EmptyString else String x (before_char c r)
  end.

(** What a continuation finds in the response: for a list endpoint the
    array of rows, for an update the [updatedProject] property of the
    result; or the message of the error that [apiFetch] throws. *)
Inductive response : Type :=
  | Ok (rows : list obj) (updatedProject : option obj)
  | Error (message : string).

Section Handlers.
Variable h : Host.

(** *** Rendering *)

Definition detach_table (t : table) (cl : cell) : cell :=
  if table_eqb (cell_table cl) t then with_attached false cl else cl.

(** The two cells of the row of [project] that handlers write later. *)
Definition new_row_cells (t : table) (row : nat) (project : obj) : list cell :=
  [ {| cell_table := t; cell_attached := true; cell_row := row;
       data_field := "status";
       data_projectId := ToString h (get project "id");
       remaining_amount_cell := false;
       content := Text (formatPercent h (get project "status") "N/A");
       data_originalValue := None;
       inlineEditListeners := None |};
    {| cell_table := t; cell_attached := true; cell_row := row;
       data_field := EmptyString;
       data_projectId := EmptyString;
       remaining_amount_cell := true;
       content := Text (formatCurrency h (get project "remaining_amount") "N/A");
       data_originalValue := None;
       inlineEditListeners := None |} ].

Fixpoint render_rows (t : table) (data : list obj) (acc : list cell)
  : list cell :=
  match data with
  | [] => acc
  | project :: rest =>
      render_rows t rest (acc ++ new_row_cells t (List.length acc) project)%list
  end.

(** [renderProjectTable(dataToRender, tableBody, isCompletedTable)]: the
    old rows leave the document, one row per project is appended. *)
Definition renderProjectTable (dataToRender : list obj) (t : table)
    (st : state) : state :=
  let st1 :=
    set_cells (render_rows t dataToRender (map (detach_table t) (cells st))) st in
  match t with
  | ActiveTable => set_shown dataToRender (shownCompleted st1) st1
  | CompletedTable => set_shown (shownActive st1) dataToRender st1
  end.

(** [renderActiveTable()] *)
Definition renderActiveTable (st : state) : state :=
  renderProjectTable
    (sortedForRender h (currentSort st) (currentProjectsData st))
    ActiveTable st.

(** [renderCompletedTable()] *)
Definition renderCompletedTable (st : state) : state :=
  renderProjectTable
    (sortedForRender h (currentSort st) (currentCompletedProjectsData st))
    CompletedTable st.

Definition applyFiltersAndRender (st : state) : state := renderActiveTable st.

(** The click listener that [setupSortListeners] puts on the header of
    table [t], for a header whose [data-sort-key] is [sortKey]. *)
Definition sortHeaderClick (t : table) (sortKey : string) (st : state) : state :=
  if str_empty sortKey then st
  else
    let nextDirection :=
      if String.eqb (sort_key (currentSort st)) sortKey then
        match sort_direction (currentSort st) with asc => desc | desc => asc end
      else asc in
    let st1 :=
      set_sort {| sort_key := sortKey; sort_direction := nextDirection |} st in
    match t with
    | ActiveTable => renderActiveTable st1
    | CompletedTable => renderCompletedTable st1
    end.

(** *** Fetching *)

(** The table body gets the single loading (or error, or empty) row. *)
Definition clear_table (t : table) (st : state) : state :=
  let st1 := set_cells (map (detach_table t) (cells st)) st in
  match t with
  | ActiveTable => set_shown [] (shownCompleted st1) st1
  | CompletedTable => set_shown (shownActive st1) [] st1
  end.

(** [fetchActiveProjects()] up to its [await]. *)
Definition fetchActiveProjects (st : state) : state :=
  apiFetch GET PROJECTS_API [] AfterFetchActive (clear_table ActiveTable st).

(** [fetchActiveProjects()] from its [await] on. *)
Definition fetchActiveProjects_resume (r : response) (st : state) : state :=
  match r with
  | Ok data _ =>
      applyFiltersAndRender
        (set_data data (currentCompletedProjectsData st) st)
  | Error message =>
      if String.eqb message "Unauthorized" then st
      else clear_table ActiveTable
             (set_data [] (currentCompletedProjectsData st) st)
  end.

(** [fetchCompletedProjects()] up to its [await]. *)
Definition fetchCompletedProjects (st : state) : state :=
  apiFetch GET COMPLETED_PROJECTS_API [] AfterFetchCompleted
           (clear_table CompletedTable st).

(** [fetchCompletedProjects()] from its [await] on. *)
Definition fetchCompletedProjects_resume (r : response) (st : state) : state :=
  match r with
  | Ok data _ =>
      renderCompletedTable (set_data (currentProjectsData st) data st)
  | Error message =>
      if String.eqb message "Unauthorized" then st
      else clear_table CompletedTable
             (set_data (currentProjectsData st) [] st)
  end.

(** [fetchDashboardData()] up to its [await]; what follows only fills
    the metric tiles. *)
Definition fetchDashboardData (st : state) : state :=
  apiFetch GET DASHBOARD_API [] AfterFetchDashboard st.

(** *** Inline editing *)

(** [makeCellEditable(cell)].  The input starts with the text of the
    number it is given. *)
Definition makeCellEditable (c : cellId) (st : state) : state :=
  match nth_error (cells st) c with
  | None => st
  | Some cl =>
      match currentlyEditingCell st with
      | Some e =>
          if Nat.eqb e c then st
          else displayFeedback "Please save or cancel the other edit first."
                               "warning" st
      | None =>
          let fieldKey := data_field cl in
          if negb (String.eqb fieldKey "status") then st
          else
            let st1 := set_editing (Some c) st in
            let originalDisplayValue := trim (textContent cl) in
            let inputValue :=
              safeFloat h (JStr originalDisplayValue) (Fin 0%Q) in
            let originalNumericValue := inputValue in
            update_cell c
              (fun cl0 =>
                 with_listeners
                   (Some {| input_value := num_toString h inputValue;
                            originalNumericValue := originalNumericValue;
                            originalDisplayValue := originalDisplayValue |})
                   (with_content InputBox
                      (with_originalValue (Some originalDisplayValue) cl0)))
              st1
      end
  end.

(** The user changes the text of the input of cell [c]. *)
Definition typeInto (c : cellId) (v : string) (st : state) : state :=
  update_cell c
    (fun cl =>
       match inlineEditListeners cl with
       | Some s =>
           with_listeners
             (Some {| input_value := v;
                      originalNumericValue := originalNumericValue s;
                      originalDisplayValue := originalDisplayValue s |}) cl
       | None => cl
       end) st.

(** [saveEdit(inputElement, cell, projectId, fieldKey, originalValue)] up
    to its [await]; [inputElement_value] is [inputElement.value]. *)
Definition saveEdit (inputElement_value : string) (c : cellId)
    (projectId fieldKey : string) (originalValue : num) (st : state) : state :=
  match nth_error (cells st) c, currentlyEditingCell st with
  | Some cl, Some e =>
      if negb (Nat.eqb e c) then st
      else
        let st1 := update_cell c (with_listeners None) st in
        let st2 := set_editing None st1 in
        let newValue := trim inputElement_value in
        if String.eqb fieldKey "status" then
          let numericValue := safeFloat h (JStr newValue) NaN in
          if (isNaN numericValue || num_lt numericValue (Fin 0%Q)
              || num_gt numericValue (Fin 100%Q))%bool then
            set_textContent c (formatPercent h (JNum originalValue) "N/A")
              (displayFeedback
                 "Invalid Status value. Must be between 0 and 100." "error" st2)
          else
            let valueToSend := numericValue in
            let displayValue := formatPercent h (JNum numericValue) "N/A" in
            let changed :=
              negb (num_eq (parseFloat (toFixed h valueToSend 1))
                           (parseFloat (toFixed h originalValue 1))) in
            if negb changed then set_textContent c displayValue st2
            else
              apiFetch PUT (UPDATE_PROJECT_API projectId)
                [(fieldKey, JNum valueToSend)]
                (AfterSave c projectId fieldKey valueToSend displayValue
                           originalValue)
                (set_textContent c "Saving..." st2)
        else
          set_textContent c
            (match data_originalValue cl with
             | Some o => o
             | None => EmptyString
             end) st2
  | _, _ => st
  end.

(** The first remaining-amount cell of the row of cell [c]:
    [cell.closest('tr')?.querySelector('.remaining-amount-cell')]. *)
Definition remainingCell_of (c : cellId) (st : state) : option cellId :=
  match nth_error (cells st) c with
  | Some cl =>
      findIndex (fun x => Nat.eqb (cell_row x) (cell_row cl)
                          && remaining_amount_cell x)%bool (cells st)
  | None => None
  end.

Definition status_or_amount (fieldKey : string) : bool :=
  (String.eqb fieldKey "status" || String.eqb fieldKey "amount")%bool.

(** [saveEdit] from its [await] on. *)
Definition saveEdit_resume (c : cellId) (projectId fieldKey : string)
    (valueToSend : num) (displayValue : string) (originalValue : num)
    (r : response) (st : state) : state :=
  match r with
  | Ok _ result_updatedProject =>
      let st1 := set_textContent c displayValue st in
      let projectIndexActive :=
        findIndex (fun p => loose_eq_string (get p "id") projectId)
                  (currentProjectsData st1) in
      let projectIndexCompleted :=
        findIndex (fun p => loose_eq_string (get p "id") projectId)
                  (currentCompletedProjectsData st1) in
      match result_updatedProject with
      | Some updatedProjectData =>
          let st2 :=
            match projectIndexActive, projectIndexCompleted with
            | Some i, _ =>
                set_data
                  (list_set i
                     (spread (nth i (currentProjectsData st1) []) updatedProjectData)
                     (currentProjectsData st1))
                  (currentCompletedProjectsData st1) st1
            | None, Some j =>
                set_data (currentProjectsData st1)
                  (list_set j
                     (spread (nth j (currentCompletedProjectsData st1) [])
                             updatedProjectData)
                     (currentCompletedProjectsData st1)) st1
            | None, None => fetchCompletedProjects (fetchActiveProjects st1)
            end in
          if status_or_amount fieldKey then
            let st3 :=
              match remainingCell_of c st2 with
              | Some rc =>
                  set_textContent rc
                    (formatCurrency h (get updatedProjectData "remaining_amount")
                                    "N/A") st2
              | None => st2
              end in
            fetchDashboardData st3
          else st2
      | None =>
          let st2 := fetchCompletedProjects (fetchActiveProjects st1) in
          if status_or_amount fieldKey then fetchDashboardData st2 else st2
      end
  | Error message =>
      if String.eqb message "Unauthorized" then st
      else
        let st1 :=
          displayFeedback ("Error updating " ++ fieldKey ++ ": " ++ message)
                          "error" st in
        set_textContent c
          (if String.eqb fieldKey "status"
           then formatPercent h (JNum originalValue) "N/A"
           else match nth_error (cells st1) c with
                | Some cl =>
                    match data_originalValue cl with
                    | Some o => o
                    | None => EmptyString
                    end
                | None => EmptyString
                end) st1
  end.

(** [cancelEdit(inputElement, cell, originalDisplayValue)] *)
Definition cancelEdit (c : cellId) (originalDisplayValue : string)
    (st : state) : state :=
  match nth_error (cells st) c, currentlyEditingCell st with
  | Some cl, Some e =>
      if negb (Nat.eqb e c) then st
      else
        let st1 := update_cell c (with_listeners None) st in
        let st2 := set_textContent c originalDisplayValue st1 in
        let st3 := update_cell c (with_originalValue None) st2 in
        set_editing None st3
  | _, _ => st
  end.

(** The [keydown] listener of the input of cell [c]. *)
Definition handleKeyDown (c : cellId) (key : string) (st : state) : state :=
  match nth_error (cells st) c with
  | Some cl =>
      match inlineEditListeners cl with
      | Some s =>
          if String.eqb key "Enter" then
            saveEdit (input_value s) c (data_projectId cl) (data_field cl)
                     (originalNumericValue s) st
          else if String.eqb key "Escape" then
            cancelEdit c (originalDisplayValue s) st
          else st
      | None => st
      end
  | None => st
  end.

(** The [blur] listener of the input of cell [c], at the moment its
    timer fires with the focus elsewhere. *)
Definition handleBlur (c : cellId) (st : state) : state :=
  match nth_error (cells st) c with
  | Some cl =>
      match inlineEditListeners cl, currentlyEditingCell st with
      | Some s, Some e =>
          if Nat.eqb e c then
            saveEdit (input_value s) c (data_projectId cl) (data_field cl)
                     (originalNumericValue s) st
          else st
      | _, _ => st
      end
  | None => st
  end.

(** The clean-up that closing the edit-project modal runs. *)
Definition closeEditProjectModal (st : state) : state :=
  match currentlyEditingCell st with
  | Some c =>
      match nth_error (cells st) c with
      | Some cl =>
          match content cl with
          | InputBox =>
              cancelEdit c
                (match data_originalValue cl with
                 | Some o => o
                 | None => EmptyString
                 end) st
          | Text _ => st
          end
      | None => st
      end
  | None => st
  end.

(** *** The edit-project modal *)

(** [v.split('T')[0]] for a date property, [''] when it is falsy.  The
    rows of the API carry dates as strings or null. *)
Definition date_part (v : jsval) : string :=
  if truthy v then before_char "T" (ToString h v) else EmptyString.

(** [arr.find(p => p.id === projectId)] *)
Definition find_project (projectId : num) (data : list obj) : option obj :=
  List.find (fun p => strict_eq_num (get p "id") projectId) data.

(** [openEditModal(projectId)]: the form fields it fills. *)
Definition openEditModal (projectId : num) (st : state) : state :=
  let st1 := clearFeedback st in
  let found :=
    match find_project projectId (currentProjectsData st1) with
    | Some p => Some p
    | None => find_project projectId (currentCompletedProjectsData st1)
    end in
  match found with
  | None =>
      displayFeedback
        ("Error: Project with ID " ++ num_toString h projectId ++ " not found.")
        "error" st1
  | Some project =>
      let text (v : jsval) := JStr (ToString h v) in
      let or_empty (k : string) := text (or_else (get project k) (JStr "")) in
      let nullish_empty (k : string) := text (nullish_or (get project k) (JStr "")) in
      set_editForm
        (Some [ ("edit-project_name", or_empty "project_name");
                ("edit-project_no", or_empty "project_no");
                ("edit-client", or_empty "client");
                ("edit-amount", nullish_empty "amount");
                ("edit-status", nullish_empty "status");
                ("edit-po_date", JStr (date_part (get project "po_date")));
                ("edit-po_no", or_empty "po_no");
                ("edit-date_completed",
                   JStr (date_part (get project "date_completed")));
                ("edit-pic", or_empty "pic");
                ("edit-address", or_empty "address");
                ("edit-ds", or_empty "ds");
                ("edit-year", nullish_empty "year") ])
        st1
  end.

(** *** CSV export *)

Definition csv_headers : list string :=
  ["BS"; "Year"; "Project #"; "Client"; "Project Name"; "Amount";
   "Status (%)"; "Remaining"; "Weeks"; "PO Date"; "PO No."; "Date Completed";
   "PIC"; "Latest Update"; "Address"].

(** The array [row] that [exportToCSV] builds for a project. *)
Definition csv_row (project : obj) : list jsval :=
  let nn (k : string) := nullish_or (get project k) (JStr "") in
  [ nn "ds"; nn "year"; nn "project_no"; nn "client"; nn "project_name";
    safeFloatWith h JNum (get project "amount") (JStr "");
    safeFloatWith h JNum (get project "status") (JStr "");
    safeFloatWith h JNum (get project "remaining_amount") (JStr "");
    nn "total_running_weeks";
    JStr (formatDate h (get project "po_date") "");
    nn "po_no";
    JStr (formatDate h (get project "date_completed") "");
    nn "pic"; nn "latest_update"; nn "address" ].

(** [cells.map(formatCsvCell).join(',')] *)
Definition csv_line (cells : list jsval) : string :=
  String.concat "," (map (formatCsvCell h) cells).

(** The byte order mark that starts the exported file, in UTF-8. *)
Definition BOM : string :=
  String "239" (String "187" (String "191" EmptyString)).

(** The text of the file that [exportToCSV] offers for download. *)
Definition csv_file (dataToExport : list obj) : string :=
  BOM ++ String.concat (String "010" EmptyString)
           (csv_line (map JStr csv_headers) :: map (fun p => csv_line (csv_row p)) dataToExport).

(** [exportToCSV(dataToExport, filenamePrefix)]; the download is recorded
    with the prefix of its file name (the rest is the time of day). *)
Definition exportToCSV (dataToExport : list obj) (filenamePrefix : string)
    (st : state) : state :=
  match dataToExport with
  | [] =>
      displayFeedback
        ("No data available to export for " ++ filenamePrefix ++ ".")
        "warning" st
  | _ => add_download (filenamePrefix, csv_file dataToExport) st
  end.

(** [exportActiveToCSV()] *)
Definition exportActiveToCSV (st : state) : state :=
  exportToCSV (currentProjectsData st) "Active_Projects" st.

(** [exportCompletedToCSV()] *)
Definition exportCompletedToCSV (st : state) : state :=
  exportToCSV (currentCompletedProjectsData st) "Completed_Projects" st.

(** *** The operations of the page, and the delivery of responses *)

Inductive operation : Type :=
  | OpFetchActive
  | OpFetchCompleted
  | OpSortClick (t : table) (sortKey : string)
  | OpDblClick (c : cellId)
  | OpType (c : cellId) (v : string)
  | OpKeyDown (c : cellId) (key : string)
  | OpBlur (c : cellId)
  | OpCloseEditModal
  | OpOpenEditModal (projectId : num)
  | OpExportActive
  | OpExportCompleted
  | OpResponse (i : nat) (r : response).

(** The continuation [k] runs on response [r]. *)
Definition resume (k : continuation) (r : response) (st : state) : state :=
  match k with
  | AfterSave c projectId fieldKey valueToSend displayValue originalValue =>
      saveEdit_resume c projectId fieldKey valueToSend displayValue
                      originalValue r st
  | AfterFetchActive => fetchActiveProjects_resume r st
  | AfterFetchCompleted => fetchCompletedProjects_resume r st
  | AfterFetchDashboard => st
  end.

Fixpoint remove_nth {A : Type} (i : nat) (l : list A) : list A :=
  match l, i with
  | [], _ => []
  | _ :: t, O => t
  | x :: t, S j => x :: remove_nth j t
  end.

(** One step of the page. *)
Definition step (op : operation) (st : state) : state :=
  match op with
  | OpFetchActive => fetchActiveProjects st
  | OpFetchCompleted => fetchCompletedProjects st
  | OpSortClick t sortKey => sortHeaderClick t sortKey st
  | OpDblClick c => makeCellEditable c st
  | OpType c v => typeInto c v st
  | OpKeyDown c key => handleKeyDown c key st
  | OpBlur c => handleBlur c st
  | OpCloseEditModal => closeEditProjectModal st
  | OpOpenEditModal projectId => openEditModal projectId st
  | OpExportActive => exportActiveToCSV st
  | OpExportCompleted => exportCompletedToCSV st
  | OpResponse i r =>
      match nth_error (awaiting st) i with
      | Some k => resume k r (set_awaiting (remove_nth i (awaiting st)) st)
      | None => st
      end
  end.

Definition run (ops : list operation) (st : state) : state :=
  fold_left (fun s op => step op s) ops st.

End Handlers.

End Dashboard.
Import Dashboard.

(* ================================================================== *)
(** * script.js: the add-forecast form *)
(* ================================================================== *)

Module Forecast.

(** The fields of the form when it is submitted. *)
Record forecastForm : Type := {
  forecast_modal_project_id : string;
  forecast_amount : string;
  forecast_percent : string;
  forecast_date : string;
  forecast_deduct_checkbox : bool
}.

(** [parseInt(s, 10)]: the integer that the longest prefix of the trimmed
    string spells, NaN when there is none. *)
Definition parseInt (s : string) : num :=
  let '(neg, r) := take_sign (trimStart s) in
  let '(d, _) := span_digits r in
  if str_empty d then NaN
  else num_of_Z (if neg then - digits_val 0 d else digits_val 0 d).

(** What the validation of the form has established so far. *)
Record validation : Type := {
  errorMessage : string;
  forecast_input_type : string;
  original_input_value : num;
  isValid : bool;
  valueFieldProvided : bool
}.

(** The outcome of a submission: the text left in the error element of
    the form, or the body given to [apiFetch]. *)
Inductive outcome : Type :=
  | Refused (message : string)
  | Posted (body : obj).

Section Submit.
Variable h : Host.

Definition fail (message : string) (v : validation) : validation :=
  {| errorMessage := message;
     forecast_input_type := forecast_input_type v;
     original_input_value := original_input_value v;
     isValid := false;
     valueFieldProvided := valueFieldProvided v |}.

Definition provide (type : string) (value : num) (v : validation) : validation :=
  {| errorMessage := errorMessage v;
     forecast_input_type := type;
     original_input_value := value;
     isValid := isValid v;
     valueFieldProvided := true |}.

(** The validation block of [handleAddForecastSubmit], check by check. *)
Definition validate (f : forecastForm) : validation :=
  let amountStr := trim (forecast_amount f) in
  let percentStr := trim (forecast_percent f) in
  let projectId := forecast_modal_project_id f in
  let dateValue := forecast_date f in
  let v0 := {| errorMessage := EmptyString; forecast_input_type := EmptyString;
               original_input_value := NaN; isValid := true;
               valueFieldProvided := false |} in
  let v1 :=
    if negb (str_empty amountStr) then
      let numAmount := safeFloat h (JStr amountStr) NaN in
      if isNaN numAmount then fail "Error: Invalid Amount." v0
      else provide "amount" numAmount v0
    else v0 in
  let v2 :=
    if negb (str_empty percentStr) then
      if valueFieldProvided v1
      then fail "Error: Enter Amount OR Percent, not both." v1
      else
        let numPercent := safeFloat h (JStr percentStr) NaN in
        if isNaN numPercent then fail "Error: Invalid Percent." v1
        else provide "percent" numPercent v1
    else v1 in
  let v3 :=
    if (str_empty projectId || isNaN (parseInt projectId))%bool
    then fail "Error: Project ID missing." v2 else v2 in
  let v4 :=
    if str_empty dateValue then fail "Error: Date required." v3
    else match parseDate h (JStr dateValue) with
         | None => fail "Error: Invalid Date format." v3
         | Some _ => v3
         end in
  if (negb (valueFieldProvided v4) && isValid v4)%bool
  then fail "Error: Enter Amount or Percent." v4 else v4.

(** [handleAddForecastSubmit(event)] up to its [await]. *)
Definition handleAddForecastSubmit (f : forecastForm) : outcome :=
  let v := validate f in
  if negb (isValid v) then Refused (errorMessage v)
  else
    let isDeductionChecked := forecast_deduct_checkbox f in
    let final_value_to_send :=
      if isDeductionChecked
      then num_mul (original_input_value v) (Fin 0.30%Q)
      else original_input_value v in
    let final_is_deduction_flag := isDeductionChecked in
    Posted [ ("project_id", JNum (parseInt (forecast_modal_project_id f)));
             ("forecast_input_type", JStr (forecast_input_type v));
             ("forecast_input_value", JNum final_value_to_send);
             ("forecast_date", JStr (forecast_date f));
             ("is_deduction", JBool final_is_deduction_flag) ].
End Submit.

End Forecast.
Import Forecast.

(* ================================================================== *)
(** * mrf_items_log.js and mrf_items_log.html *)
(* ================================================================== *)

Module MrfLog.

(** The options that [displayMrfLog] passes for the status cell. *)
Definition statusOptions : list string :=
  ["Processing"; "Pending Approval"; "For Purchase Order"; "Awaiting Delivery";
   "Delivered to CMR"; "Delivered to Site"; "Cancelled"; "On Hold"].

(** The [<option>] elements of [<select id=filterStatus>] in the page:
    value and label. *)
Definition filterStatus : list (string * string) :=
  [ ("", "All Statuses");
    ("Processing", "Processing");
    ("Pending Approval", "Pending Approval");
    ("For Purchase Order", "For Purchase Order");
    ("Awaiting Delivery", "Awaiting Delivery");
    ("Delivered to CMR", "Delivered to CMR");
    ("Delivered to Site", "Delivered to Site");
    ("Cancelled", "Cancelled");
    ("On Hold", "On Hold") ].

(** The [type] argument of [setupEditableCell]. *)
Inductive editorType : Type :=
  | TypeText | TypeTextarea | TypeNumber | TypeDate | TypeSelect.

(** What a cell of the log shows: text, or the editing element with its
    current value. *)
Inductive cellContent : Type :=
  | Text (s : string)
  | Editor (value : string).

(** An editable cell, with the arguments [setupEditableCell] got for it. *)
Record cell : Type := {
  data_field : string;
  data_id : string;
  mrfItem : obj;
  editor_type : editorType;
  editor_options : list string;
  content : cellContent
}.

Definition cellId : Type := nat.

(** A [fetch] to [/api/mrf_items] with method PUT and its JSON body. *)
Record request : Type := {
  req_url : string;
  req_body : obj
}.

(** What the continuation of [saveEditedMrfItem] keeps. *)
Record pendingSave : Type := {
  pending_cell : cellId;
  pending_displayValue : string;
  pending_originalValue : string
}.

Record state : Type := {
  cells : list cell;
  requests : list request;
  awaiting : list pendingSave;
  alerts : list string
}.

(** The answer to the PUT: [response.ok], or the message of the error
    that reaches the [catch]. *)
Inductive response : Type :=
  | Ok
  | Failed (message : string).

Definition with_content (v : cellContent) (c : cell) : cell :=
  {| data_field := data_field c; data_id := data_id c; mrfItem := mrfItem c;
     editor_type := editor_type c; editor_options := editor_options c;
     content := v |}.

Definition set_textContent (c : cellId) (s : string) (st : state) : state :=
  match nth_error (cells st) c with
  | Some cl =>
      {| cells := list_set c (with_content (Text s) cl) (cells st);
         requests := requests st; awaiting := awaiting st; alerts := alerts st |}
  | None => st
  end.

(** [cellElement.textContent]: the text of the cell, or of the children of
    the editing element, which only a [<select>] has. *)
Definition textContent (cl : cell) : string :=
  match content cl with
  | Text s => s
  | Editor _ =>
      match editor_type cl with
      | TypeSelect => String.concat "" (editor_options cl)
      | _ => EmptyString
      end
  end.

(** [select.value] when the option at [selectedIndex] is the selected one. *)
Definition select_value (options : list string) (selectedIndex : nat) : string :=
  nth selectedIndex options EmptyString.

(** The option that a new [<select>] shows: the one equal to the original
    value when there is one, the first otherwise. *)
Definition initial_selectedIndex (options : list string) (originalValue : jsval)
  : nat :=
  match originalValue with
  | JStr s =>
      match findIndex (String.eqb s) options with
      | Some i => i
      | None => O
      end
  | _ => O
  end.

Section Editing.
Variable h : Host.

(** [new Date(v).toISOString().split('T')[0]] for a time value in the
    years 0 to 9999. *)
Definition iso_date (t : Z) : string :=
  padStart0 4 (Z_toString (getUTCFullYear t)) ++ "-"
  ++ padStart0 2 (Z_toString (getUTCMonth t + 1)) ++ "-"
  ++ padStart0 2 (Z_toString (getUTCDate t)).

(** The listener that [setupEditableCell] puts on the cell, for a click.
    The editing element starts from [mrfItem[fieldName]]. *)
Definition click (c : cellId) (st : state) : state :=
  match nth_error (cells st) c with
  | Some cl =>
      match content cl with
      | Editor _ => st
      | Text _ =>
          let originalValue := get (mrfItem cl) (data_field cl) in
          let started (v : string) :=
            {| cells := list_set c (with_content (Editor v) cl) (cells st);
               requests := requests st; awaiting := awaiting st;
               alerts := alerts st |} in
          match editor_type cl with
          | TypeSelect =>
              started (select_value (editor_options cl)
                         (initial_selectedIndex (editor_options cl) originalValue))
          | TypeDate =>
              if truthy originalValue then
                match Date_parse h (ToString h originalValue) with
                | Some t => started (iso_date t)
                | None => st
                end
              else started EmptyString
          | _ =>
              started (match originalValue with
                       | JNull => EmptyString
                       | v => ToString h v
                       end)
          end
      end
  | None => st
  end.

(** The user picks option [i] of the select of cell [c], or types [v]
    into its input. *)
Definition choose (c : cellId) (i : nat) (st : state) : state :=
  match nth_error (cells st) c with
  | Some cl =>
      match content cl, editor_type cl with
      | Editor _, TypeSelect =>
          if Nat.ltb i (List.length (editor_options cl)) then
            {| cells := list_set c
                          (with_content (Editor (select_value (editor_options cl) i)) cl)
                          (cells st);
               requests := requests st; awaiting := awaiting st;
               alerts := alerts st |}
          else st
      | _, _ => st
      end
  | None => st
  end.

Definition typeInto (c : cellId) (v : string) (st : state) : state :=
  match nth_error (cells st) c with
  | Some cl =>
      match content cl, editor_type cl with
      | Editor _, TypeSelect => st
      | Editor _, _ =>
          {| cells := list_set c (with_content (Editor v) cl) (cells st);
             requests := requests st; awaiting := awaiting st;
             alerts := alerts st |}
      | _, _ => st
      end
  | None => st
  end.

(** The text shown for the value of a date input:
    month/day/year of [new Date(newValue)] in local time. *)
Definition date_display (newValue : string) : string :=
  match Date_parse h newValue with
  | Some t =>
      Z_toString (getMonth h t + 1) ++ "/" ++ Z_toString (getDate h t)
      ++ "/" ++ Z_toString (getFullYear h t)
  | None => "NaN/NaN/NaN"
  end.

(** [saveEditedMrfItem(cellElement, newValue)] up to its [await]. *)
Definition saveEditedMrfItem (c : cellId) (newValue : string) (st : state)
  : state :=
  match nth_error (cells st) c with
  | Some cl =>
      let mrfId := data_id cl in
      let fieldName := data_field cl in
      let originalValue := textContent cl in
      let displayValue :=
        match content cl, editor_type cl with
        | Editor _, TypeDate =>
            if negb (str_empty newValue) then date_display newValue else "N/A"
        | _, _ => newValue
        end in
      if (String.eqb newValue originalValue
          || (str_empty newValue && String.eqb originalValue "N/A"))%bool
      then set_textContent c originalValue st
      else
        {| cells := cells st;
           requests :=
             (requests st ++
              [{| req_url := "/api/mrf_items";
                  req_body := set_prop [("id", JStr mrfId)]
                                       fieldName (JStr newValue) |}])%list;
           awaiting :=
             (awaiting st ++
              [{| pending_cell := c; pending_displayValue := displayValue;
                  pending_originalValue := originalValue |}])%list;
           alerts := alerts st |}
  | None => st
  end.

(** [saveEditedMrfItem] from its [await] on. *)
Definition saveEditedMrfItem_resume (p : pendingSave) (r : response)
    (st : state) : state :=
  match r with
  | Ok => set_textContent (pending_cell p) (pending_displayValue p) st
  | Failed message =>
      set_textContent (pending_cell p) (pending_originalValue p)
        {| cells := cells st; requests := requests st; awaiting := awaiting st;
           alerts :=
             (alerts st ++ [String.append "Failed to save changes: " message])%list |}
  end.

(** The [blur] listener of the editing element of cell [c]; Enter blurs
    the element. *)
Definition blur (c : cellId) (st : state) : state :=
  match nth_error (cells st) c with
  | Some cl =>
      match content cl with
      | Editor v => saveEditedMrfItem c v st
      | Text _ => st
      end
  | None => st
  end.

(** The answer to the [i]-th request still open arrives. *)
Definition respond (i : nat) (r : response) (st : state) : state :=
  match nth_error (awaiting st) i with
  | Some p =>
      saveEditedMrfItem_resume p r
        {| cells := cells st; requests := requests st;
           awaiting := remove_nth i (awaiting st); alerts := alerts st |}
  | None => st
  end.

(** The status cell that [displayMrfLog] makes for an item. *)
Definition statusCell (item : obj) : cell :=
  {| data_field := "item_status";
     data_id := ToString h (get item "item_id");
     mrfItem := item;
     editor_type := TypeSelect;
     editor_options := statusOptions;
     content := Text (ToString h (or_else (get item "item_status") (JStr "N/A"))) |}.

(** A text cell that [displayMrfLog] makes for an item, e.g. part_no. *)
Definition textCell (item : obj) (fieldName : string) : cell :=
  {| data_field := fieldName;
     data_id := ToString h (get item "item_id");
     mrfItem := item;
     editor_type := TypeText;
     editor_options := [];
     content := Text (ToString h (or_else (get item fieldName) (JStr "N/A"))) |}.

End Editing.

End MrfLog.

(* ================================================================== *)
(** * script.js: what [apiFetch] makes of a response *)
(* ================================================================== *)

Module Api.

(** [s.includes(sub)] *)
Fixpoint str_includes (s sub : string) : bool :=
  String.prefix sub s
  || match s with
     | EmptyString => false
     | String _ r => str_includes r sub
     end.

(** A parsed JSON body.  The properties of an object that [apiFetch]
    reads, [error] and [message], hold primitive values. *)
Inductive json : Type :=
  | JsonObject (props : obj)
  | JsonArray (rows : list obj)
  | JsonPrimitive (v : jsval).

(** [data?.key] *)
Definition prop (data : json) (key : string) : jsval :=
  match data with
  | JsonObject o => get o key
  | _ => JUndefined
  end.

(** Truthiness of a parsed body. *)
Definition json_truthy (data : json) : bool :=
  match data with
  | JsonPrimitive v => truthy v
  | _ => true
  end.

(** A [Response] of [fetch]: its status, its content type header, and
    what reading its body as JSON and as text gives; [None] is a read that
    throws. *)
Record httpResponse : Type := {
  status : Z;
  content_type : option string;
  body_json : option json;
  body_text : option string
}.

(** [response.ok]: a status from 200 to 299. *)
Definition ok (r : httpResponse) : bool :=
  (200 <=? status r) && (status r <=? 299).

(** What [await fetch(url, config)] gives: a response, or the error of a
    request that did not get one. *)
Inductive fetched : Type :=
  | Response (r : httpResponse)
  | NetworkFailure (message : string).

(** An [Error], with the two properties [apiFetch] may attach. *)
Record error : Type := {
  err_message : string;
  err_status : option Z;
  err_data : option json
}.

(** [new Error(message)] *)
Definition new_Error (message : string) : error :=
  {| err_message := message; err_status := None; err_data := None |}.

(** What [apiFetch] does besides returning or throwing. *)
Record effects : Type := {
  removes_authToken : bool;
  location_href : option string
}.

Definition no_effects : effects :=
  {| removes_authToken := false; location_href := None |}.

Inductive outcome : Type :=
  | Returns (data : json)
  | Throws (e : error).

Section Fetch.
Variable h : Host.

(** The inner [try] with its [catch]: the body of the response as
    [responseData], or the error thrown on to the outer [catch]. *)
Definition read_body (r : httpResponse) : json + error :=
  let is_json :=
    match content_type r with
    | Some contentType => str_includes contentType "application/json"
    | None => false
    end in
  let read : option json :=
    if is_json then body_json r
    else
      match body_text r with
      | Some text =>
          if negb (ok r) then None
          else Some (JsonObject
                       [ ("message", JStr ("OK (" ++ Z_toString (status r) ++ ")"));
                         ("data", JStr text) ])
      | None => None
      end in
  match read with
  | Some responseData => inl responseData
  | None =>
      if negb (ok r)
      then inr (new_Error ("HTTP Error " ++ Z_toString (status r)
                           ++ ", failed to read/parse body."))
      else inl (JsonObject
                  [ ("message",
                     JStr ("OK (" ++ Z_toString (status r)
                           ++ "), but error reading/parsing body.")) ])
  end.

(** The outer [try] for a response. *)
Definition handle_response (r : httpResponse) : outcome :=
  if status r =? 401 then Throws (new_Error "Unauthorized")
  else if status r =? 204 then
    Returns (JsonObject [("message", JStr "Operation successful (No Content).")])
  else
    match read_body r with
    | inr e => Throws e
    | inl responseData =>
        if negb (ok r) then
          let errorMessage :=
            or_else (prop responseData "error")
              (or_else (prop responseData "message")
                 (JStr ("HTTP Error " ++ Z_toString (status r)))) in
          Throws {| err_message := ToString h errorMessage;
                    err_data := Some responseData;
                    err_status := Some (status r) |}
        else Returns responseData
    end.

(** The outer [catch]: an error without status and data, other than
    [Unauthorized], is replaced by the network error. *)
Definition rethrow (url : string) (e : error) : error :=
  let no_status :=
    match err_status e with Some s => s =? 0 | None => true end in
  let no_data :=
    match err_data e with Some d => negb (json_truthy d) | None => true end in
  if (no_status && no_data && negb (String.eqb (err_message e) "Unauthorized"))%bool
  then new_Error ("Network error or cannot connect to API at " ++ url
                  ++ ". Ensure the backend server is running and accessible.")
  else e.

(** [apiFetch(url, options)] from its [await fetch] on. *)
Definition apiFetch_resume (url : string) (f : fetched) : outcome * effects :=
  match f with
  | NetworkFailure message => (Throws (rethrow url (new_Error message)), no_effects)
  | Response r =>
      ( match handle_response r with
        | Returns data => Returns data
        | Throws e => Throws (rethrow url e)
        end,
        if status r =? 401
        then {| removes_authToken := true; location_href := Some "login.html" |}
        else no_effects )
  end.
End Fetch.

End Api.

(* ================================================================== *)
(** * script.js: the forms for adding and editing a project, and for
      adding an update *)
(* ================================================================== *)

Module Forms.

(** The entries of a [FormData]: the name and the value of each field, in
    the order of the form. *)
Definition formData : Type := list (string * string).

(** [formData.get(name)]: the first value under the name, [None] when
    there is none. *)
Definition fd_get (f : formData) (name : string) : option string :=
  option_map snd (List.find (fun kv => String.eqb (fst kv) name) f).

(** [key in o] *)
Definition has_prop (o : obj) (key : string) : bool :=
  existsb (fun kv => String.eqb (fst kv) key) o.

(** How a submit handler ends: with a message of [displayFeedback] and no
    request, or with the request it hands to [apiFetch]. *)
Inductive submission : Type :=
  | Stopped (message type : string)
  | Sent (m : method) (url : string) (body : obj).

Definition BULK_PROJECTS_API : string := PROJECTS_API ++ "/bulk".

Definition PROJECT_UPDATES_API (projectId : string) : string :=
  PROJECTS_API ++ "/" ++ projectId ++ "/updates".

Definition allowedFields : list string :=
  ["client"; "status"; "po_date"; "po_no"; "date_completed"; "pic"; "address";
   "amount"; "project_name"; "year"; "ds"].

(** The state of the validation in [handleEditSubmit]: the fields
    collected, the flag, and the message shown last. *)
Record checking : Type := {
  updatedFields : obj;
  isValid : bool;
  shown : string
}.

Definition invalid (message : string) (c : checking) : checking :=
  {| updatedFields := updatedFields c; isValid := false; shown := message |}.

Definition store (key : string) (v : jsval) (c : checking) : checking :=
  {| updatedFields := set_prop (updatedFields c) key v;
     isValid := isValid c; shown := shown c |}.

Section Submit.
Variable h : Host.

(** [safe_int(value, fallback)] *)
Definition safe_int (value fallback : jsval) : jsval :=
  match value with
  | JNull | JUndefined => fallback
  | _ =>
      if str_empty (trim (ToString h value)) then fallback
      else
        let num := parseInt (trim (ToString h value)) in
        if isNaN num then fallback else JNum num
  end.

(** The value that the add-project form stores for a field. *)
Definition sanitized (value : string) : jsval :=
  if str_empty (trim value) then JNull else JStr (trim value).

(** [handleAddProjectSubmit(event)] up to its [await]; the body of the
    request is the array that holds the one object given here. *)
Definition handleAddProjectSubmit (formData : formData) : submission :=
  let projectName := option_map trim (fd_get formData "project_name") in
  match projectName with
  | None | Some EmptyString => Stopped "Project Name is required." "error"
  | Some _ =>
      let projectData :=
        fold_left (fun o kv => set_prop o (fst kv) (sanitized (snd kv))) formData [] in
      let projectData1 :=
        set_prop projectData "amount"
          (safeFloatWith h JNum (get projectData "amount") JNull) in
      let projectData2 :=
        set_prop projectData1 "status"
          (JNum (safeFloat h (get projectData1 "status") (Fin 0%Q))) in
      let projectData3 :=
        set_prop projectData2 "year" (safe_int (get projectData2 "year") JNull) in
      Sent POST BULK_PROJECTS_API projectData3
  end.

(** The fields of the edit form that are sent: the allowed ones the form
    has, trimmed, an empty one as null unless it is the name. *)
Definition collect (formData : formData) : obj :=
  fold_left
    (fun updatedFields field =>
       match fd_get formData field with
       | Some raw =>
           let value := trim raw in
           set_prop updatedFields field
             (if (str_empty value && negb (String.eqb field "project_name"))%bool
              then JNull else JStr value)
       | None => updatedFields
       end)
    allowedFields [].

(** The checks of [handleEditSubmit], in their order. *)
Definition check_name (c : checking) : checking :=
  match get (updatedFields c) "project_name" with
  | JNull | JStr EmptyString => invalid "Project Name cannot be empty." c
  | _ => c
  end.

Definition check_amount (c : checking) : checking :=
  if has_prop (updatedFields c) "amount" then
    match get (updatedFields c) "amount" with
    | JNull => c
    | v =>
        let numAmount := safeFloat h v NaN in
        if isNaN numAmount then invalid "Invalid Amount." c
        else store "amount" (JNum numAmount) c
    end
  else c.

Definition check_status (c : checking) : checking :=
  if has_prop (updatedFields c) "status" then
    match get (updatedFields c) "status" with
    | JNull => store "status" (JNum (Fin 0%Q)) c
    | v =>
        let numStatus := safeFloat h v NaN in
        if (isNaN numStatus || num_lt numStatus (Fin 0%Q)
            || num_gt numStatus (Fin 100%Q))%bool
        then invalid "Status must be 0-100." c
        else store "status" (JNum numStatus) c
    end
  else c.

Definition check_year (c : checking) : checking :=
  if has_prop (updatedFields c) "year" then
    match get (updatedFields c) "year" with
    | JNull => c
    | v =>
        match safe_int v JNull with
        | JNull => invalid "Invalid Year." c
        | numYear => store "year" numYear c
        end
    end
  else c.

Definition check_date (key message : string) (c : checking) : checking :=
  if truthy (get (updatedFields c) key) then
    match parseDate h (get (updatedFields c) key) with
    | None => invalid message c
    | Some _ => c
    end
  else c.

(** [handleEditSubmit(event)] up to its [await]; [projectId] is
    [editProjectForm.dataset.projectId]. *)
Definition handleEditSubmit (projectId : option string) (formData : formData)
  : submission :=
  match projectId with
  | None | Some EmptyString => Stopped "Error: Project ID missing for edit." "error"
  | Some id =>
      let c0 := {| updatedFields := collect formData; isValid := true;
                   shown := EmptyString |} in
      let c :=
        check_date "date_completed" "Invalid Date Completed format."
          (check_date "po_date" "Invalid PO Date format."
             (check_year (check_status (check_amount (check_name c0))))) in
      if negb (isValid c) then Stopped (shown c) "error"
      else if Nat.eqb (List.length (updatedFields c)) 0
      then Stopped "No changes detected to save." "info"
      else Sent PUT (UPDATE_PROJECT_API id) (updatedFields c)
  end.

(** [handleAddUpdateSubmit(event)] up to its [await]; [update_text] and
    [update_due_date] are the values of the two elements of the form,
    [None] for an element the form does not have. *)
Definition handleAddUpdateSubmit (projectId : option string)
    (update_text update_due_date : option string) : submission :=
  let updateText := option_map trim update_text in
  let dueDate := update_due_date in
  match projectId with
  | None | Some EmptyString => Stopped "Error: Project ID missing." "error"
  | Some id =>
      match updateText with
      | None | Some EmptyString => Stopped "Update text cannot be empty." "error"
      | Some text =>
          let send (validatedDueDate : jsval) :=
            Sent POST (PROJECT_UPDATES_API id)
                 [("update_text", JStr text); ("due_date", validatedDueDate)] in
          match dueDate with
          | Some due =>
              if (negb (str_empty due) && negb (str_empty (trim due)))%bool then
                match parseDate h (JStr due) with
                | None => Stopped "Invalid Due Date format." "error"
                | Some _ => send (JStr due)
                end
              else send JNull
          | None => send JNull
          end
      end
  end.
End Submit.

End Forms.

(* ================================================================== *)
(** * Reference notions the properties are stated against *)
(* ================================================================== *)

(** Reading a CSV cell back, by the quoting rule of RFC 4180: a cell in
    double quotes stands for its content with each doubled quote read as
    one; any other cell stands for itself and holds none of the three
    characters the export gives a meaning to (quote, comma, line feed). *)
Module Csv.

(** The content of a quoted cell, after its opening quote. *)
Fixpoint unquote (s : string) : option string :=
  match s with
  | EmptyString => None
  | String c r =>
      if Ascii.eqb c dquote then
        match r with
        | EmptyString => Some EmptyString
        | String c2 r2 =>
            if Ascii.eqb c2 dquote
            then option_map (String dquote) (unquote r2)
            else None
        end
      else option_map (String c) (unquote r)
  end.

Definition decode_cell (s : string) : option string :=
  match s with
  | String c r =>
      if Ascii.eqb c dquote then unquote r
      else if needs_quoting s then None else Some s
  | EmptyString => Some EmptyString
  end.

End Csv.

(** The dates of the calendar, and their text in ISO form. *)
Module Calendar.

Definition daysInMonth (y m : Z) : Z :=
  match m with
  | 1 | 3 | 5 | 7 | 8 | 10 | 12 => 31
  | 4 | 6 | 9 | 11 => 30
  | 2 => 28 + leap_days y
  | _ => 0
  end.

(** Day [d] of month [m] of year [y] exists. *)
Definition real_date (y m d : Z) : Prop :=
  1 <= m <= 12 /\ 1 <= d <= daysInMonth y m.

(** The time value of a date at midnight UTC. *)
Definition utc_midnight (y m d : Z) : Z := MakeDay y (m - 1) d * msPerDay.

Definition two_digits (a b : ascii) : Z := 10 * digit_val a + digit_val b.

Definition four_digits (a b c d : ascii) : Z :=
  1000 * digit_val a + 100 * digit_val b + 10 * digit_val c + digit_val d.

(** The text [YYYY-MM-DD] with the given digits. *)
Definition iso_text (y1 y2 y3 y4 m1 m2 d1 d2 : ascii) : string :=
  String y1 (String y2 (String y3 (String y4 (String "-"
    (String m1 (String m2 (String "-" (String d1 (String d2 EmptyString))))))))).

End Calendar.
Import Calendar.

Module TableOrder.
Section Order.
Variable h : Host.

(** The lowercased text the comparator reads from a row for a text key. *)
Definition text_of (key : string) (row : obj) : string :=
  if String.eqb key "latest_update"
  then toLowerCase (ToString h (or_else (get row "latest_update") (JStr "")))
  else toLowerCase (ToString h (nullish_or (get row key) (JStr ""))).

(** The time value of a row for a date key; a missing or unreadable date
    counts as the value that sorts last in the current direction. *)
Definition time_of (key : string) (d : direction) (row : obj) : num :=
  match parseDate h (get row key) with
  | Some t => num_of_Z t
  | None => missing_value d
  end.

(** The number of a row for a numeric key, with the same convention. *)
Definition number_of (key : string) (d : direction) (row : obj) : num :=
  safeFloat h (get row key) (missing_value d).

(** Two texts in the order of direction [d], empty texts last. *)
Definition text_in_order (d : direction) (ta tb : string) : bool :=
  if str_empty ta then str_empty tb
  else if str_empty tb then true
  else match d with
       | asc => String.leb ta tb
       | desc => String.leb tb ta
       end.

Definition num_in_order (d : direction) (x y : num) : bool :=
  match d with asc => num_le x y | desc => num_le y x end.

(** [sortMultiplier] *)
Definition multiplier (d : direction) : num :=
  match d with asc => Fin 1%Q | desc => Fin (-1)%Q end.

(** Row [a] may stand before row [b] when sorting by [key] in direction [d]. *)
Definition in_order (key : string) (d : direction) (a b : obj) : bool :=
  if String.eqb key "latest_update" then
    text_in_order d (text_of key a) (text_of key b)
  else if includes dateKeys key then
    num_in_order d (time_of key d a) (time_of key d b)
  else if includes numericKeys key then
    num_in_order d (number_of key d a) (number_of key d b)
  else text_in_order d (text_of key a) (text_of key b).
(** The order as the specification words it: one ascending order for
    each kind of key (numbers, parsed dates, lowercased text), taken as it
    is for ['asc'] and reversed for ['desc'].  Rows without a number or a
    date are left unconstrained. *)
Definition ascending_by (key : string) (a b : obj) : bool :=
  if includes numericKeys key then
    let x := safeFloat h (get a key) NaN in
    let y := safeFloat h (get b key) NaN in
    (isNaN x || isNaN y || num_le x y)%bool
  else if includes dateKeys key then
    match parseDate h (get a key), parseDate h (get b key) with
    | Some x, Some y => x <=? y
    | _, _ => true
    end
  else
    String.leb (toLowerCase (ToString h (nullish_or (get a key) (JStr ""))))
               (toLowerCase (ToString h (nullish_or (get b key) (JStr "")))).

Definition claimed_in_order (key : string) (d : direction) (a b : obj) : bool :=
  match d with
  | asc => ascending_by key a b
  | desc => ascending_by key b a
  end.

End Order.
End TableOrder.
Import TableOrder.

(* ================================================================== *)
(** * A browser to run examples in *)
(* ================================================================== *)

Module Example.

(** Up to [fuel] decimals of [n / d], for [0 <= n < d]. *)
Fixpoint fraction_digits (fuel : nat) (n d : Z) : string :=
  match fuel with
  | O => EmptyString
  | S fuel' =>
      if n =? 0 then EmptyString
      else
        let q := (10 * n) / d in
        String.append (Z_digits q) (fraction_digits fuel' (10 * n - q * d) d)
  end.

(** Positional digits of a rational: what [Number::toString] prints for
    the integers and short decimals of the examples. *)
Definition positional (q : Q) : string :=
  let n := Qnum q in
  let d := Zpos (Qden q) in
  let a := Z.abs n in
  let sign := if n <? 0 then "-" else EmptyString in
  let fraction :=
    if a mod d =? 0 then EmptyString
    else String.append "." (fraction_digits 17 (a mod d) d) in
  String.append sign (String.append (Z_digits (a / d)) fraction).

(** The date-only ISO form, read the way V8 does: a day up to 31 is
    taken in any month and carried into the next one. *)
Definition date_only (s : string) : option Z :=
  match isoMatch s with
  | Some (y, m, d) =>
      if (Nat.eqb (String.length s) 10
          && (1 <=? parseInt10 m) && (parseInt10 m <=? 12)
          && (1 <=? parseInt10 d) && (parseInt10 d <=? 31))%bool
      then Some (MakeDay (parseInt10 y) (parseInt10 m - 1) (parseInt10 d) * msPerDay)
      else None
  | None => None
  end.

(** Philippine time, UTC+8. *)
Definition browser : Host := {|
  Number_toString := positional;
  Date_parse := date_only;
  LocalTZA := fun _ => 28800000;
  Intl_format_PHP :=
    fun n => match n with
             | Fin q => String.append peso (positional q)
             | _ => String.append peso "NaN"
             end
|}.

End Example.

(* ================================================================== *)
(** * Notions the statements are written with *)
(* ================================================================== *)

(** The number the user entered: the amount when the amount field is
    filled, the percent otherwise. *)
Definition entered_value (h : Host) (f : forecastForm) : num :=
  if negb (str_empty (trim (forecast_amount f)))
  then safeFloat h (JStr (trim (forecast_amount f))) NaN
  else safeFloat h (JStr (trim (forecast_percent f))) NaN.

Definition entered_type (f : forecastForm) : string :=
  if negb (str_empty (trim (forecast_amount f))) then "amount" else "percent".

(** The content of cell [c], when the cell exists. *)
Definition content_of (st : state) (c : cellId) : option cellContent :=
  option_map content (nth_error (cells st) c).

(** The invariant of inline editing: a cell that holds an input is the
    cell recorded in [currentlyEditingCell]. *)
Definition single_editor (st : state) : Prop :=
  forall c, content_of st c = Some InputBox -> currentlyEditingCell st = Some c.

(** [st'] has the lock of [st] and no input that [st] has not. *)
Definition no_new_input (st st' : state) : Prop :=
  currentlyEditingCell st' = currentlyEditingCell st /\
  forall c, content_of st' c = Some InputBox -> content_of st c = Some InputBox.

(** The state in which [saveEdit] and [cancelEdit] leave a cell they
    accepted: text in the cell, the lock free, the other cells as they
    were. *)
Definition closes (c : cellId) (st st' : state) : Prop :=
  currentlyEditingCell st' = None /\
  forall c', content_of st' c' = Some InputBox ->
             c' <> c /\ content_of st c' = Some InputBox.

(** Whether cell [c] is a remaining-amount cell, and of which row. *)
Definition place_of (st : state) (c : cellId) : option (nat * bool) :=
  option_map (fun cl => (cell_row cl, remaining_amount_cell cl))
             (nth_error (cells st) c).

(** [st'] has the cells of [st] in the same places, and the text of every
    cell but [c] is the same. *)
Definition only_writes (c : cellId) (st st' : state) : Prop :=
  (forall c', place_of st' c' = place_of st c') /\
  (forall c', c' <> c -> content_of st' c' = content_of st c').

(** The content of cell [c] of the items log, when the cell exists. *)
Definition mrf_content_of (st : MrfLog.state) (c : MrfLog.cellId)
  : option MrfLog.cellContent :=
  option_map MrfLog.content (nth_error (MrfLog.cells st) c).

(** The eight statuses of the specification. *)
Definition eight_statuses : list string :=
  ["Processing"; "Pending Approval"; "For Purchase Order"; "Awaiting Delivery";
   "Delivered to CMR"; "Delivered to Site"; "Cancelled"; "On Hold"].

(** The statuses the filter offers: the values of its options, the empty
    value of [All Statuses] aside. *)
Definition filter_statuses : list string :=
  List.filter (fun v => negb (str_empty v)) (map fst MrfLog.filterStatus).

(** A status cell: a select over [statusOptions] for the field
    [item_status]. *)
Definition is_status_cell (cl : MrfLog.cell) : Prop :=
  MrfLog.editor_type cl = MrfLog.TypeSelect /\
  MrfLog.editor_options cl = MrfLog.statusOptions /\
  MrfLog.data_field cl = "item_status".

(** The cell shows text, or a select whose value is one of the options. *)
Definition status_cell_ok (st : MrfLog.state) (c : MrfLog.cellId) : Prop :=
  exists cl,
    nth_error (MrfLog.cells st) c = Some cl /\ is_status_cell cl /\
    match MrfLog.content cl with
    | MrfLog.Text _ => True
    | MrfLog.Editor v => In v MrfLog.statusOptions
    end.

(* ================================================================== *)
(** * Data for the examples *)
(* ================================================================== *)

(** Two projects, the first without a client. *)
Definition two_clients : list obj :=
  [ [("id", JNum (Fin 1%Q)); ("client", JNull)];
    [("id", JNum (Fin 2%Q)); ("client", JStr "Acme")] ].

Definition by_client_asc : state :=
  set_sort {| sort_key := "client"; sort_direction := asc |}
    (set_data two_clients [] initial_state).



Definition deducted_amount_form : forecastForm := {|
  forecast_modal_project_id := "7";
  forecast_amount := "1,000.50";
  forecast_percent := "";
  forecast_date := "2025-03-31";
  forecast_deduct_checkbox := true
|}.

Definition plain_percent_form : forecastForm := {|
  forecast_modal_project_id := "7";
  forecast_amount := "";
  forecast_percent := "40";
  forecast_date := "3/31/2025";
  forecast_deduct_checkbox := false
|}.

(** Two active projects as the API returns them. *)
Definition warehouse : obj :=
  [ ("id", JNum (Fin 1%Q)); ("project_name", JStr "Warehouse");
    ("amount", JNum (Fin 1000%Q)); ("status", JNum (Fin 50%Q));
    ("remaining_amount", JNum (Fin 500%Q)) ].

Definition pier : obj :=
  [ ("id", JNum (Fin 2%Q)); ("project_name", JStr "Pier");
    ("amount", JNum (Fin 800%Q)); ("status", JNum (Fin 25%Q));
    ("remaining_amount", JNum (Fin 600%Q)) ].

(** The page after the active projects arrived. *)
Definition loaded : state :=
  run Example.browser
    [OpFetchActive; OpResponse 0%nat (Ok [warehouse; pier] None)] initial_state.

(** The status cell of the first row is being edited. *)
Definition editing_first : state :=
  step Example.browser (OpDblClick 0%nat) loaded.

(** The user types 80 into the status cell of the first row and presses
    Enter. *)
Definition saving_first : state :=
  run Example.browser [OpType 0%nat "80"; OpKeyDown 0%nat "Enter"] editing_first.

(** The server answers the edit of the first row with an error. *)
Definition failed_first : state :=
  step Example.browser (OpResponse 0%nat (Error "Server error")) saving_first.

(** An item of the log, and the page with its status cell. *)
Definition bolt : obj :=
  [ ("item_id", JNum (Fin 31%Q)); ("part_no", JStr "B-12");
    ("item_status", JStr "Processing") ].

Definition log_page : MrfLog.state :=
  {| MrfLog.cells := [MrfLog.statusCell Example.browser bolt;
                      MrfLog.textCell Example.browser bolt "part_no"];
     MrfLog.requests := []; MrfLog.awaiting := []; MrfLog.alerts := [] |}.

(** The part number of the item is edited to B-13 and the editor loses
    the focus. *)
Definition log_saving : MrfLog.state :=
  MrfLog.blur Example.browser 1%nat
    (MrfLog.typeInto 1%nat "B-13" (MrfLog.click Example.browser 1%nat log_page)).


(** All characters of a string are decimal digits. *)
Fixpoint all_digits (s : string) : bool :=
  match s with
  | EmptyString => true
  | String c r => is_digit c && all_digits r
  end.

(** The PUT that a save of cell [cl] of the items log sends for the
    value [v]. *)
Definition mrf_put (cl : MrfLog.cell) (v : string) : MrfLog.request :=
  {| MrfLog.req_url := "/api/mrf_items";
     MrfLog.req_body :=
       set_prop [("id", JStr (MrfLog.data_id cl))] (MrfLog.data_field cl) (JStr v) |}.

(** The part number of the item is being edited. *)
Definition log_editing : MrfLog.state := MrfLog.click Example.browser 1%nat log_page.






(** What typing into the input of cell [c] keeps, from the state [st0]
    in which the cell was double-clicked: the lock, the requests, the other
    cells, and in the cell the input with the display value [o] it started
    from. *)
Definition editing_with (c : cellId) (o : string) (st0 st : state) : Prop :=
  currentlyEditingCell st = Some c /\
  requests st = requests st0 /\
  (forall c', c' <> c -> content_of st c' = content_of st0 c') /\
  exists cl s,
    nth_error (cells st) c = Some cl /\
    inlineEditListeners cl = Some s /\
    originalDisplayValue s = o.

(** The text [MM/DD/YYYY] with the given digits. *)
Definition us_text (m1 m2 d1 d2 y1 y2 y3 y4 : ascii) : string :=
  String m1 (String m2 (String "/" (String d1 (String d2 (String "/"
    (String y1 (String y2 (String y3 (String y4 EmptyString))))))))).

(** The text [M/D/YYYY] for a month and a day written with one digit or
    two. *)
Definition slash_text (ms ds : string) (y1 y2 y3 y4 : ascii) : string :=
  ms ++ "/" ++ ds ++ "/" ++ String y1 (String y2 (String y3 (String y4 EmptyString))).

(** The error that [apiFetch] throws when it takes a failure for a
    failure of the network. *)
Definition network_error (url : string) : Api.error :=
  Api.new_Error ("Network error or cannot connect to API at " ++ url
                 ++ ". Ensure the backend server is running and accessible.").

(** The answer of a server that fails with a page of HTML. *)
Definition html_500 : Api.httpResponse :=
  {| Api.status := 500;
     Api.content_type := Some "text/html; charset=utf-8";
     Api.body_json := None;
     Api.body_text := Some "<h1>Internal Server Error</h1>" |}.

(** The answer of a server that refuses an update with a JSON error. *)
Definition json_400 : Api.httpResponse :=
  {| Api.status := 400;
     Api.content_type := Some "application/json";
     Api.body_json := Some (Api.JsonObject [("error", JStr "Status must be 0-100")]);
     Api.body_text := None |}.

(** The answer to a list request. *)
Definition json_200 : Api.httpResponse :=
  {| Api.status := 200;
     Api.content_type := Some "application/json";
     Api.body_json := Some (Api.JsonArray [warehouse; pier]);
     Api.body_text := None |}.

(** The answer to a request made with a token that has expired. *)
Definition expired_401 : Api.httpResponse :=
  {| Api.status := 401;
     Api.content_type := Some "application/json";
     Api.body_json := Some (Api.JsonObject [("error", JStr "Token expired")]);
     Api.body_text := None |}.

(* ================================================================== *)
(** * Properties *)
(* ================================================================== *)

(** ** Order on strings and numbers *)

Lemma string_compare_refl (s : string) : String.compare s s = Eq.
Proof.
  induction s as [|c s IH]; simpl; auto.
  unfold Ascii.compare. rewrite N.compare_refl. exact IH.
Qed.

Lemma string_compare_lt_trans (a b c : string) :
  String.compare a b = Lt -> String.compare b c = Lt -> String.compare a c = Lt.
Proof.
  revert b c. induction a as [|x a IH]; intros [|y b] [|z c]; simpl; try congruence.
  unfold Ascii.compare.
  destruct (N.compare_spec (N_of_ascii x) (N_of_ascii y)) as [E1|L1|G1];
  destruct (N.compare_spec (N_of_ascii y) (N_of_ascii z)) as [E2|L2|G2];
    try congruence; intros H1 H2.
  - rewrite E1, E2, N.compare_refl. eauto.
  - rewrite E1. apply N.compare_lt_iff in L2. now rewrite L2.
  - rewrite <- E2. apply N.compare_lt_iff in L1. now rewrite L1.
  - assert (L : (N_of_ascii x < N_of_ascii z)%N) by lia.
    apply N.compare_lt_iff in L. now rewrite L.
Qed.

Lemma string_leb_trans (a b c : string) :
  String.leb a b = true -> String.leb b c = true -> String.leb a c = true.
Proof.
  unfold String.leb.
  destruct (String.compare a b) eqn:E1; try discriminate;
  destruct (String.compare b c) eqn:E2; try discriminate; intros _ _.
  - apply String.compare_eq_iff in E1, E2. subst. now rewrite string_compare_refl.
  - apply String.compare_eq_iff in E1. subst. now rewrite E2.
  - apply String.compare_eq_iff in E2. subst. now rewrite E1.
  - now rewrite (string_compare_lt_trans _ _ _ E1 E2).
Qed.

Lemma string_ltb_leb (a b : string) : String.ltb a b = true -> String.leb a b = true.
Proof. unfold String.ltb, String.leb. destruct (String.compare a b); auto. Qed.

Lemma string_not_ltb_leb (a b : string) :
  String.ltb a b = false -> String.leb b a = true.
Proof.
  unfold String.ltb, String.leb. rewrite (String.compare_antisym b a).
  destruct (String.compare a b); simpl; auto; discriminate.
Qed.

Lemma string_ltb_both_false (a b : string) :
  String.ltb a b = false -> String.ltb b a = false -> String.leb a b = true.
Proof.
  unfold String.ltb, String.leb. rewrite (String.compare_antisym b a).
  destruct (String.compare a b); simpl; auto; discriminate.
Qed.

Lemma num_le_trans (a b c : num) :
  num_le a b = true -> num_le b c = true -> num_le a c = true.
Proof.
  destruct a, b, c; simpl; try congruence.
  rewrite !Qle_bool_iff. apply Qle_trans.
Qed.

Lemma Qcompare_sub_pos (x y : Q) :
  (0 ?= (x - y) * 1)%Q = (y ?= x)%Q.
Proof.
  destruct (Qcompare_spec y x) as [E|L|G].
  - apply -> Qeq_alt. rewrite E. ring.
  - apply -> Qlt_alt. lra.
  - apply -> Qgt_alt. lra.
Qed.

Lemma Qcompare_sub_neg (x y : Q) :
  (0 ?= (x - y) * -1)%Q = (x ?= y)%Q.
Proof.
  destruct (Qcompare_spec x y) as [E|L|G].
  - apply -> Qeq_alt. rewrite E. ring.
  - apply -> Qlt_alt. lra.
  - apply -> Qgt_alt. lra.
Qed.

Lemma Qle_bool_compare (x y : Q) :
  Qle_bool x y = match (x ?= y)%Q with Gt => false | _ => true end.
Proof.
  destruct (Qcompare_spec x y) as [E|L|G].
  - apply Qle_bool_iff. rewrite E. apply Qle_refl.
  - apply Qle_bool_iff. lra.
  - destruct (Qle_bool x y) eqn:B; auto. apply Qle_bool_iff in B. lra.
Qed.

(** ** The model of [sort] returns a sorted permutation *)

Section ArraySortFacts.
Context {A : Type}.
Variable comparefn : A -> A -> num.
Variable R : A -> A -> Prop.
Hypothesis R_trans : forall x y z, R x y -> R y z -> R x z.
Hypothesis R_keep : forall x y, sorts_after comparefn x y = false -> R x y.
Hypothesis R_swap : forall x y, sorts_after comparefn x y = true -> R y x.

Lemma insert_sorted_perm (x : A) (l : list A) :
  Permutation (x :: l) (insert_sorted comparefn x l).
Proof.
  induction l as [|y t IH]; simpl; auto.
  destruct (sorts_after comparefn x y); auto.
  eapply perm_trans; [apply perm_swap|]. now constructor.
Qed.

Lemma Array_sort_perm (l : list A) : Permutation l (Array_sort comparefn l).
Proof.
  induction l as [|x l IH]; simpl; auto.
  eapply perm_trans; [|apply insert_sorted_perm]. now constructor.
Qed.

Lemma insert_sorted_sorted (x : A) (l : list A) :
  StronglySorted R l -> StronglySorted R (insert_sorted comparefn x l).
Proof.
  induction 1 as [|y t St IH Hy]; simpl.
  - repeat constructor.
  - destruct (sorts_after comparefn x y) eqn:E.
    + constructor; auto.
      eapply Permutation_Forall; [apply insert_sorted_perm|].
      constructor; auto.
    + constructor; [now constructor|].
      constructor; auto.
      eapply Forall_impl; [|exact Hy]. intros z Hz.
      eapply R_trans; eauto.
Qed.

Lemma Array_sort_sorted (l : list A) : StronglySorted R (Array_sort comparefn l).
Proof.
  induction l as [|x l IH]; simpl; [constructor|].
  now apply insert_sorted_sorted.
Qed.
End ArraySortFacts.


Section CompareRowsFacts.
Variable h : Host.

Lemma str_empty_true (s : string) : str_empty s = true -> s = EmptyString.
Proof. destruct s; simpl; congruence. Qed.

(** Runs the sign test of [sort] once every branch of the comparator
    has been decided. *)
Ltac sign_test :=
  let H := fresh in
  intros H; vm_compute in H; try discriminate H; clear H;
  auto using string_ltb_leb, string_ltb_both_false.

Lemma compare_text_keep d ta tb :
  num_gt (compare_text (multiplier d) ta tb) (Fin 0%Q) = false ->
  text_in_order d ta tb = true.
Proof.
  unfold compare_text, text_in_order, str_lt, str_gt, multiplier.
  destruct d;
    destruct (str_empty ta) eqn:Ea, (str_empty tb) eqn:Eb; cbn [andb negb];
    try (destruct (String.ltb ta tb) eqn:L1;
         [|destruct (String.ltb tb ta) eqn:L2]);
    sign_test.
Qed.

Lemma compare_text_swap d ta tb :
  num_gt (compare_text (multiplier d) ta tb) (Fin 0%Q) = true ->
  text_in_order d tb ta = true.
Proof.
  unfold compare_text, text_in_order, str_lt, str_gt, multiplier.
  destruct d;
    destruct (str_empty ta) eqn:Ea, (str_empty tb) eqn:Eb; cbn [andb negb];
    try (destruct (String.ltb ta tb) eqn:L1;
         [|destruct (String.ltb tb ta) eqn:L2]);
    sign_test.
Qed.

Lemma text_in_order_trans d ta tb tc :
  text_in_order d ta tb = true -> text_in_order d tb tc = true ->
  text_in_order d ta tc = true.
Proof.
  unfold text_in_order.
  destruct (str_empty ta), (str_empty tb), (str_empty tc); simpl; auto;
    try discriminate.
  destruct d; intros H1 H2; eapply string_leb_trans; eauto.
Qed.

Lemma num_compare_keep d x y :
  x <> NaN -> y <> NaN ->
  num_gt (num_mul (num_sub x y) (multiplier d)) (Fin 0%Q) = false ->
  num_in_order d x y = true.
Proof.
  intros Hx Hy.
  destruct x as [| | |p], y as [| | |q], d; try congruence;
    unfold multiplier, num_in_order; cbn [num_sub num_mul];
    try (intros H; vm_compute in H; try discriminate H; reflexivity);
    unfold num_gt, num_lt, num_le.
  - rewrite Qcompare_sub_pos, Qle_bool_compare, <- (Qcompare_antisym q p).
    destruct (q ?= p)%Q; simpl; auto; discriminate.
  - rewrite Qcompare_sub_neg, Qle_bool_compare, <- (Qcompare_antisym p q).
    destruct (p ?= q)%Q; simpl; auto; discriminate.
Qed.

Lemma num_compare_swap d x y :
  x <> NaN -> y <> NaN ->
  num_gt (num_mul (num_sub x y) (multiplier d)) (Fin 0%Q) = true ->
  num_in_order d y x = true.
Proof.
  intros Hx Hy.
  destruct x as [| | |p], y as [| | |q], d; try congruence;
    unfold multiplier, num_in_order; cbn [num_sub num_mul];
    try (intros H; vm_compute in H; try discriminate H; reflexivity);
    unfold num_gt, num_lt, num_le.
  - rewrite Qcompare_sub_pos, Qle_bool_compare.
    destruct (q ?= p)%Q; simpl; auto; discriminate.
  - rewrite Qcompare_sub_neg, Qle_bool_compare.
    destruct (p ?= q)%Q; simpl; auto; discriminate.
Qed.

Lemma num_in_order_trans d x y z :
  num_in_order d x y = true -> num_in_order d y z = true ->
  num_in_order d x z = true.
Proof.
  destruct d; simpl; intros H1 H2; eapply num_le_trans; eauto.
Qed.

Lemma missing_value_not_NaN d : missing_value d <> NaN.
Proof. destruct d; discriminate. Qed.

Lemma safeFloat_not_NaN v fb : fb <> NaN -> safeFloat h v fb <> NaN.
Proof.
  intros Hfb. unfold safeFloat, safeFloatWith.
  destruct v; auto;
    destruct (str_empty _); auto;
    destruct (parseFloat _); simpl; auto; discriminate.
Qed.

Lemma time_of_not_NaN key d row : time_of h key d row <> NaN.
Proof.
  unfold time_of. destruct (parseDate _ _); [discriminate|].
  apply missing_value_not_NaN.
Qed.

Lemma compareRows_keep key d a b :
  sorts_after (compareRows h key d) a b = false -> in_order h key d a b = true.
Proof.
  unfold sorts_after, compareRows, in_order.
  fold (multiplier d).
  destruct (String.eqb key "latest_update") eqn:E1.
  - apply String.eqb_eq in E1. subst key. apply compare_text_keep.
  - destruct (includes dateKeys key).
    + apply num_compare_keep; apply time_of_not_NaN.
    + destruct (includes numericKeys key).
      * apply num_compare_keep; apply safeFloat_not_NaN, missing_value_not_NaN.
      * unfold text_of. rewrite E1. apply compare_text_keep.
Qed.

Lemma compareRows_swap key d a b :
  sorts_after (compareRows h key d) a b = true -> in_order h key d b a = true.
Proof.
  unfold sorts_after, compareRows, in_order.
  fold (multiplier d).
  destruct (String.eqb key "latest_update") eqn:E1.
  - apply String.eqb_eq in E1. subst key. apply compare_text_swap.
  - destruct (includes dateKeys key).
    + apply num_compare_swap; apply time_of_not_NaN.
    + destruct (includes numericKeys key).
      * apply num_compare_swap; apply safeFloat_not_NaN, missing_value_not_NaN.
      * unfold text_of. rewrite E1. apply compare_text_swap.
Qed.

Lemma in_order_trans key d a b c :
  in_order h key d a b = true -> in_order h key d b c = true ->
  in_order h key d a c = true.
Proof.
  unfold in_order.
  destruct (String.eqb key "latest_update");
    [apply text_in_order_trans|].
  destruct (includes dateKeys key); [apply num_in_order_trans|].
  destruct (includes numericKeys key);
    [apply num_in_order_trans | apply text_in_order_trans].
Qed.
End CompareRowsFacts.

(** ** C1: the rendered tables are sorted by the current sort state *)

Lemma sortedForRender_sorted (h : Host) (cs : sortState) (data : list obj) :
  sort_key cs <> EmptyString ->
  Permutation data (sortedForRender h cs data) /\
  StronglySorted
    (fun a b => in_order h (sort_key cs) (sort_direction cs) a b = true)
    (sortedForRender h cs data).
Proof.
  intros Hkey. unfold sortedForRender.
  destruct (sort_key cs) as [|c k] eqn:E; [congruence|]. cbn [str_empty negb].
  split.
  - apply Array_sort_perm.
  - apply Array_sort_sorted.
    + intros x y z. apply in_order_trans.
    + apply compareRows_keep.
    + apply compareRows_swap.
Qed.

Lemma shownActive_renderProjectTable h data st :
  shownActive (renderProjectTable h data ActiveTable st) = data.
Proof. reflexivity. Qed.

Lemma shownCompleted_renderProjectTable h data st :
  shownCompleted (renderProjectTable h data CompletedTable st) = data.
Proof. reflexivity. Qed.

(** C1 (amended).  With a sort key set, the rows that [renderActiveTable]
    and [renderCompletedTable] put on the page are a permutation of the
    stored array, and any row stands before any later row in the order of
    the key: by number for the numeric keys, by parsed date for the date
    keys, by lowercased text otherwise, ascending for ['asc'] and descending
    for ['desc'], with the rows whose value is missing (empty text, no
    number, no date) last in both directions. *)
Theorem render_tables_sorted (h : Host) (st : state) :
  sort_key (currentSort st) <> EmptyString ->
  let key := sort_key (currentSort st) in
  let d := sort_direction (currentSort st) in
  (Permutation (currentProjectsData st) (shownActive (renderActiveTable h st)) /\
   StronglySorted (fun a b => in_order h key d a b = true)
                  (shownActive (renderActiveTable h st))) /\
  (Permutation (currentCompletedProjectsData st)
               (shownCompleted (renderCompletedTable h st)) /\
   StronglySorted (fun a b => in_order h key d a b = true)
                  (shownCompleted (renderCompletedTable h st))).
Proof.
  intros Hkey key d. unfold renderActiveTable, renderCompletedTable.
  rewrite shownActive_renderProjectTable, shownCompleted_renderProjectTable.
  split; apply sortedForRender_sorted; exact Hkey.
Qed.

Lemma render_tables_sorted_witness :
  sort_key (currentSort by_client_asc) <> EmptyString /\
  StronglySorted (fun a b => in_order Example.browser "client" asc a b = true)
                 (shownActive (renderActiveTable Example.browser by_client_asc)).
Proof.
  split; [discriminate|].
  apply (render_tables_sorted Example.browser by_client_asc). discriminate.
Defined.

(** C1 as stated fails: sorting by client, ascending, shows the project
    without a client after ["Acme"], although the empty text is the least
    in lexicographic order. *)
Lemma render_asc_empty_text_last :
  shownActive (renderActiveTable Example.browser by_client_asc)
    = [ [("id", JNum (Fin 2%Q)); ("client", JStr "Acme")];
        [("id", JNum (Fin 1%Q)); ("client", JNull)] ] /\
  ~ StronglySorted
      (fun a b => claimed_in_order Example.browser "client" asc a b = true)
      (shownActive (renderActiveTable Example.browser by_client_asc)).
Proof.
  assert (E : shownActive (renderActiveTable Example.browser by_client_asc)
              = [ [("id", JNum (Fin 2%Q)); ("client", JStr "Acme")];
                  [("id", JNum (Fin 1%Q)); ("client", JNull)] ])
    by (vm_compute; reflexivity).
  split; [exact E|].
  rewrite E. intros S.
  inversion S as [|x l _ F]; subst.
  inversion F as [|y l' Hxy _]; subst.
  vm_compute in Hxy. discriminate.
Qed.

(** After a click on a sortable header the sort state holds its key, and
    the direction flips when the key was already the current one. *)
Lemma sortHeaderClick_sets_key (h : Host) (t : table) (key : string) (st : state) :
  key <> EmptyString ->
  sort_key (currentSort (sortHeaderClick h t key st)) = key.
Proof.
  intros Hk. unfold sortHeaderClick.
  destruct key; [congruence|]. cbn [str_empty].
  destruct t; reflexivity.
Qed.

(** ** C4: which keys are compared as strings *)




(** ** C5: a CSV cell reads back as the value it was made from *)





(** A cell with a comma and quotes, made and read back. *)
Example formatCsvCell_quoted :
  let v := JStr (String "6" (String dquote ", steel")) in
  formatCsvCell Example.browser v
    = String dquote (String "6" (String dquote (String dquote (", steel"
        ++ String dquote EmptyString)))) /\
  Csv.decode_cell (formatCsvCell Example.browser v)
    = Some (String "6" (String dquote ", steel")).
Proof. split; reflexivity. Qed.

(** ** C9: the value sent by the forecast form *)

Lemma validate_valid (h : Host) (f : forecastForm) :
  isValid (validate h f) = true ->
  original_input_value (validate h f) = entered_value h f /\
  forecast_input_type (validate h f) = entered_type f.
Proof.
  unfold validate, entered_value, entered_type.
  generalize (safeFloat h (JStr (trim (forecast_amount f))) NaN) as x.
  generalize (safeFloat h (JStr (trim (forecast_percent f))) NaN) as y.
  generalize (parseDate h (JStr (forecast_date f))) as pd.
  generalize (str_empty (forecast_modal_project_id f)
              || isNaN (parseInt (forecast_modal_project_id f)))%bool as noId.
  generalize (str_empty (forecast_date f)) as noDate.
  generalize (str_empty (trim (forecast_amount f))) as noAmount.
  generalize (str_empty (trim (forecast_percent f))) as noPercent.
  intros noPercent noAmount noDate noId pd y x.
  destruct noAmount, noPercent, noId, noDate, pd, (isNaN x), (isNaN y);
    cbv; intros H; try discriminate H; auto.
Qed.

(** C9.  Whenever the form is sent, [is_deduction] is the state of the
    checkbox, and [forecast_input_value] is the entered number times 0.30
    when the box is checked and the entered number itself when it is not,
    for an amount as for a percent. *)
Theorem forecast_deduction (h : Host) (f : forecastForm) (body : obj) :
  handleAddForecastSubmit h f = Posted body ->
  get body "is_deduction" = JBool (forecast_deduct_checkbox f) /\
  get body "forecast_input_type" = JStr (entered_type f) /\
  get body "forecast_input_value"
    = JNum (if forecast_deduct_checkbox f
            then num_mul (entered_value h f) (Fin 0.30%Q)
            else entered_value h f).
Proof.
  unfold handleAddForecastSubmit.
  destruct (isValid (validate h f)) eqn:V; cbn [negb]; [|discriminate].
  destruct (validate_valid h f V) as [Hv Ht].
  intros E. injection E as <-. rewrite Hv, Ht.
  repeat split.
Qed.

Lemma forecast_deduction_witness :
  exists body,
    handleAddForecastSubmit Example.browser deducted_amount_form = Posted body /\
    get body "is_deduction" = JBool true /\
    get body "forecast_input_type" = JStr "amount" /\
    get body "forecast_input_value"
      = JNum (num_mul (entered_value Example.browser deducted_amount_form)
                      (Fin 0.30%Q)).
Proof.
  eexists. split.
  - vm_compute. reflexivity.
  - apply (forecast_deduction Example.browser deducted_amount_form).
    vm_compute. reflexivity.
Defined.

(** The same form without the deduction sends the number as entered. *)
Example forecast_without_deduction :
  handleAddForecastSubmit Example.browser plain_percent_form
    = Posted [ ("project_id", JNum (Fin 7%Q));
               ("forecast_input_type", JStr "percent");
               ("forecast_input_value", JNum (parseFloat "40"));
               ("forecast_date", JStr "3/31/2025");
               ("is_deduction", JBool false) ].
Proof. vm_compute. reflexivity. Qed.

(** A form with both fields filled is refused, and nothing is sent. *)
Example forecast_both_fields_refused :
  handleAddForecastSubmit Example.browser
    {| forecast_modal_project_id := "7"; forecast_amount := "100";
       forecast_percent := "40"; forecast_date := "2025-03-31";
       forecast_deduct_checkbox := true |}
    = Refused "Error: Enter Amount OR Percent, not both.".
Proof. vm_compute. reflexivity. Qed.

(** ** Cells of the dashboard tables *)

Lemma nth_error_list_set_eq {A : Type} (l : list A) (i : nat) (v x : A) :
  nth_error l i = Some x -> nth_error (list_set i v l) i = Some v.
Proof.
  revert i. induction l as [|y l IH]; intros [|i]; simpl; try discriminate; auto.
Qed.

Lemma nth_error_list_set_neq {A : Type} (l : list A) (i j : nat) (v : A) :
  i <> j -> nth_error (list_set i v l) j = nth_error l j.
Proof.
  revert i j. induction l as [|y l IH]; intros [|i] [|j] H; simpl; auto;
    try congruence.
Qed.

Lemma no_new_input_refl st : no_new_input st st.
Proof. split; auto. Qed.

Lemma no_new_input_trans st1 st2 st3 :
  no_new_input st1 st2 -> no_new_input st2 st3 -> no_new_input st1 st3.
Proof. intros [L1 C1] [L2 C2]. split; [congruence | auto]. Qed.

Lemma single_editor_no_new_input st st' :
  single_editor st -> no_new_input st st' -> single_editor st'.
Proof. intros I [L C] c Hc. rewrite L. auto. Qed.

Lemma content_of_update_cell (f : cell -> cell) c c' st :
  content_of (update_cell c f st) c'
    = if Nat.eqb c c'
      then option_map (fun cl => content (f cl)) (nth_error (cells st) c')
      else content_of st c'.
Proof.
  unfold update_cell, content_of.
  destruct (Nat.eqb_spec c c') as [->|N].
  - destruct (nth_error (cells st) c') eqn:E; simpl; [|now rewrite E].
    now rewrite (nth_error_list_set_eq _ _ _ _ E).
  - destruct (nth_error (cells st) c) eqn:E; simpl; auto.
    now rewrite nth_error_list_set_neq.
Qed.

Lemma currentlyEditingCell_update_cell f c st :
  currentlyEditingCell (update_cell c f st) = currentlyEditingCell st.
Proof. unfold update_cell. destruct (nth_error _ _); reflexivity. Qed.

Lemma requests_update_cell f c st :
  requests (update_cell c f st) = requests st.
Proof. unfold update_cell. destruct (nth_error _ _); reflexivity. Qed.

Lemma awaiting_update_cell f c st :
  awaiting (update_cell c f st) = awaiting st.
Proof. unfold update_cell. destruct (nth_error _ _); reflexivity. Qed.

Lemma feedback_update_cell f c st :
  feedback (update_cell c f st) = feedback st.
Proof. unfold update_cell. destruct (nth_error _ _); reflexivity. Qed.

Lemma update_cell_quiet (f : cell -> cell) c st :
  (forall cl, content (f cl) = InputBox -> content cl = InputBox) ->
  no_new_input st (update_cell c f st).
Proof.
  intros Hf. split; [apply currentlyEditingCell_update_cell|].
  intros c'. rewrite content_of_update_cell.
  destruct (Nat.eqb c c'); auto.
  unfold content_of. destruct (nth_error (cells st) c'); simpl; [|discriminate].
  intros E. injection E as E. now rewrite (Hf _ E).
Qed.

Lemma set_textContent_quiet c s st : no_new_input st (set_textContent c s st).
Proof. apply update_cell_quiet. discriminate. Qed.

Lemma content_of_set_textContent c s st cl :
  nth_error (cells st) c = Some cl ->
  content_of (set_textContent c s st) c = Some (Text s).
Proof.
  intros E. unfold set_textContent. rewrite content_of_update_cell.
  now rewrite Nat.eqb_refl, E.
Qed.

Lemma content_of_set_textContent_other c c' s st :
  c <> c' -> content_of (set_textContent c s st) c' = content_of st c'.
Proof.
  intros N. unfold set_textContent. rewrite content_of_update_cell.
  destruct (Nat.eqb_spec c c'); congruence.
Qed.

Lemma content_detach t cl : content (detach_table t cl) = content cl.
Proof. unfold detach_table. destruct (table_eqb _ _); reflexivity. Qed.

Lemma map_detach_content t l c :
  option_map content (nth_error (map (detach_table t) l) c)
    = option_map content (nth_error l c).
Proof.
  rewrite nth_error_map. destruct (nth_error l c); simpl; auto.
  now rewrite content_detach.
Qed.

Lemma render_rows_content h t data acc c :
  option_map content (nth_error (render_rows h t data acc) c) = Some InputBox ->
  option_map content (nth_error acc c) = Some InputBox.
Proof.
  revert acc. induction data as [|p data IH]; intros acc; simpl; auto.
  intros H. apply IH in H.
  destruct (Nat.lt_ge_cases c (List.length acc)) as [L|G].
  - now rewrite nth_error_app1 in H.
  - rewrite nth_error_app2 in H by exact G.
    destruct (c - List.length acc)%nat as [|[|n]]; simpl in H; try discriminate.
    destruct n; discriminate.
Qed.

Lemma renderProjectTable_quiet h data t st :
  no_new_input st (renderProjectTable h data t st).
Proof.
  split; [destruct t; reflexivity|].
  intros c. unfold content_of.
  replace (cells (renderProjectTable h data t st))
    with (render_rows h t data (map (detach_table t) (cells st)))
    by (destruct t; reflexivity).
  intros H. apply render_rows_content in H. now rewrite map_detach_content in H.
Qed.

Lemma clear_table_quiet t st : no_new_input st (clear_table t st).
Proof.
  split; [destruct t; reflexivity|].
  intros c. unfold content_of.
  replace (cells (clear_table t st)) with (map (detach_table t) (cells st))
    by (destruct t; reflexivity).
  now rewrite map_detach_content.
Qed.

Lemma same_cells_quiet st st' :
  cells st' = cells st -> currentlyEditingCell st' = currentlyEditingCell st ->
  no_new_input st st'.
Proof. intros C L. split; auto. unfold content_of. now rewrite C. Qed.

Section EditingFacts.
Variable h : Host.

Lemma fetchActiveProjects_quiet st : no_new_input st (fetchActiveProjects st).
Proof.
  unfold fetchActiveProjects.
  eapply no_new_input_trans; [apply (clear_table_quiet ActiveTable)|].
  apply same_cells_quiet; reflexivity.
Qed.

Lemma fetchCompletedProjects_quiet st :
  no_new_input st (fetchCompletedProjects st).
Proof.
  unfold fetchCompletedProjects.
  eapply no_new_input_trans; [apply (clear_table_quiet CompletedTable)|].
  apply same_cells_quiet; reflexivity.
Qed.

Lemma fetchDashboardData_quiet st : no_new_input st (fetchDashboardData st).
Proof. apply same_cells_quiet; reflexivity. Qed.

Lemma renderActiveTable_quiet st : no_new_input st (renderActiveTable h st).
Proof. apply renderProjectTable_quiet. Qed.

Lemma renderCompletedTable_quiet st :
  no_new_input st (renderCompletedTable h st).
Proof. apply renderProjectTable_quiet. Qed.

Lemma set_data_quiet a b st : no_new_input st (set_data a b st).
Proof. apply same_cells_quiet; reflexivity. Qed.

Lemma set_sort_quiet v st : no_new_input st (set_sort v st).
Proof. apply same_cells_quiet; reflexivity. Qed.

Lemma set_awaiting_quiet v st : no_new_input st (set_awaiting v st).
Proof. apply same_cells_quiet; reflexivity. Qed.

Lemma displayFeedback_quiet m t st : no_new_input st (displayFeedback m t st).
Proof. apply same_cells_quiet; reflexivity. Qed.

Lemma fetchActiveProjects_resume_quiet r st :
  no_new_input st (fetchActiveProjects_resume h r st).
Proof.
  unfold fetchActiveProjects_resume, applyFiltersAndRender.
  destruct r as [data u|message]; cbv iota beta.
  - eapply no_new_input_trans; [apply set_data_quiet|].
    apply renderActiveTable_quiet.
  - destruct (String.eqb message "Unauthorized"); [apply no_new_input_refl|].
    eapply no_new_input_trans; [apply set_data_quiet|].
    apply clear_table_quiet.
Qed.

Lemma fetchCompletedProjects_resume_quiet r st :
  no_new_input st (fetchCompletedProjects_resume h r st).
Proof.
  unfold fetchCompletedProjects_resume.
  destruct r as [data u|message]; cbv iota beta.
  - eapply no_new_input_trans; [apply set_data_quiet|].
    apply renderCompletedTable_quiet.
  - destruct (String.eqb message "Unauthorized"); [apply no_new_input_refl|].
    eapply no_new_input_trans; [apply set_data_quiet|].
    apply clear_table_quiet.
Qed.

Lemma sortHeaderClick_quiet t key st :
  no_new_input st (sortHeaderClick h t key st).
Proof.
  unfold sortHeaderClick.
  destruct (str_empty key); [apply no_new_input_refl|].
  eapply no_new_input_trans; [apply set_sort_quiet|].
  destruct t; [apply renderActiveTable_quiet | apply renderCompletedTable_quiet].
Qed.

Lemma refetch_quiet st :
  no_new_input st (fetchCompletedProjects (fetchActiveProjects st)).
Proof.
  eapply no_new_input_trans;
    [apply fetchActiveProjects_quiet | apply fetchCompletedProjects_quiet].
Qed.

(** Peels the state transformers of a handler off, outermost first. *)
Ltac quiet_step :=
  first [ apply set_textContent_quiet | apply set_data_quiet
        | apply fetchDashboardData_quiet | apply fetchActiveProjects_quiet
        | apply fetchCompletedProjects_quiet | apply displayFeedback_quiet ].

Ltac quiet :=
  solve [ apply no_new_input_refl
        | quiet_step
        | eapply no_new_input_trans; [|quiet_step]; quiet ].

Lemma saveEdit_resume_quiet c pid fk v dv ov r st :
  no_new_input st (saveEdit_resume h c pid fk v dv ov r st).
Proof.
  unfold saveEdit_resume.
  destruct r as [rows [u|]|message]; cbv zeta.
  - destruct (findIndex _ (currentProjectsData _));
      [|destruct (findIndex _ (currentCompletedProjectsData _))];
      destruct (status_or_amount fk);
      try destruct (remainingCell_of _ _);
      quiet.
  - destruct (status_or_amount fk); quiet.
  - destruct (String.eqb message "Unauthorized"); quiet.
Qed.

Lemma typeInto_quiet c v st : no_new_input st (Dashboard.typeInto c v st).
Proof.
  apply update_cell_quiet. intros cl.
  destruct (inlineEditListeners cl); auto.
Qed.

Lemma openEditModal_quiet pid st : no_new_input st (openEditModal h pid st).
Proof.
  unfold openEditModal.
  destruct (match find_project pid (currentProjectsData (clearFeedback st)) with
            | Some p => Some p
            | None => find_project pid (currentCompletedProjectsData (clearFeedback st))
            end);
    apply same_cells_quiet; reflexivity.
Qed.

Lemma exportToCSV_quiet data prefix st :
  no_new_input st (exportToCSV h data prefix st).
Proof. destruct data; apply same_cells_quiet; reflexivity. Qed.

Lemma resume_quiet k r st : no_new_input st (resume h k r st).
Proof.
  destruct k; unfold resume.
  - apply saveEdit_resume_quiet.
  - apply fetchActiveProjects_resume_quiet.
  - apply fetchCompletedProjects_resume_quiet.
  - apply no_new_input_refl.
Qed.
End EditingFacts.

Section LockFacts.
Variable h : Host.

Lemma release_keeps_invariant st st' c :
  single_editor st ->
  currentlyEditingCell st = Some c ->
  currentlyEditingCell st' = None ->
  (forall c', content_of st' c' = Some InputBox ->
              c' <> c /\ content_of st c' = Some InputBox) ->
  single_editor st'.
Proof.
  intros I L L' C c' Hc'. destruct (C c' Hc') as [N Hc].
  apply I in Hc. congruence.
Qed.

Lemma closes_set_textContent c s f st X :
  cells X = cells (update_cell c f st) ->
  currentlyEditingCell X = None ->
  (forall cl, content (f cl) = InputBox -> content cl = InputBox) ->
  closes c st (set_textContent c s X).
Proof.
  intros HX LX Hf. split.
  - unfold set_textContent. now rewrite currentlyEditingCell_update_cell.
  - intros c'. unfold set_textContent. rewrite content_of_update_cell.
    destruct (Nat.eqb_spec c c') as [->|N].
    + destruct (nth_error (cells X) c'); discriminate.
    + unfold content_of at 1. rewrite HX.
      fold (content_of (update_cell c f st) c').
      rewrite content_of_update_cell.
      destruct (Nat.eqb_spec c c'); [congruence|]. auto.
Qed.

Lemma closes_same_cells c st st' st'' :
  closes c st st' -> cells st'' = cells st' ->
  currentlyEditingCell st'' = currentlyEditingCell st' ->
  closes c st st''.
Proof.
  intros [L C] HC HL. split; [congruence|].
  intros c'. unfold content_of. rewrite HC. apply C.
Qed.

Lemma saveEdit_cases v c pid fk ov st :
  saveEdit h v c pid fk ov st = st \/ 
  (currentlyEditingCell st = Some c /\ closes c st (saveEdit h v c pid fk ov st)).
Proof.
  unfold saveEdit.
  destruct (nth_error (cells st) c) as [cl|] eqn:Ec; [|now left].
  destruct (currentlyEditingCell st) as [e|] eqn:Le; [|now left].
  destruct (Nat.eqb_spec e c) as [->|N]; cbn [negb]; [|now left].
  right. split; [reflexivity|].
  assert (Hl : forall cl0, content (with_listeners None cl0) = InputBox ->
                           content cl0 = InputBox) by auto.
  destruct (String.eqb fk "status").
  - destruct (isNaN _ || num_lt _ _ || num_gt _ _)%bool.
    + eapply closes_set_textContent; [reflexivity|reflexivity|exact Hl].
    + destruct (negb (negb _)).
      * eapply closes_set_textContent; [reflexivity|reflexivity|exact Hl].
      * eapply closes_same_cells; [|reflexivity|reflexivity].
        eapply closes_set_textContent; [reflexivity|reflexivity|exact Hl].
  - eapply closes_set_textContent; [reflexivity|reflexivity|exact Hl].
Qed.

Lemma cancelEdit_cases c o st :
  cancelEdit c o st = st \/
  (currentlyEditingCell st = Some c /\ closes c st (cancelEdit c o st)).
Proof.
  unfold cancelEdit.
  destruct (nth_error (cells st) c) as [cl|] eqn:Ec; [|now left].
  destruct (currentlyEditingCell st) as [e|] eqn:Le; [|now left].
  destruct (Nat.eqb_spec e c) as [->|N]; cbn [negb]; [|now left].
  right. split; [reflexivity|]. split.
  - reflexivity.
  - intros c'. unfold content_of. cbn [cells set_editing].
    fold (content_of
            (update_cell c (with_originalValue None)
               (set_textContent c o (update_cell c (with_listeners None) st))) c').
    rewrite content_of_update_cell.
    destruct (Nat.eqb_spec c c') as [->|N].
    + intros H.
      assert (E : content_of
                    (set_textContent c' o (update_cell c' (with_listeners None) st)) c'
                  = Some InputBox).
      { unfold content_of.
        destruct (nth_error (cells (set_textContent c' o _)) c');
          simpl in *; auto. }
      unfold set_textContent in E. rewrite content_of_update_cell in E.
      rewrite Nat.eqb_refl in E.
      destruct (nth_error (cells (update_cell c' _ st)) c'); discriminate.
    + rewrite content_of_set_textContent_other by exact N.
      rewrite content_of_update_cell.
      destruct (Nat.eqb_spec c c'); [congruence|]. auto.
Qed.

Lemma closes_invariant c st st' :
  single_editor st -> currentlyEditingCell st = Some c -> closes c st st' ->
  single_editor st'.
Proof.
  intros I L [L' C]. eapply release_keeps_invariant; eauto.
Qed.

Lemma saveEdit_invariant v c pid fk ov st :
  single_editor st -> single_editor (saveEdit h v c pid fk ov st).
Proof.
  intros I. destruct (saveEdit_cases v c pid fk ov st) as [->|[L C]]; auto.
  eapply closes_invariant; eauto.
Qed.

Lemma cancelEdit_invariant c o st :
  single_editor st -> single_editor (cancelEdit c o st).
Proof.
  intros I. destruct (cancelEdit_cases c o st) as [->|[L C]]; auto.
  eapply closes_invariant; eauto.
Qed.

Lemma makeCellEditable_refuses c e st cl :
  nth_error (cells st) c = Some cl ->
  currentlyEditingCell st = Some e -> e <> c ->
  makeCellEditable h c st
    = displayFeedback "Please save or cancel the other edit first." "warning" st.
Proof.
  intros Ec Le N. unfold makeCellEditable. rewrite Ec, Le.
  destruct (Nat.eqb_spec e c); [congruence|reflexivity].
Qed.

Lemma makeCellEditable_invariant c st :
  single_editor st -> single_editor (makeCellEditable h c st).
Proof.
  intros I. unfold makeCellEditable.
  destruct (nth_error (cells st) c) as [cl|] eqn:Ec; auto.
  destruct (currentlyEditingCell st) as [e|] eqn:Le.
  - destruct (Nat.eqb e c); [exact I|].
    eapply single_editor_no_new_input; [exact I|apply displayFeedback_quiet].
  - destruct (negb (String.eqb (data_field cl) "status")); auto.
    intros c' H. rewrite currentlyEditingCell_update_cell. cbn [currentlyEditingCell set_editing].
    rewrite content_of_update_cell in H.
    destruct (Nat.eqb_spec c c') as [->|N]; [reflexivity|].
    apply I in H. congruence.
Qed.

Lemma makeCellEditable_keeps_lock c e st :
  currentlyEditingCell st = Some e ->
  currentlyEditingCell (makeCellEditable h c st) = Some e.
Proof.
  intros Le. unfold makeCellEditable.
  destruct (nth_error (cells st) c); auto. rewrite Le.
  destruct (Nat.eqb e c); auto.
Qed.
End LockFacts.

Section StepFacts.
Variable h : Host.

Lemma saveEdit_other v c e pid fk ov st :
  currentlyEditingCell st = Some e -> e <> c ->
  saveEdit h v c pid fk ov st = st.
Proof.
  intros L N. unfold saveEdit. rewrite L.
  destruct (nth_error (cells st) c); auto.
  destruct (Nat.eqb_spec e c); [congruence|reflexivity].
Qed.

Lemma cancelEdit_other c e o st :
  currentlyEditingCell st = Some e -> e <> c -> cancelEdit c o st = st.
Proof.
  intros L N. unfold cancelEdit. rewrite L.
  destruct (nth_error (cells st) c); auto.
  destruct (Nat.eqb_spec e c); [congruence|reflexivity].
Qed.

Lemma step_invariant op st : single_editor st -> single_editor (step h op st).
Proof.
  intros I.
  assert (Q : forall st', no_new_input st st' -> single_editor st')
    by (intros st'; now apply single_editor_no_new_input).
  destruct op; cbn [step].
  - apply Q, fetchActiveProjects_quiet.
  - apply Q, fetchCompletedProjects_quiet.
  - apply Q, sortHeaderClick_quiet.
  - now apply makeCellEditable_invariant.
  - apply Q, typeInto_quiet.
  - unfold handleKeyDown.
    destruct (nth_error (cells st) c) as [cl|]; auto.
    destruct (inlineEditListeners cl); auto.
    destruct (String.eqb key "Enter"); [now apply saveEdit_invariant|].
    destruct (String.eqb key "Escape"); [now apply cancelEdit_invariant|auto].
  - unfold handleBlur.
    destruct (nth_error (cells st) c) as [cl|]; auto.
    destruct (inlineEditListeners cl); auto.
    destruct (currentlyEditingCell st); auto.
    destruct (Nat.eqb _ _); [now apply saveEdit_invariant|auto].
  - unfold closeEditProjectModal.
    destruct (currentlyEditingCell st); auto.
    destruct (nth_error (cells st) _) as [cl|]; auto.
    destruct (content cl); [auto|now apply cancelEdit_invariant].
  - apply Q, openEditModal_quiet.
  - apply Q, exportToCSV_quiet.
  - apply Q, exportToCSV_quiet.
  - destruct (nth_error (awaiting st) i); auto.
    apply Q. eapply no_new_input_trans;
      [apply set_awaiting_quiet | apply resume_quiet].
Qed.

Lemma run_invariant ops st : single_editor st -> single_editor (run h ops st).
Proof.
  revert st. induction ops as [|op ops IH]; intros st I; simpl; auto.
  apply IH, step_invariant, I.
Qed.

Lemma initial_state_invariant : single_editor initial_state.
Proof. intros [|c]; discriminate. Qed.

Lemma step_lock op st e :
  currentlyEditingCell st = Some e ->
  currentlyEditingCell (step h op st) = Some e \/
  (exists v pid fk ov, step h op st = saveEdit h v e pid fk ov st) \/
  (exists o, step h op st = cancelEdit e o st).
Proof.
  intros L.
  assert (Q : forall st', no_new_input st st' ->
                          currentlyEditingCell st' = Some e)
    by (intros st' [E _]; congruence).
  destruct op; cbn [step].
  - left. apply Q, fetchActiveProjects_quiet.
  - left. apply Q, fetchCompletedProjects_quiet.
  - left. apply Q, sortHeaderClick_quiet.
  - left. now apply makeCellEditable_keeps_lock.
  - left. apply Q, typeInto_quiet.
  - unfold handleKeyDown.
    destruct (nth_error (cells st) c) as [cl|]; auto.
    destruct (inlineEditListeners cl); auto.
    destruct (Nat.eq_dec e c) as [<-|N].
    + destruct (String.eqb key "Enter"); [right; left; eauto|].
      destruct (String.eqb key "Escape"); [right; right; eauto|auto].
    + left.
      destruct (String.eqb key "Enter");
        [now rewrite (saveEdit_other _ _ _ _ _ _ _ L N)|].
      destruct (String.eqb key "Escape");
        [now rewrite (cancelEdit_other _ _ _ _ L N)|auto].
  - unfold handleBlur.
    destruct (nth_error (cells st) c) as [cl|]; auto.
    destruct (inlineEditListeners cl); auto.
    rewrite L. destruct (Nat.eqb_spec e c) as [<-|N]; auto.
    right; left; eauto.
  - unfold closeEditProjectModal. rewrite L.
    destruct (nth_error (cells st) e) as [cl|]; auto.
    destruct (content cl); auto. right; right; eauto.
  - left. apply Q, openEditModal_quiet.
  - left. apply Q, exportToCSV_quiet.
  - left. apply Q, exportToCSV_quiet.
  - destruct (nth_error (awaiting st) i); auto.
    left. apply Q. eapply no_new_input_trans;
      [apply set_awaiting_quiet | apply resume_quiet].
Qed.
End StepFacts.

(** ** C8: one inline edit at a time *)

(** C8.  A cell that holds the inline input is the cell recorded in
    [currentlyEditingCell]: this holds when the page starts and every
    operation keeps it, so at most one cell is in edit mode at any time.
    While the lock is set, [makeCellEditable] on another cell only shows
    the warning; and an operation that leaves the lock changed is a call of
    [saveEdit] or of [cancelEdit] on the locked cell. *)
Theorem single_inline_editor (h : Host) :
  (single_editor initial_state /\
   forall op st, single_editor st -> single_editor (step h op st)) /\
  (forall ops c1 c2,
     content_of (run h ops initial_state) c1 = Some InputBox ->
     content_of (run h ops initial_state) c2 = Some InputBox -> c1 = c2) /\
  (forall st c e cl,
     nth_error (cells st) c = Some cl ->
     currentlyEditingCell st = Some e -> e <> c ->
     makeCellEditable h c st
       = displayFeedback "Please save or cancel the other edit first."
                         "warning" st) /\
  (forall op st e,
     currentlyEditingCell st = Some e ->
     currentlyEditingCell (step h op st) = Some e \/
     (exists v pid fk ov, step h op st = saveEdit h v e pid fk ov st) \/
     (exists o, step h op st = cancelEdit e o st)).
Proof.
  repeat split.
  - apply initial_state_invariant.
  - apply step_invariant.
  - intros ops c1 c2 H1 H2.
    pose proof (run_invariant h ops _ initial_state_invariant) as I.
    apply I in H1. apply I in H2. congruence.
  - intros. eapply makeCellEditable_refuses; eauto.
  - apply step_lock.
Qed.

Lemma single_inline_editor_witness :
  currentlyEditingCell editing_first = Some 0%nat /\
  content_of editing_first 0%nat = Some InputBox /\
  content_of editing_first 2%nat = Some (Text "50.0%") /\
  makeCellEditable Example.browser 2%nat editing_first
    = displayFeedback "Please save or cancel the other edit first." "warning"
                      editing_first.
Proof.
  split; [vm_compute; reflexivity|].
  split; [vm_compute; reflexivity|].
  split; [vm_compute; reflexivity|].
  eapply (proj1 (proj2 (proj2 (single_inline_editor Example.browser)))).
  - vm_compute. reflexivity.
  - vm_compute. reflexivity.
  - discriminate.
Defined.

(** ** C2 and C3: what an inline edit shows while and after it is saved *)

Lemma only_writes_refl c st : only_writes c st st.
Proof. split; auto. Qed.

Lemma only_writes_trans c st1 st2 st3 :
  only_writes c st1 st2 -> only_writes c st2 st3 -> only_writes c st1 st3.
Proof.
  intros [P1 C1] [P2 C2]. split; intros c'.
  - now rewrite P2, P1.
  - intros N. now rewrite C2, C1.
Qed.

Lemma only_writes_same_cells c st st' :
  cells st' = cells st -> only_writes c st st'.
Proof.
  intros E. split; intros c'; unfold place_of, content_of; now rewrite E.
Qed.

Lemma only_writes_set_textContent c s st :
  only_writes c st (set_textContent c s st).
Proof.
  split; intros c'.
  - unfold set_textContent, update_cell, place_of.
    destruct (nth_error (cells st) c) as [cl|] eqn:E; auto.
    cbn [cells set_cells].
    destruct (Nat.eq_dec c c') as [<-|N].
    + now rewrite (nth_error_list_set_eq _ _ _ _ E), E.
    + now rewrite nth_error_list_set_neq.
  - intros N. apply content_of_set_textContent_other. congruence.
Qed.

Lemma only_writes_clear_table c t st : only_writes c st (clear_table t st).
Proof.
  assert (E : cells (clear_table t st) = map (detach_table t) (cells st))
    by (destruct t; reflexivity).
  split; intros c'.
  - unfold place_of. rewrite E, nth_error_map.
    destruct (nth_error (cells st) c'); simpl; auto.
    unfold detach_table. destruct (table_eqb _ _); reflexivity.
  - intros _. unfold content_of. rewrite E. apply map_detach_content.
Qed.

Lemma findIndex_Some {A : Type} (pred : A -> bool) (l : list A) (i : nat) :
  findIndex pred l = Some i ->
  exists x, nth_error l i = Some x /\ pred x = true.
Proof.
  revert i. induction l as [|y l IH]; simpl; [discriminate|].
  destruct (pred y) eqn:P; intros i H.
  - injection H as <-. exists y. split; [reflexivity|exact P].
  - destruct (findIndex pred l) as [n|]; [|discriminate].
    injection H as <-. simpl. apply IH. reflexivity.
Qed.

Section SaveFacts.
Variable h : Host.

Lemma only_writes_refetch c st :
  only_writes c st (fetchCompletedProjects (fetchActiveProjects st)).
Proof.
  unfold fetchCompletedProjects, fetchActiveProjects.
  eapply only_writes_trans; [|apply only_writes_same_cells; reflexivity].
  eapply only_writes_trans; [|apply only_writes_clear_table].
  eapply only_writes_trans; [|apply only_writes_same_cells; reflexivity].
  apply only_writes_clear_table.
Qed.

(** Writing the remaining-amount cell of the row of [c] leaves [c] alone
    when [c] is not such a cell. *)
Lemma remaining_cell_is_other c rc st cl :
  nth_error (cells st) c = Some cl ->
  remaining_amount_cell cl = false ->
  remainingCell_of c st = Some rc -> rc <> c.
Proof.
  intros E F R. unfold remainingCell_of in R. rewrite E in R.
  apply findIndex_Some in R. destruct R as (x & Ex & Px).
  intros ->. rewrite E in Ex. injection Ex as <-.
  rewrite F, andb_false_r in Px. discriminate.
Qed.

Lemma place_of_Some st c cl :
  nth_error (cells st) c = Some cl ->
  place_of st c = Some (cell_row cl, remaining_amount_cell cl).
Proof. unfold place_of. now intros ->. Qed.

Lemma place_of_flag st c r :
  place_of st c = Some (r, false) ->
  exists cl, nth_error (cells st) c = Some cl /\ remaining_amount_cell cl = false.
Proof.
  unfold place_of. destruct (nth_error (cells st) c) as [cl|]; [|discriminate].
  simpl. intros E. injection E as _ F. eauto.
Qed.

(** After a successful save the cell shows the new value. *)
Lemma saveEdit_resume_ok c pid fk vs dv ov rows u st cl :
  nth_error (cells st) c = Some cl ->
  remaining_amount_cell cl = false ->
  content_of (saveEdit_resume h c pid fk vs dv ov (Ok rows u) st) c
    = Some (Text dv).
Proof.
  intros E F. unfold saveEdit_resume.
  set (st1 := set_textContent c dv st).
  assert (C1 : content_of st1 c = Some (Text dv))
    by (eapply content_of_set_textContent; eauto).
  assert (P1 : place_of st1 c = Some (cell_row cl, false)).
  { rewrite (proj1 (only_writes_set_textContent c dv st)).
    rewrite (place_of_Some _ _ _ E). now rewrite F. }
  assert (K : forall st2,
             cells st2 = cells st1 \/
             st2 = fetchCompletedProjects (fetchActiveProjects st1) ->
             content_of st2 c = Some (Text dv) /\
             place_of st2 c = Some (cell_row cl, false)).
  { intros st2 [Ec| ->].
    - unfold content_of, place_of in *. now rewrite Ec.
    - split.
      + unfold fetchCompletedProjects, fetchActiveProjects, content_of.
        cbn [cells apiFetch].
        replace (cells (clear_table CompletedTable _))
          with (map (detach_table CompletedTable)
                  (map (detach_table ActiveTable) (cells st1))) by reflexivity.
        now rewrite !map_detach_content.
      + now rewrite (proj1 (only_writes_refetch c st1)). }
  assert (W : forall st2 x,
             content_of st2 c = Some (Text dv) ->
             place_of st2 c = Some (cell_row cl, false) ->
             content_of
               (fetchDashboardData
                  match remainingCell_of c st2 with
                  | Some rc => set_textContent rc x st2
                  | None => st2
                  end) c = Some (Text dv)).
  { intros st2 x C2 P2.
    change (content_of (fetchDashboardData ?s) c) with (content_of s c).
    destruct (remainingCell_of c st2) as [rc|] eqn:R; [|exact C2].
    destruct (place_of_flag _ _ _ P2) as (cl2 & E2 & F2).
    rewrite content_of_set_textContent_other; [exact C2|].
    eapply remaining_cell_is_other; eauto. }
  destruct u as [updated|]; cbv zeta.
  - destruct (findIndex _ (currentProjectsData st1));
      [|destruct (findIndex _ (currentCompletedProjectsData st1))];
      destruct (status_or_amount fk);
      try (apply W; apply K; auto);
      apply K; auto.
  - destruct (status_or_amount fk).
    + change (content_of (fetchDashboardData ?s) c) with (content_of s c).
      apply K; auto.
    + apply K; auto.
Qed.

(** A save that goes to the server shows [Saving...] in the cell. *)
Lemma saveEdit_sends v c pid fk ov st :
  requests (saveEdit h v c pid fk ov st) <> requests st ->
  let vs := safeFloat h (JStr (trim v)) NaN in
  let dv := formatPercent h (JNum vs) "N/A" in
  requests (saveEdit h v c pid fk ov st)
    = (requests st ++ [{| req_method := PUT; req_url := UPDATE_PROJECT_API pid;
                          req_body := [(fk, JNum vs)] |}])%list /\
  awaiting (saveEdit h v c pid fk ov st)
    = (awaiting st ++ [AfterSave c pid fk vs dv ov])%list /\
  content_of (saveEdit h v c pid fk ov st) c = Some (Text "Saving...").
Proof.
  unfold saveEdit.
  destruct (nth_error (cells st) c) as [cl|] eqn:Ec; [|congruence].
  destruct (currentlyEditingCell st) as [e|]; [|congruence].
  destruct (negb (Nat.eqb e c)); [congruence|].
  set (st2 := set_editing None (update_cell c (with_listeners None) st)).
  assert (R2 : requests st2 = requests st) by apply requests_update_cell.
  assert (A2 : awaiting st2 = awaiting st) by apply awaiting_update_cell.
  assert (E2 : exists cl2, nth_error (cells st2) c = Some cl2).
  { unfold st2, update_cell. rewrite Ec. cbn [cells set_editing set_cells].
    rewrite (nth_error_list_set_eq _ _ _ _ Ec). eauto. }
  destruct E2 as [cl2 E2].
  destruct (String.eqb fk "status").
  - destruct (isNaN _ || num_lt _ _ || num_gt _ _)%bool.
    + unfold set_textContent. rewrite requests_update_cell.
      cbn [requests displayFeedback]. congruence.
    + destruct (negb (negb _)).
      * unfold set_textContent. rewrite requests_update_cell. congruence.
      * intros _. cbv zeta. cbn [requests awaiting apiFetch].
        unfold set_textContent at 1 2.
        rewrite requests_update_cell, awaiting_update_cell, R2, A2.
        split; [reflexivity|]. split; [reflexivity|].
        change (content_of (apiFetch ?m ?u ?b ?k ?s) c) with (content_of s c).
        eapply content_of_set_textContent; eauto.
  - unfold set_textContent. rewrite requests_update_cell. congruence.
Qed.

(** A save that failed, other than by a 401, shows the error and puts the
    formatted original number back. *)
Lemma saveEdit_resume_error c pid vs dv ov message st cl :
  nth_error (cells st) c = Some cl ->
  String.eqb message "Unauthorized" = false ->
  let st' := saveEdit_resume h c pid "status" vs dv ov (Error message) st in
  feedback st' = Some ("Error updating status: " ++ message, "error") /\
  content_of st' c = Some (Text (formatPercent h (JNum ov) "N/A")).
Proof.
  intros E U. unfold saveEdit_resume. rewrite U. cbv zeta.
  rewrite String.eqb_refl. split.
  - unfold set_textContent. rewrite feedback_update_cell. reflexivity.
  - eapply content_of_set_textContent. cbn [cells displayFeedback]. exact E.
Qed.
End SaveFacts.

Section MrfFacts.
Variable h : Host.

Lemma mrf_content_of_set_textContent c s st cl :
  nth_error (MrfLog.cells st) c = Some cl ->
  mrf_content_of (MrfLog.set_textContent c s st) c = Some (MrfLog.Text s).
Proof.
  intros E. unfold MrfLog.set_textContent, mrf_content_of. rewrite E.
  cbn [MrfLog.cells]. now rewrite (nth_error_list_set_eq _ _ _ _ E).
Qed.

Lemma mrf_requests_set_textContent c s st :
  MrfLog.requests (MrfLog.set_textContent c s st) = MrfLog.requests st.
Proof.
  unfold MrfLog.set_textContent. destruct (nth_error _ _); reflexivity.
Qed.

(** A save of the items log that goes to the server leaves the cells as
    they are, the editing element included. *)
Lemma saveEditedMrfItem_sends c v st :
  MrfLog.requests (MrfLog.saveEditedMrfItem h c v st) <> MrfLog.requests st ->
  MrfLog.cells (MrfLog.saveEditedMrfItem h c v st) = MrfLog.cells st /\
  exists p,
    MrfLog.awaiting (MrfLog.saveEditedMrfItem h c v st)
      = (MrfLog.awaiting st ++ [p])%list /\
    MrfLog.pending_cell p = c /\
    (forall cl, nth_error (MrfLog.cells st) c = Some cl ->
                MrfLog.editor_type cl <> MrfLog.TypeDate ->
                MrfLog.pending_displayValue p = v).
Proof.
  unfold MrfLog.saveEditedMrfItem.
  destruct (nth_error (MrfLog.cells st) c) as [cl|]; [|congruence].
  destruct (String.eqb v _ || _)%bool.
  - rewrite mrf_requests_set_textContent. congruence.
  - intros _. split; [reflexivity|]. eexists.
    split; [reflexivity|]. split; [reflexivity|].
    intros cl' E N. injection E as <-. cbn [MrfLog.pending_displayValue].
    destruct (MrfLog.content cl), (MrfLog.editor_type cl); congruence.
Qed.

Lemma saveEditedMrfItem_resume_ok p st cl :
  nth_error (MrfLog.cells st) (MrfLog.pending_cell p) = Some cl ->
  mrf_content_of (MrfLog.saveEditedMrfItem_resume p MrfLog.Ok st)
                 (MrfLog.pending_cell p)
    = Some (MrfLog.Text (MrfLog.pending_displayValue p)).
Proof. intros E. eapply mrf_content_of_set_textContent; eauto. Qed.

Lemma saveEditedMrfItem_resume_failed p message st cl :
  nth_error (MrfLog.cells st) (MrfLog.pending_cell p) = Some cl ->
  let st' := MrfLog.saveEditedMrfItem_resume p (MrfLog.Failed message) st in
  MrfLog.alerts st'
    = (MrfLog.alerts st ++ [String.append "Failed to save changes: " message])%list /\
  mrf_content_of st' (MrfLog.pending_cell p)
    = Some (MrfLog.Text (MrfLog.pending_originalValue p)).
Proof.
  intros E. cbv zeta. unfold MrfLog.saveEditedMrfItem_resume. split.
  - unfold MrfLog.set_textContent. cbn [MrfLog.cells]. rewrite E. reflexivity.
  - eapply mrf_content_of_set_textContent. exact E.
Qed.
End MrfFacts.

(** C2 (amended).  A confirmed inline edit is not shown optimistically.
    When [saveEdit] sends the PUT, the status cell shows [Saving...] while
    the request is open, and the new value, formatted as a percentage, is
    written into the cell when the request has succeeded.  When
    [saveEditedMrfItem] sends the PUT, the cell is left as it is, with its
    editing element, and its text is set to the new value when the
    response is ok. *)
Theorem inline_edit_shown_after_success (h : Host) :
  (forall v c pid fk ov st,
     requests (saveEdit h v c pid fk ov st) <> requests st ->
     exists vs dv,
       vs = safeFloat h (JStr (trim v)) NaN /\
       dv = formatPercent h (JNum vs) "N/A" /\
       awaiting (saveEdit h v c pid fk ov st)
         = (awaiting st ++ [AfterSave c pid fk vs dv ov])%list /\
       content_of (saveEdit h v c pid fk ov st) c = Some (Text "Saving...") /\
       forall rows u st' cl,
         nth_error (cells st') c = Some cl ->
         remaining_amount_cell cl = false ->
         content_of (saveEdit_resume h c pid fk vs dv ov (Ok rows u) st') c
           = Some (Text dv)) /\
  (forall c v st,
     MrfLog.requests (MrfLog.saveEditedMrfItem h c v st) <> MrfLog.requests st ->
     MrfLog.cells (MrfLog.saveEditedMrfItem h c v st) = MrfLog.cells st /\
     exists p,
       MrfLog.awaiting (MrfLog.saveEditedMrfItem h c v st)
         = (MrfLog.awaiting st ++ [p])%list /\
       MrfLog.pending_cell p = c /\
       (forall cl, nth_error (MrfLog.cells st) c = Some cl ->
                   MrfLog.editor_type cl <> MrfLog.TypeDate ->
                   MrfLog.pending_displayValue p = v) /\
       forall st' cl,
         nth_error (MrfLog.cells st') c = Some cl ->
         mrf_content_of (MrfLog.saveEditedMrfItem_resume p MrfLog.Ok st') c
           = Some (MrfLog.Text (MrfLog.pending_displayValue p))).
Proof.
  split.
  - intros v c pid fk ov st H.
    destruct (saveEdit_sends h v c pid fk ov st H) as (_ & A & C).
    do 2 eexists. split; [reflexivity|]. split; [reflexivity|].
    split; [exact A|]. split; [exact C|].
    intros rows u st' cl E F. eapply saveEdit_resume_ok; eauto.
  - intros c v st H.
    destruct (saveEditedMrfItem_sends h c v st H) as (C & p & A & P & D).
    split; [exact C|]. exists p. split; [exact A|]. split; [exact P|].
    split; [exact D|].
    intros st' cl E. subst c. eapply saveEditedMrfItem_resume_ok; eauto.
Qed.

(** C2 as stated fails: with the PUT of the edit still open, the status
    cell shows [Saving...], not the new value, which appears only with the
    response. *)
Lemma saveEdit_shows_saving_while_pending :
  List.length (awaiting saving_first) = 1%nat /\
  content_of saving_first 0%nat = Some (Text "Saving...") /\
  content_of saving_first 0%nat <> Some (Text "80.0%") /\
  content_of (step Example.browser (OpResponse 0%nat (Ok [] None)) saving_first)
             0%nat
    = Some (Text "80.0%").
Proof.
  split; [vm_compute; reflexivity|].
  split; [vm_compute; reflexivity|].
  split; [vm_compute; discriminate|].
  vm_compute. reflexivity.
Qed.

Lemma inline_edit_shown_after_success_witness :
  requests saving_first <> requests (step Example.browser (OpType 0%nat "80") editing_first) /\
  exists vs dv,
    awaiting saving_first = [AfterSave 0%nat "2" "status" vs dv (parseFloat "25.0")] /\
    content_of saving_first 0%nat = Some (Text "Saving...").
Proof.
  assert (N : requests (saveEdit Example.browser "80" 0%nat "2" "status"
                          (parseFloat "25.0")
                          (step Example.browser (OpType 0%nat "80") editing_first))
              <> requests (step Example.browser (OpType 0%nat "80") editing_first))
    by (vm_compute; discriminate).
  split; [exact N|].
  destruct (proj1 (inline_edit_shown_after_success Example.browser) _ _ _ _ _ _ N)
    as (vs & dv & _ & _ & A & C & _).
  exists vs, dv. split; [exact A | exact C].
Defined.

(** An edit of the items log, step by step: the request goes out with the
    editor still in the cell; an ok response puts the new text in the cell,
    a failure alerts and writes back the text read at the start of the
    save, which for a cell holding an input is empty. *)
Example mrf_edit_of_part_number :
  mrf_content_of log_page 1%nat = Some (MrfLog.Text "B-12") /\
  mrf_content_of log_saving 1%nat = Some (MrfLog.Editor "B-13") /\
  MrfLog.requests log_saving
    = [{| MrfLog.req_url := "/api/mrf_items";
          MrfLog.req_body := [("id", JStr "31"); ("part_no", JStr "B-13")] |}] /\
  mrf_content_of (MrfLog.respond 0%nat MrfLog.Ok log_saving) 1%nat
    = Some (MrfLog.Text "B-13") /\
  mrf_content_of
      (MrfLog.respond 0%nat (MrfLog.Failed "Failed to update item") log_saving)
      1%nat
    = Some (MrfLog.Text "") /\
  MrfLog.alerts
      (MrfLog.respond 0%nat (MrfLog.Failed "Failed to update item") log_saving)
    = ["Failed to save changes: Failed to update item"].
Proof. repeat split; vm_compute; reflexivity. Qed.

(** C3 (amended).  When the PUT of an inline edit fails other than by a
    401, [saveEdit] shows the error message and sets the text of the cell
    to the formatted number the cell started from; [saveEditedMrfItem]
    alerts the error message and sets the text of the cell to the text it
    read from the cell when the save began. *)
Theorem inline_edit_failure_handling (h : Host) :
  (forall c pid vs dv ov message st cl,
     nth_error (cells st) c = Some cl ->
     String.eqb message "Unauthorized" = false ->
     let st' := saveEdit_resume h c pid "status" vs dv ov (Error message) st in
     feedback st' = Some ("Error updating status: " ++ message, "error") /\
     content_of st' c = Some (Text (formatPercent h (JNum ov) "N/A"))) /\
  (forall p message st cl,
     nth_error (MrfLog.cells st) (MrfLog.pending_cell p) = Some cl ->
     let st' := MrfLog.saveEditedMrfItem_resume p (MrfLog.Failed message) st in
     MrfLog.alerts st'
       = (MrfLog.alerts st ++ [String.append "Failed to save changes: " message])%list /\
     mrf_content_of st' (MrfLog.pending_cell p)
       = Some (MrfLog.Text (MrfLog.pending_originalValue p))).
Proof.
  split.
  - intros. eapply saveEdit_resume_error; eauto.
  - intros. eapply saveEditedMrfItem_resume_failed; eauto.
Qed.

(** C3 as stated fails: after the failed PUT the status cell shows again
    the text it showed before the edit began. *)
Lemma failed_save_restores_status_cell :
  content_of loaded 0%nat = Some (Text "25.0%") /\
  content_of saving_first 0%nat = Some (Text "Saving...") /\
  content_of failed_first 0%nat = Some (Text "25.0%") /\
  feedback failed_first = Some ("Error updating status: Server error", "error").
Proof. repeat split; vm_compute; reflexivity. Qed.

Lemma inline_edit_failure_handling_witness :
  feedback failed_first = Some ("Error updating status: Server error", "error") /\
  content_of failed_first 0%nat
    = Some (Text (formatPercent Example.browser (JNum (parseFloat "25.0")) "N/A")).
Proof.
  assert (E : exists cl,
             nth_error (cells (set_awaiting [] saving_first)) 0%nat = Some cl)
    by (vm_compute; eauto).
  destruct E as [cl E].
  exact (proj1 (inline_edit_failure_handling Example.browser)
           0%nat "2" (parseFloat "80") "80.0%" (parseFloat "25.0") "Server error"
           (set_awaiting [] saving_first) cl E eq_refl).
Defined.

(** ** C6: the statuses of an MRF line item *)

Section StatusFacts.
Variable h : Host.

Lemma select_value_In (options : list string) (i : nat) :
  (i < List.length options)%nat -> In (MrfLog.select_value options i) options.
Proof. intros L. unfold MrfLog.select_value. now apply nth_In. Qed.

Lemma initial_selectedIndex_lt (options : list string) (v : jsval) :
  options <> [] ->
  (MrfLog.initial_selectedIndex options v < List.length options)%nat.
Proof.
  intros N.
  assert (Z : (0 < List.length options)%nat)
    by (destruct options; [congruence | simpl; lia]).
  unfold MrfLog.initial_selectedIndex. destruct v; auto.
  destruct (findIndex (String.eqb s) options) as [i|] eqn:F; auto.
  apply findIndex_Some in F. destruct F as (x & E & _).
  apply nth_error_Some. congruence.
Qed.

Lemma status_cell_ok_set st c cl v :
  nth_error (MrfLog.cells st) c = Some cl -> is_status_cell cl ->
  In v MrfLog.statusOptions ->
  status_cell_ok
    {| MrfLog.cells :=
         list_set c (MrfLog.with_content (MrfLog.Editor v) cl) (MrfLog.cells st);
       MrfLog.requests := MrfLog.requests st;
       MrfLog.awaiting := MrfLog.awaiting st;
       MrfLog.alerts := MrfLog.alerts st |} c.
Proof.
  intros E S I. eexists. split.
  - cbn [MrfLog.cells]. eapply nth_error_list_set_eq; eauto.
  - split; [exact S | exact I].
Qed.

Lemma click_status_cell st c :
  status_cell_ok st c ->
  status_cell_ok (MrfLog.click h c st) c /\
  MrfLog.requests (MrfLog.click h c st) = MrfLog.requests st.
Proof.
  intros (cl & E & S & V). unfold MrfLog.click. rewrite E.
  destruct (MrfLog.content cl) eqn:C.
  - destruct S as (T & O & F). rewrite T, O. split; [|reflexivity].
    apply status_cell_ok_set; auto; [now repeat split|].
    apply select_value_In, initial_selectedIndex_lt. discriminate.
  - split; [|reflexivity]. exists cl. rewrite C. auto.
Qed.

Lemma choose_status_cell st c i :
  status_cell_ok st c ->
  status_cell_ok (MrfLog.choose c i st) c /\
  MrfLog.requests (MrfLog.choose c i st) = MrfLog.requests st.
Proof.
  intros (cl & E & S & V). unfold MrfLog.choose. rewrite E.
  assert (K : status_cell_ok st c) by (exists cl; auto).
  destruct (MrfLog.content cl) eqn:C; [now split|].
  destruct S as (T & O & F). rewrite T, O.
  destruct (Nat.ltb_spec i (List.length MrfLog.statusOptions)); [|now split].
  split; [|reflexivity].
  apply status_cell_ok_set; auto; [now repeat split|].
  now apply select_value_In.
Qed.

Lemma choices_status_cell st c picks :
  status_cell_ok st c ->
  status_cell_ok (fold_left (fun s i => MrfLog.choose c i s) picks st) c /\
  MrfLog.requests (fold_left (fun s i => MrfLog.choose c i s) picks st)
    = MrfLog.requests st.
Proof.
  revert st. induction picks as [|i picks IH]; intros st K; simpl; auto.
  destruct (choose_status_cell st c i K) as [K' R].
  destruct (IH _ K') as [K'' R']. split; [exact K''|congruence].
Qed.

Lemma blur_status_cell st c :
  status_cell_ok st c ->
  MrfLog.requests (MrfLog.blur h c st) = MrfLog.requests st \/
  exists s mrfId,
    In s MrfLog.statusOptions /\
    MrfLog.requests (MrfLog.blur h c st)
      = (MrfLog.requests st ++
         [{| MrfLog.req_url := "/api/mrf_items";
             MrfLog.req_body := [("id", JStr mrfId); ("item_status", JStr s)] |}])%list.
Proof.
  intros (cl & E & (T & O & F) & V). unfold MrfLog.blur. rewrite E.
  destruct (MrfLog.content cl) as [t|v] eqn:C; [now left|].
  unfold MrfLog.saveEditedMrfItem. rewrite E.
  destruct (String.eqb v _ || _)%bool.
  - left. apply mrf_requests_set_textContent.
  - right. exists v, (MrfLog.data_id cl). split; [exact V|].
    cbn [MrfLog.requests]. rewrite F. reflexivity.
Qed.
End StatusFacts.

(** C6.  The select of a status cell offers exactly the eight statuses,
    and so does the filter beside its [All Statuses] entry; and whatever
    the user picks in a status cell, a PUT that the edit sends carries one
    of the eight as [item_status]. *)
Theorem mrf_status_values (h : Host) :
  MrfLog.statusOptions = eight_statuses /\
  filter_statuses = eight_statuses /\
  forall st c cl t picks,
    nth_error (MrfLog.cells st) c = Some cl ->
    is_status_cell cl ->
    MrfLog.content cl = MrfLog.Text t ->
    let st' :=
      MrfLog.blur h c
        (fold_left (fun s i => MrfLog.choose c i s) picks (MrfLog.click h c st)) in
    MrfLog.requests st' = MrfLog.requests st \/
    exists s mrfId,
      In s eight_statuses /\
      MrfLog.requests st'
        = (MrfLog.requests st ++
           [{| MrfLog.req_url := "/api/mrf_items";
               MrfLog.req_body := [("id", JStr mrfId); ("item_status", JStr s)] |}])%list.
Proof.
  split; [reflexivity|]. split; [reflexivity|].
  intros st c cl t picks E S C st'.
  assert (K : status_cell_ok st c) by (exists cl; rewrite C; auto).
  destruct (click_status_cell h st c K) as [K1 R1].
  destruct (choices_status_cell _ c picks K1) as [K2 R2].
  destruct (blur_status_cell h _ c K2) as [R3|(s & mrfId & I & R3)].
  - left. unfold st'. congruence.
  - right. exists s, mrfId. split; [exact I|].
    unfold st'. rewrite R3, R2, R1. reflexivity.
Qed.

Lemma mrf_status_values_witness :
  MrfLog.requests
    (MrfLog.blur Example.browser 0%nat
       (fold_left (fun s i => MrfLog.choose 0%nat i s) [6%nat]
          (MrfLog.click Example.browser 0%nat log_page)))
    = [{| MrfLog.req_url := "/api/mrf_items";
          MrfLog.req_body := [("id", JStr "31"); ("item_status", JStr "Cancelled")] |}] /\
  In "Cancelled" eight_statuses.
Proof.
  split; [vm_compute; reflexivity|].
  destruct (proj2 (proj2 (mrf_status_values Example.browser))
              log_page 0%nat (MrfLog.statusCell Example.browser bolt)
              "Processing" [6%nat] eq_refl
              (conj eq_refl (conj eq_refl eq_refl)) eq_refl)
    as [R|(s & mrfId & I & R)].
  - vm_compute in R. discriminate R.
  - vm_compute in R. injection R as _ <-. exact I.
Defined.

(** ** C7: the rows kept from the last fetch *)








(** ** The calendar arithmetic of time values *)

Lemma leap_days_cases y :
  (leap_days y = 1 /\ ((y mod 4 = 0 /\ y mod 100 <> 0) \/ y mod 400 = 0)) \/
  (leap_days y = 0 /\ ~ ((y mod 4 = 0 /\ y mod 100 <> 0) \/ y mod 400 = 0)).
Proof.
  unfold leap_days, InLeapYear.
  destruct (Z.eqb_spec (y mod 4) 0), (Z.eqb_spec (y mod 100) 0),
           (Z.eqb_spec (y mod 400) 0); simpl; intuition lia.
Qed.

Lemma leap_days_range y : 0 <= leap_days y <= 1.
Proof. unfold leap_days. destruct (InLeapYear y); lia. Qed.

Lemma DayFromYear_succ y :
  DayFromYear (y + 1) = DayFromYear y + 365 + leap_days y.
Proof.
  destruct (leap_days_cases y) as [[-> H]|[-> H]]; unfold DayFromYear;
    Z.div_mod_to_equations; lia.
Qed.

Lemma DayFromYear_mono a b : a <= b -> DayFromYear a <= DayFromYear b.
Proof. intros H. unfold DayFromYear. Z.div_mod_to_equations. lia. Qed.

(** [YearFromDay] meets its definition in ECMAScript. *)
Lemma YearFromDay_spec d :
  DayFromYear (YearFromDay d) <= d < DayFromYear (YearFromDay d + 1).
Proof.
  unfold YearFromDay, DayFromYear.
  repeat match goal with
  | |- context [ if ?b then _ else _ ] => let E := fresh in destruct b eqn:E
  end;
  rewrite ?Z.ltb_lt, ?Z.ltb_ge, ?Z.leb_le, ?Z.leb_gt in *;
  Z.div_mod_to_equations; lia.
Qed.

Lemma YearFromDay_unique y d :
  DayFromYear y <= d < DayFromYear (y + 1) -> YearFromDay d = y.
Proof.
  intros H. pose proof (YearFromDay_spec d) as S.
  destruct (Z.lt_trichotomy (YearFromDay d) y) as [L|[E|G]]; auto; exfalso.
  - pose proof (DayFromYear_mono (YearFromDay d + 1) y ltac:(lia)). lia.
  - pose proof (DayFromYear_mono (y + 1) (YearFromDay d) ltac:(lia)). lia.
Qed.

Lemma Day_of_midnight k : Day (k * msPerDay) = k.
Proof. unfold Day, msPerDay. apply Z.div_mul. discriminate. Qed.

Lemma month_cases m :
  1 <= m <= 12 ->
  m = 1 \/ m = 2 \/ m = 3 \/ m = 4 \/ m = 5 \/ m = 6 \/
  m = 7 \/ m = 8 \/ m = 9 \/ m = 10 \/ m = 11 \/ m = 12.
Proof. lia. Qed.

(** The parts read back from the time value of a real date are the parts
    it was made from. *)
Lemma utc_roundtrip y m d :
  real_date y m d ->
  getUTCFullYear (utc_midnight y m d) = y /\
  getUTCMonth (utc_midnight y m d) + 1 = m /\
  getUTCDate (utc_midnight y m d) = d.
Proof.
  intros [Hm Hd].
  unfold getUTCFullYear, getUTCMonth, getUTCDate, utc_midnight.
  unfold DateFromTime, MonthFromTime, DayWithinYear, YearFromTime.
  rewrite Day_of_midnight.
  pose proof (leap_days_range y) as Hl.
  pose proof (DayFromYear_succ y) as Hs.
  unfold MakeDay.
  replace ((m - 1) / 12) with 0 by (symmetry; apply Z.div_small; lia).
  replace ((m - 1) mod 12) with (m - 1) by (symmetry; apply Z.mod_small; lia).
  rewrite Z.add_0_r.
  assert (Hy : forall n, 0 <= n < 365 + leap_days y ->
                         YearFromDay (DayFromYear y + n) = y).
  { intros n Hn. apply YearFromDay_unique. lia. }
  destruct (month_cases m Hm) as [E|[E|[E|[E|[E|[E|[E|[E|[E|[E|[E|E]]]]]]]]]]];
    subst m;
    match goal with
    | |- context [Z.pos ?p - 1] =>
        let v := eval cbv in (Z.pos p - 1) in change (Z.pos p - 1) with v
    end;
    cbn [daysInMonth] in Hd; cbn [days_before_month];
    match goal with
    | |- context [YearFromDay ?x] =>
        replace x with (DayFromYear y + (x - DayFromYear y)) by lia;
        rewrite (Hy (x - DayFromYear y)) by lia
    end;
    repeat match goal with
    | |- context [ if ?a <? ?b then _ else _ ] => destruct (Z.ltb_spec a b); try lia
    end;
    cbn [days_before_month]; repeat split; lia.
Qed.

(** ** [parseDate] and [formatDate] on real dates in ISO form *)

Lemma is_digit_facts c :
  is_digit c = true -> is_space c = false /\ 0 <= digit_val c <= 9.
Proof.
  unfold is_digit, is_space, digit_val. intros H.
  apply andb_true_iff in H. destruct H as [H1 H2].
  apply N.leb_le in H1, H2. split; [|lia].
  apply orb_false_iff. split.
  - apply andb_false_iff. right. apply N.leb_gt. lia.
  - apply N.eqb_neq. lia.
Qed.

Lemma trim_iso_text y1 y2 y3 y4 m1 m2 d1 d2 :
  is_digit y1 = true -> is_digit d2 = true ->
  trim (iso_text y1 y2 y3 y4 m1 m2 d1 d2) = iso_text y1 y2 y3 y4 m1 m2 d1 d2.
Proof.
  intros H1 H2.
  apply is_digit_facts in H1, H2. destruct H1 as [S1 _], H2 as [S2 _].
  unfold trim, iso_text. cbn [trimStart]. rewrite S1.
  cbn [rev_string trimStart]. rewrite S2. reflexivity.
Qed.

Lemma checked_utc_real y m d :
  100 <= y <= 9999 -> real_date y m d ->
  checked_utc y m d = Some (utc_midnight y m d).
Proof.
  intros Hy Hr. destruct (utc_roundtrip y m d Hr) as (R1 & R2 & R3).
  destruct Hr as [Hm Hd].
  assert (D31 : d <= 31).
  { destruct (month_cases m Hm) as [E|[E|[E|[E|[E|[E|[E|[E|[E|[E|[E|E]]]]]]]]]]];
      subst m; cbn [daysInMonth] in Hd; pose proof (leap_days_range y); lia. }
  unfold checked_utc.
  replace (1 <=? m) with true by (symmetry; apply Z.leb_le; lia).
  replace (m <=? 12) with true by (symmetry; apply Z.leb_le; lia).
  replace (1 <=? d) with true by (symmetry; apply Z.leb_le; lia).
  replace (d <=? 31) with true by (symmetry; apply Z.leb_le; lia).
  cbn [andb]. unfold Date_UTC.
  replace (y <=? 99) with false by (symmetry; apply Z.leb_gt; lia).
  rewrite andb_false_r. fold (utc_midnight y m d).
  assert (B : DayFromYear 100 <= MakeDay y (m - 1) d < DayFromYear 10000).
  { unfold getUTCFullYear, YearFromTime, utc_midnight in R1.
    rewrite Day_of_midnight in R1.
    pose proof (YearFromDay_spec (MakeDay y (m - 1) d)) as S. rewrite R1 in S.
    pose proof (DayFromYear_mono 100 y ltac:(lia)).
    pose proof (DayFromYear_mono (y + 1) 10000 ltac:(lia)). lia. }
  unfold TimeClip.
  replace (Z.abs (utc_midnight y m d) <=? 8640000000000000) with true.
  - rewrite R1, R2, R3, !Z.eqb_refl. reflexivity.
  - symmetry. apply Z.leb_le. unfold utc_midnight, msPerDay.
    change (DayFromYear 100) with (-683003) in B.
    change (DayFromYear 10000) with 2932897 in B. lia.
Qed.

Lemma isoMatch_iso_text y1 y2 y3 y4 m1 m2 d1 d2 :
  forallb is_digit [y1; y2; y3; y4; m1; m2; d1; d2] = true ->
  isoMatch (iso_text y1 y2 y3 y4 m1 m2 d1 d2)
    = Some (String y1 (String y2 (String y3 (String y4 EmptyString))),
            String m1 (String m2 EmptyString),
            String d1 (String d2 EmptyString)).
Proof.
  cbn [forallb]. rewrite !andb_true_iff.
  intros (A & B & C & D & E & F & G & H & _).
  unfold isoMatch, iso_text. cbn [Ascii.eqb].
  rewrite A, B, C, D, E, F, G, H. reflexivity.
Qed.

(** The part of C10 that holds.  For a text [YYYY-MM-DD] that names a real
    date of a year from 100 on, [parseDate] returns midnight UTC of that
    date, whose year, month and day are those of the text, and
    [formatDate] prints the month, the day and the year in this order. *)
Theorem parseDate_iso_real_date (h : Host)
    (y1 y2 y3 y4 m1 m2 d1 d2 : ascii) (fallback : string) :
  forallb is_digit [y1; y2; y3; y4; m1; m2; d1; d2] = true ->
  let y := four_digits y1 y2 y3 y4 in
  let m := two_digits m1 m2 in
  let d := two_digits d1 d2 in
  let text := JStr (iso_text y1 y2 y3 y4 m1 m2 d1 d2) in
  100 <= y -> real_date y m d ->
  parseDate h text = Some (utc_midnight y m d) /\
  (getUTCFullYear (utc_midnight y m d) = y /\
   getUTCMonth (utc_midnight y m d) + 1 = m /\
   getUTCDate (utc_midnight y m d) = d) /\
  formatDate h text fallback
    = (padStart0 2 (Z_toString m) ++ "/" ++ padStart0 2 (Z_toString d) ++ "/"
       ++ Z_toString y)%string.
Proof.
  intros Hd y m d text Hy Hr.
  pose proof (isoMatch_iso_text _ _ _ _ _ _ _ _ Hd) as M.
  cbn [forallb] in Hd. rewrite !andb_true_iff in Hd.
  destruct Hd as (A & B & C & D & E & F & G & H & _).
  assert (Y : y <= 9999).
  { unfold y, four_digits.
    pose proof (proj2 (is_digit_facts _ A)). pose proof (proj2 (is_digit_facts _ B)).
    pose proof (proj2 (is_digit_facts _ C)). pose proof (proj2 (is_digit_facts _ D)).
    lia. }
  assert (P : parseDate h text = Some (utc_midnight y m d)).
  { unfold parseDate, text. cbn [truthy ToString str_empty negb iso_text].
    fold (iso_text y1 y2 y3 y4 m1 m2 d1 d2).
    rewrite trim_iso_text by assumption.
    unfold parseDate_iso. rewrite M.
    replace (parseInt10 (String y1 (String y2 (String y3 (String y4 EmptyString)))))
      with y by (unfold y, four_digits, parseInt10; cbn [digits_val]; lia).
    replace (parseInt10 (String m1 (String m2 EmptyString)))
      with m by (unfold m, two_digits, parseInt10; cbn [digits_val]; lia).
    replace (parseInt10 (String d1 (String d2 EmptyString)))
      with d by (unfold d, two_digits, parseInt10; cbn [digits_val]; lia).
    rewrite (checked_utc_real y m d) by (auto; lia). reflexivity. }
  destruct (utc_roundtrip y m d Hr) as (R1 & R2 & R3).
  split; [exact P|]. split; [auto|].
  unfold formatDate. rewrite P. unfold text at 1. cbn [truthy str_empty negb iso_text].
  rewrite R1, R2, R3. reflexivity.
Qed.

Lemma parseDate_iso_real_date_witness :
  forallb is_digit ["2"; "0"; "2"; "4"; "0"; "2"; "2"; "9"]%char = true /\
  100 <= 2024 /\ real_date 2024 2 29 /\
  parseDate Example.browser (JStr "2024-02-29") = Some (utc_midnight 2024 2 29) /\
  formatDate Example.browser (JStr "2024-02-29") "N/A" = "02/29/2024".
Proof.
  assert (D : forallb is_digit ["2"; "0"; "2"; "4"; "0"; "2"; "2"; "9"]%char = true)
    by reflexivity.
  assert (Y : 100 <= 2024) by lia.
  assert (R : real_date 2024 2 29) by (vm_compute; intuition discriminate).
  destruct (parseDate_iso_real_date Example.browser
              "2" "0" "2" "4" "0" "2" "2" "9" "N/A" D Y R) as (P & _ & F).
  split; [exact D|]. split; [exact Y|]. split; [exact R|].
  split; [exact P | exact F].
Defined.

(** ** [parseDate] on the years 0 to 99 *)

Lemma MonthFromTime_range t : 0 <= MonthFromTime t <= 11.
Proof.
  unfold MonthFromTime.
  repeat match goal with
  | |- context [ if ?a <? ?b then _ else _ ] => destruct (a <? b)
  end; lia.
Qed.

Lemma DayWithinYear_range t :
  0 <= DayWithinYear t < 365 + leap_days (YearFromTime t).
Proof.
  unfold DayWithinYear, YearFromTime.
  pose proof (YearFromDay_spec (Day t)) as S.
  rewrite DayFromYear_succ in S. lia.
Qed.

Lemma DateFromTime_range t : 1 <= DateFromTime t <= 31.
Proof.
  unfold DateFromTime, MonthFromTime.
  pose proof (DayWithinYear_range t) as R.
  pose proof (leap_days_range (YearFromTime t)) as L.
  repeat match goal with
  | |- context [ if ?a <? ?b then _ else _ ] => destruct (Z.ltb_spec a b)
  end; cbn [days_before_month]; lia.
Qed.

Lemma days_before_month_range l m :
  0 <= l <= 1 -> 0 <= m <= 11 -> 0 <= days_before_month l m <= 334 + l.
Proof.
  intros Hl Hm.
  assert (C : m = 0 \/ m = 1 \/ m = 2 \/ m = 3 \/ m = 4 \/ m = 5 \/
              m = 6 \/ m = 7 \/ m = 8 \/ m = 9 \/ m = 10 \/ m = 11) by lia.
  destruct C as [E|[E|[E|[E|[E|[E|[E|[E|[E|[E|[E|E]]]]]]]]]]]; subst m;
    cbn [days_before_month]; lia.
Qed.

(** The day number that [MakeDay] gives for a month 0..11 and a day 1..31
    lies in its year. *)
Lemma MakeDay_range y m d :
  0 <= m <= 11 -> 1 <= d <= 31 ->
  DayFromYear y <= MakeDay y m d < DayFromYear (y + 1).
Proof.
  intros Hm Hd. unfold MakeDay.
  replace (m / 12) with 0 by (symmetry; apply Z.div_small; lia).
  replace (m mod 12) with m by (symmetry; apply Z.mod_small; lia).
  rewrite Z.add_0_r, DayFromYear_succ.
  pose proof (leap_days_range y) as L.
  pose proof (days_before_month_range (leap_days y) m L Hm). lia.
Qed.

(** [Date.UTC] never yields a day of the years 0 to 99. *)
Lemma Date_UTC_not_early y m d t :
  0 <= m <= 11 -> 1 <= d <= 31 ->
  Date_UTC y m d = Some t ->
  Day t < DayFromYear 0 \/ DayFromYear 100 <= Day t.
Proof.
  intros Hm Hd. unfold Date_UTC.
  set (yr := if (0 <=? y) && (y <=? 99) then 1900 + y else y).
  unfold TimeClip. destruct (Z.abs _ <=? _); [|discriminate].
  intros E. assert (Et : t = MakeDay yr m d * msPerDay) by congruence.
  subst t. clear E. rewrite Day_of_midnight.
  pose proof (MakeDay_range yr m d Hm Hd) as R.
  assert (Y : yr < 0 \/ 100 <= yr).
  { unfold yr. destruct (Z.leb_spec 0 y), (Z.leb_spec y 99); cbn [andb]; lia. }
  destruct Y as [Y|Y].
  - left. pose proof (DayFromYear_mono (yr + 1) 0 ltac:(lia)) as M. lia.
  - right. pose proof (DayFromYear_mono 100 yr ltac:(lia)). lia.
Qed.

Lemma slashMatch_iso_text y1 y2 y3 y4 m1 m2 d1 d2 :
  is_digit y1 = true -> is_digit y2 = true -> is_digit y3 = true ->
  slashMatch (iso_text y1 y2 y3 y4 m1 m2 d1 d2) = None.
Proof.
  intros A B C. unfold slashMatch, digits_1_2, iso_text. rewrite A, B.
  destruct y3 as [[] [] [] [] [] [] [] []]; try reflexivity; discriminate C.
Qed.

(** For every browser, a real date of a year from 0 to 99, written in ISO
    form, is not what [parseDate] returns for it. *)
Theorem parseDate_iso_early_year (h : Host) (y1 y2 y3 y4 m1 m2 d1 d2 : ascii) :
  forallb is_digit [y1; y2; y3; y4; m1; m2; d1; d2] = true ->
  let y := four_digits y1 y2 y3 y4 in
  let m := two_digits m1 m2 in
  let d := two_digits d1 d2 in
  y <= 99 -> real_date y m d ->
  parseDate h (JStr (iso_text y1 y2 y3 y4 m1 m2 d1 d2))
    <> Some (utc_midnight y m d).
Proof.
  intros Hd y m d Hy Hr P.
  cbn [forallb] in Hd. rewrite !andb_true_iff in Hd.
  destruct Hd as (A & B & C & D & E & F & G & H & _).
  assert (Y0 : 0 <= y).
  { unfold y, four_digits.
    pose proof (proj2 (is_digit_facts _ A)). pose proof (proj2 (is_digit_facts _ B)).
    pose proof (proj2 (is_digit_facts _ C)). pose proof (proj2 (is_digit_facts _ D)).
    lia. }
  (* the day number of the date lies in the years 0 to 99 *)
  destruct (utc_roundtrip y m d Hr) as (R1 & _ & _).
  unfold getUTCFullYear, YearFromTime in R1.
  pose proof (YearFromDay_spec (Day (utc_midnight y m d))) as S. rewrite R1 in S.
  pose proof (DayFromYear_mono 0 y ltac:(lia)).
  pose proof (DayFromYear_mono (y + 1) 100 ltac:(lia)).
  assert (K : forall yy mm dd,
             0 <= mm <= 11 -> 1 <= dd <= 31 ->
             Date_UTC yy mm dd <> Some (utc_midnight y m d)).
  { intros yy mm dd Hmm Hdd Q.
    destruct (Date_UTC_not_early _ _ _ _ Hmm Hdd Q); lia. }
  unfold parseDate in P. cbn [truthy ToString str_empty negb iso_text] in P.
  fold (iso_text y1 y2 y3 y4 m1 m2 d1 d2) in P.
  rewrite trim_iso_text in P by assumption.
  change (str_empty (iso_text y1 y2 y3 y4 m1 m2 d1 d2)) with false in P.
  cbv iota in P.
  destruct (parseDate_iso _) as [t|] eqn:I.
  - unfold parseDate_iso in I.
    rewrite isoMatch_iso_text in I
      by (cbn [forallb]; rewrite A, B, C, D, E, F, G, H; reflexivity).
    unfold checked_utc in I.
    destruct ((1 <=? _) && _ && _ && _) eqn:Rg; [|discriminate].
    destruct (Date_UTC _ _ _) as [z|] eqn:Q; [|discriminate].
    destruct ((getUTCFullYear z =? _) && _ && _); [|discriminate].
    assert (Ez : z = utc_midnight y m d) by congruence. subst z.
    rewrite !andb_true_iff, !Z.leb_le in Rg.
    eapply K; [| |exact Q]; lia.
  - unfold parseDate_slash in P.
    rewrite slashMatch_iso_text in P by assumption.
    unfold parseDate_fallback in P.
    destruct (Date_parse h _) as [t|]; [|discriminate].
    eapply K; [| |exact P].
    + apply MonthFromTime_range.
    + apply DateFromTime_range.
Qed.

Lemma parseDate_iso_early_year_witness :
  forallb is_digit ["0"; "0"; "5"; "0"; "0"; "6"; "1"; "5"]%char = true /\
  50 <= 99 /\ real_date 50 6 15 /\
  parseDate Example.browser (JStr "0050-06-15") <> Some (utc_midnight 50 6 15).
Proof.
  assert (D : forallb is_digit ["0"; "0"; "5"; "0"; "0"; "6"; "1"; "5"]%char = true)
    by reflexivity.
  assert (Y : 50 <= 99) by lia.
  assert (R : real_date 50 6 15) by (vm_compute; intuition discriminate).
  split; [exact D|]. split; [exact Y|]. split; [exact R|].
  exact (parseDate_iso_early_year Example.browser
           "0" "0" "5" "0" "0" "6" "1" "5" D Y R).
Defined.

(** ** C10: what [parseDate] makes of a date in ISO form *)

Lemma parseDate_through_fallback (h : Host) (s : string) :
  str_empty s = false -> trim s = s ->
  parseDate_iso s = None -> parseDate_slash s = None ->
  parseDate h (JStr s) = parseDate_fallback h s.
Proof.
  intros E T I S. unfold parseDate. cbn [truthy ToString].
  rewrite E, T, E, I, S. reflexivity.
Qed.

(** C10 at the inputs where the code departs from it.  15 June of the year
    50 is a date of the calendar, and 30 February 2023 is not.  For both,
    [parseDate] leaves its ISO branch empty-handed and returns what the
    [Date] constructor of the browser makes of the text; in a browser that
    reads date-only text as V8 does, the first comes out as 15 June 1950 and
    the second as 2 March 2023, and [formatDate] prints those. *)
Theorem parseDate_iso_departures :
  (forall h : Host,
     parseDate h (JStr "0050-06-15") = parseDate_fallback h "0050-06-15" /\
     parseDate h (JStr "2023-02-30") = parseDate_fallback h "2023-02-30") /\
  parseDate Example.browser (JStr "0050-06-15") = Date_UTC 1950 5 15 /\
  formatDate Example.browser (JStr "0050-06-15") "N/A" = "06/15/1950" /\
  parseDate Example.browser (JStr "2023-02-30") = Date_UTC 2023 2 2 /\
  formatDate Example.browser (JStr "2023-02-30") "N/A" = "03/02/2023".
Proof.
  split.
  - intros h.
    split; apply parseDate_through_fallback; vm_compute; reflexivity.
  - repeat split; vm_compute; reflexivity.
Qed.

(** Dates the ISO branch accepts, and the empty input. *)
Example parseDate_examples :
  parseDate Example.browser (JStr "2024-02-29") = Date_UTC 2024 1 29 /\
  formatDate Example.browser (JStr "2024-02-29") "N/A" = "02/29/2024" /\
  parseDate Example.browser (JStr "2/29/2024") = Date_UTC 2024 1 29 /\
  parseDate Example.browser (JStr "") = None /\
  parseDate Example.browser JNull = None /\
  parseDate Example.browser (JStr "soon") = None /\
  formatDate Example.browser (JStr "soon") "N/A" = "N/A".
Proof. repeat split; vm_compute; reflexivity. Qed.

(** ** Decimal digits *)

Lemma digits_val_of_uint_acc (d : Decimal.uint) (acc : positive) :
  digits_val (Z.pos acc) (NilEmpty.string_of_uint d) = Z.pos (Pos.of_uint_acc d acc).
Proof.
  revert acc.
  induction d; intros acc; cbn [NilEmpty.string_of_uint digits_val Pos.of_uint_acc];
    [reflexivity|..]; rewrite <- IHd; f_equal;
    try match goal with
    | |- context [digit_val ?c] =>
        let v := eval vm_compute in (digit_val c) in change (digit_val c) with v
    end; lia.
Qed.

Lemma digits_val_of_uint (d : Decimal.uint) :
  digits_val 0 (NilEmpty.string_of_uint d) = Z.of_N (N.of_uint d).
Proof.
  unfold N.of_uint.
  induction d; cbn [NilEmpty.string_of_uint digits_val Pos.of_uint];
    [reflexivity | exact IHd
    | change (10 * 0 + digit_val _) with (Z.pos 1)
    | change (10 * 0 + digit_val _) with (Z.pos 2)
    | change (10 * 0 + digit_val _) with (Z.pos 3)
    | change (10 * 0 + digit_val _) with (Z.pos 4)
    | change (10 * 0 + digit_val _) with (Z.pos 5)
    | change (10 * 0 + digit_val _) with (Z.pos 6)
    | change (10 * 0 + digit_val _) with (Z.pos 7)
    | change (10 * 0 + digit_val _) with (Z.pos 8)
    | change (10 * 0 + digit_val _) with (Z.pos 9) ];
    apply digits_val_of_uint_acc.
Qed.

Lemma to_uint_not_Nil (n : N) : N.to_uint n <> Decimal.Nil.
Proof.
  intros E.
  assert (U : N.to_uint n = Decimal.unorm (N.to_uint n)).
  { rewrite <- (DecimalN.Unsigned.to_of (N.to_uint n)), DecimalN.Unsigned.of_to.
    reflexivity. }
  rewrite E in U. discriminate U.
Qed.

(** The digits of a natural number spell the number. *)
Lemma parseInt10_Z_digits (n : Z) : 0 <= n -> parseInt10 (Z_digits n) = n.
Proof.
  intros H. unfold parseInt10, Z_digits, NilZero.string_of_uint.
  pose proof (to_uint_not_Nil (Z.to_N n)) as N.
  destruct (N.to_uint (Z.to_N n)) eqn:E; try congruence;
    rewrite <- E, digits_val_of_uint, DecimalN.Unsigned.of_to; lia.
Qed.

Lemma all_digits_of_uint (d : Decimal.uint) :
  all_digits (NilEmpty.string_of_uint d) = true.
Proof. induction d; cbn [NilEmpty.string_of_uint all_digits]; auto. Qed.

Lemma Z_digits_digits (n : Z) :
  all_digits (Z_digits n) = true /\ Z_digits n <> EmptyString.
Proof.
  unfold Z_digits, NilZero.string_of_uint.
  pose proof (to_uint_not_Nil (Z.to_N n)) as N.
  destruct (N.to_uint (Z.to_N n)) eqn:E; try congruence;
    rewrite <- E; (split; [apply all_digits_of_uint|]); rewrite E; discriminate.
Qed.

(** A string of digits without a leading zero is the digits of its value. *)
Lemma uint_of_digits (s : string) :
  all_digits s = true -> exists d, NilEmpty.uint_of_string s = Some d.
Proof.
  induction s as [|c r IH]; cbn [all_digits NilEmpty.uint_of_string].
  - eauto.
  - intros H. apply andb_true_iff in H. destruct H as [Hc Hr].
    destruct (IH Hr) as [d ->].
    unfold is_digit in Hc.
    destruct c as [[] [] [] [] [] [] [] []]; try discriminate Hc; cbn; eauto.
Qed.

Lemma Z_digits_parseInt10 (c : ascii) (r : string) :
  all_digits (String c r) = true -> c <> "0"%char ->
  Z_digits (parseInt10 (String c r)) = String c r.
Proof.
  intros H Hc. destruct (uint_of_digits _ H) as [d E].
  pose proof (NilEmpty.sus _ _ E) as S.
  unfold parseInt10, Z_digits. rewrite <- S at 1.
  rewrite digits_val_of_uint, N2Z.id, DecimalN.Unsigned.to_of.
  assert (U : Decimal.unorm d = d /\ d <> Decimal.Nil).
  { destruct d; cbn in S; try discriminate S;
      try (split; [reflexivity | discriminate]).
    injection S as S _. congruence. }
  destruct U as [-> N]. unfold NilZero.string_of_uint.
  destruct d; congruence.
Qed.

(** ** Editing a cell of the items log *)

Lemma nth_error_list_set_same {A : Type} (l : list A) (i : nat) (x : A) :
  nth_error l i = Some x -> list_set i x l = l.
Proof.
  revert i. induction l as [|y l IH]; intros [|i]; simpl; try discriminate.
  - congruence.
  - intros H. f_equal. auto.
Qed.

Section MrfEditFacts.
Variable h : Host.

Lemma mrf_textContent_editor cl v :
  MrfLog.content cl = MrfLog.Editor v ->
  MrfLog.editor_type cl <> MrfLog.TypeSelect ->
  MrfLog.textContent cl = EmptyString.
Proof.
  intros C T. unfold MrfLog.textContent. rewrite C.
  destruct (MrfLog.editor_type cl); congruence.
Qed.

Lemma status_not_all_options v :
  In v MrfLog.statusOptions ->
  String.eqb v (String.concat "" MrfLog.statusOptions) = false /\ str_empty v = false.
Proof.
  intros H. cbn [MrfLog.statusOptions In] in H.
  repeat (destruct H as [<-|H]; [split; vm_compute; reflexivity|]).
  destruct H.
Qed.

(** A save whose no-change test fails sends the PUT and leaves the cells. *)
Lemma saveEditedMrfItem_put c cl v st :
  nth_error (MrfLog.cells st) c = Some cl ->
  String.eqb v (MrfLog.textContent cl) = false ->
  (str_empty v && String.eqb (MrfLog.textContent cl) "N/A")%bool = false ->
  MrfLog.requests (MrfLog.saveEditedMrfItem h c v st)
    = (MrfLog.requests st ++ [mrf_put cl v])%list /\
  MrfLog.cells (MrfLog.saveEditedMrfItem h c v st) = MrfLog.cells st /\
  MrfLog.alerts (MrfLog.saveEditedMrfItem h c v st) = MrfLog.alerts st /\
  exists p,
    MrfLog.awaiting (MrfLog.saveEditedMrfItem h c v st)
      = (MrfLog.awaiting st ++ [p])%list /\
    MrfLog.pending_cell p = c /\
    MrfLog.pending_originalValue p = MrfLog.textContent cl /\
    MrfLog.pending_displayValue p
      = match MrfLog.content cl, MrfLog.editor_type cl with
        | MrfLog.Editor _, MrfLog.TypeDate =>
            if negb (str_empty v) then MrfLog.date_display h v else "N/A"
        | _, _ => v
        end.
Proof.
  intros Ec E1 E2. unfold MrfLog.saveEditedMrfItem. rewrite Ec, E1, E2.
  cbn [orb MrfLog.requests MrfLog.cells MrfLog.alerts MrfLog.awaiting].
  repeat split. eexists. repeat split.
Qed.
End MrfEditFacts.

Lemma blur_of_open_editor (h : Host)
    (st : MrfLog.state) (c : MrfLog.cellId) (cl : MrfLog.cell) (v : string) :
  nth_error (MrfLog.cells st) c = Some cl ->
  MrfLog.content cl = MrfLog.Editor v ->
  (MrfLog.editor_type cl <> MrfLog.TypeSelect -> v <> EmptyString ->
   MrfLog.requests (MrfLog.blur h c st) = (MrfLog.requests st ++ [mrf_put cl v])%list /\
   MrfLog.cells (MrfLog.blur h c st) = MrfLog.cells st) /\
  (MrfLog.editor_type cl <> MrfLog.TypeSelect -> v = EmptyString ->
   MrfLog.requests (MrfLog.blur h c st) = MrfLog.requests st /\
   mrf_content_of (MrfLog.blur h c st) c = Some (MrfLog.Text EmptyString)) /\
  (is_status_cell cl -> In v MrfLog.statusOptions ->
   MrfLog.requests (MrfLog.blur h c st) = (MrfLog.requests st ++ [mrf_put cl v])%list /\
   MrfLog.cells (MrfLog.blur h c st) = MrfLog.cells st).
Proof.
  intros Ec C.
  assert (B : MrfLog.blur h c st = MrfLog.saveEditedMrfItem h c v st).
  { unfold MrfLog.blur. rewrite Ec, C. reflexivity. }
  rewrite B. split; [|split].
  - intros T V. pose proof (mrf_textContent_editor cl v C T) as X.
    destruct (saveEditedMrfItem_put h c cl v st Ec) as (R & K & _).
    + rewrite X. destruct v; [congruence|reflexivity].
    + rewrite X. apply andb_false_r.
    + auto.
  - intros T ->. pose proof (mrf_textContent_editor cl _ C T) as X.
    unfold MrfLog.saveEditedMrfItem. rewrite Ec, X. cbn [String.eqb orb].
    split.
    + apply mrf_requests_set_textContent.
    + eapply mrf_content_of_set_textContent. exact Ec.
  - intros (T & O & F) V.
    assert (X : MrfLog.textContent cl = String.concat "" MrfLog.statusOptions).
    { unfold MrfLog.textContent. rewrite C, T, O. reflexivity. }
    destruct (status_not_all_options v V) as [N1 N2].
    destruct (saveEditedMrfItem_put h c cl v st Ec) as (R & K & _).
    + rewrite X. exact N1.
    + rewrite N2. reflexivity.
    + auto.
Qed.

(** X1.  The no-change test of [saveEditedMrfItem] reads the text of the
    cell while the cell holds the editing element, so it does not see the
    value the cell showed.  Leaving an input, a textarea or a date field
    with a non-empty value sends the PUT with that value, changed or not;
    leaving it empty sends nothing and leaves the cell with no text; and
    leaving the select of a status cell sends the PUT with the status it
    shows. *)
Theorem mrf_blur_sends_unchanged_values (h : Host)
    (st : MrfLog.state) (c : MrfLog.cellId) (cl : MrfLog.cell) (v : string) :
  nth_error (MrfLog.cells st) c = Some cl ->
  MrfLog.content cl = MrfLog.Editor v ->
  (MrfLog.editor_type cl <> MrfLog.TypeSelect -> v <> EmptyString ->
   MrfLog.requests (MrfLog.blur h c st) = (MrfLog.requests st ++ [mrf_put cl v])%list /\
   MrfLog.cells (MrfLog.blur h c st) = MrfLog.cells st) /\
  (MrfLog.editor_type cl <> MrfLog.TypeSelect -> v = EmptyString ->
   MrfLog.requests (MrfLog.blur h c st) = MrfLog.requests st /\
   mrf_content_of (MrfLog.blur h c st) c = Some (MrfLog.Text EmptyString)) /\
  (is_status_cell cl -> In v MrfLog.statusOptions ->
   MrfLog.requests (MrfLog.blur h c st) = (MrfLog.requests st ++ [mrf_put cl v])%list /\
   MrfLog.cells (MrfLog.blur h c st) = MrfLog.cells st).
Proof. exact (blur_of_open_editor h st c cl v). Qed.

Lemma mrf_blur_sends_unchanged_values_witness :
  mrf_content_of log_page 1%nat = Some (MrfLog.Text "B-12") /\
  mrf_content_of log_editing 1%nat = Some (MrfLog.Editor "B-12") /\
  MrfLog.requests (MrfLog.blur Example.browser 1%nat log_editing)
    = [{| MrfLog.req_url := "/api/mrf_items";
          MrfLog.req_body := [("id", JStr "31"); ("part_no", JStr "B-12")] |}].
Proof.
  split; [reflexivity|]. split; [reflexivity|].
  assert (Ec : nth_error (MrfLog.cells log_editing) 1%nat
               = Some (MrfLog.with_content (MrfLog.Editor "B-12")
                         (MrfLog.textCell Example.browser bolt "part_no")))
    by reflexivity.
  destruct (mrf_blur_sends_unchanged_values Example.browser log_editing 1%nat _ "B-12"
              Ec eq_refl) as (S & _ & _).
  destruct S as [R _]; [discriminate | discriminate |].
  rewrite R. reflexivity.
Defined.

(** ** An edited cell of the items log, opened again *)



Section MrfReopenFacts.
Variable h : Host.


End MrfReopenFacts.



(** ** The date shown after a date cell of the items log was saved *)










(** ** The requests of the dashboard page *)






Lemma requests_set_textContent c s st :
  requests (set_textContent c s st) = requests st.
Proof. apply requests_update_cell. Qed.


Section RequestFacts.
Variable h : Host.












End RequestFacts.



(** ** An inline edit that is cancelled *)

Section CancelFacts.
Variable h : Host.

Lemma typeInto_editing_with c o st0 st v :
  editing_with c o st0 st -> editing_with c o st0 (Dashboard.typeInto c v st).
Proof.
  intros (L & R & O & cl & s & Ec & El & Eo). unfold Dashboard.typeInto.
  split; [now rewrite currentlyEditingCell_update_cell|].
  split; [now rewrite requests_update_cell|].
  split.
  - intros c' N. rewrite content_of_update_cell.
    destruct (Nat.eqb_spec c c'); [congruence|]. auto.
  - unfold update_cell. rewrite Ec, El. cbn [cells set_cells].
    eexists. eexists. split; [eapply nth_error_list_set_eq; exact Ec|].
    split; reflexivity || exact Eo.
Qed.

Lemma typing_editing_with c o st0 st typed :
  editing_with c o st0 st ->
  editing_with c o st0 (fold_left (fun s v => Dashboard.typeInto c v s) typed st).
Proof.
  revert st. induction typed as [|v typed IH]; intros st E; simpl; auto.
  apply IH, typeInto_editing_with, E.
Qed.

Lemma makeCellEditable_editing_with c cl t st :
  nth_error (cells st) c = Some cl ->
  currentlyEditingCell st = None ->
  data_field cl = "status" ->
  content cl = Text t ->
  editing_with c (trim t) st (makeCellEditable h c st).
Proof.
  intros Ec L F C. unfold makeCellEditable. rewrite Ec, L, F.
  cbn [String.eqb Ascii.eqb Bool.eqb negb]. cbv zeta.
  split; [now rewrite currentlyEditingCell_update_cell|].
  split; [now rewrite requests_update_cell|].
  split.
  - intros c' N. rewrite content_of_update_cell.
    destruct (Nat.eqb_spec c c'); [congruence|]. reflexivity.
  - unfold update_cell. cbn [cells set_editing]. rewrite Ec. cbn [cells set_cells].
    eexists. eexists. split; [eapply nth_error_list_set_eq; exact Ec|].
    split; [reflexivity|]. cbn [originalDisplayValue].
    unfold Dashboard.textContent. rewrite C. reflexivity.
Qed.

Lemma escape_editing_with c o st0 st :
  editing_with c o st0 st ->
  let st' := handleKeyDown h c "Escape" st in
  content_of st' c = Some (Text o) /\
  currentlyEditingCell st' = None /\
  requests st' = requests st0 /\
  (forall c', c' <> c -> content_of st' c' = content_of st0 c').
Proof.
  intros (L & R & O & cl & s & Ec & El & Eo) st'.
  assert (K : st' = cancelEdit c o st).
  { unfold st', handleKeyDown. rewrite Ec, El, Eo. reflexivity. }
  rewrite K. unfold cancelEdit. rewrite Ec, L, Nat.eqb_refl. cbn [negb].
  split; [|split; [|split]].
  - unfold content_of. cbn [cells set_editing].
    fold (content_of
            (update_cell c (with_originalValue None)
               (set_textContent c o (update_cell c (with_listeners None) st))) c).
    rewrite content_of_update_cell, Nat.eqb_refl.
    fold (content_of (set_textContent c o (update_cell c (with_listeners None) st)) c).
    assert (E : content_of (set_textContent c o (update_cell c (with_listeners None) st)) c
                = Some (Text o)).
    { eapply content_of_set_textContent. unfold update_cell. rewrite Ec.
      cbn [cells set_cells]. eapply nth_error_list_set_eq. exact Ec. }
    unfold content_of in E.
    destruct (nth_error (cells (set_textContent c o _)) c); [|discriminate E].
    exact E.
  - reflexivity.
  - cbn [requests set_editing].
    now rewrite requests_update_cell, requests_set_textContent, requests_update_cell.
  - intros c' N. unfold content_of at 1. cbn [cells set_editing].
    fold (content_of
            (update_cell c (with_originalValue None)
               (set_textContent c o (update_cell c (with_listeners None) st))) c').
    rewrite content_of_update_cell.
    destruct (Nat.eqb_spec c c'); [congruence|].
    rewrite content_of_set_textContent_other by congruence.
    rewrite content_of_update_cell.
    destruct (Nat.eqb_spec c c'); [congruence|]. auto.
Qed.
End CancelFacts.

(** X5.  An inline edit that ends with Escape leaves no trace: whatever
    was typed into the input, the cell shows again the text it showed
    before the double click (without surrounding white space), the edit
    lock is free, no request was sent and no other cell has changed. *)
Theorem escape_restores_cell (h : Host)
    (st : state) (c : cellId) (cl : cell) (t : string) (typed : list string) :
  nth_error (cells st) c = Some cl ->
  currentlyEditingCell st = None ->
  data_field cl = "status" ->
  content cl = Text t ->
  let st' :=
    handleKeyDown h c "Escape"
      (fold_left (fun s v => Dashboard.typeInto c v s) typed
         (makeCellEditable h c st)) in
  content_of st' c = Some (Text (trim t)) /\
  currentlyEditingCell st' = None /\
  requests st' = requests st /\
  (forall c', c' <> c -> content_of st' c' = content_of st c').
Proof.
  intros Ec L F C.
  apply escape_editing_with, typing_editing_with.
  now apply (makeCellEditable_editing_with h c cl t st).
Qed.

Lemma escape_restores_cell_witness :
  content_of loaded 0%nat = Some (Text "25.0%") /\
  content_of
    (handleKeyDown Example.browser 0%nat "Escape"
       (fold_left (fun s v => Dashboard.typeInto 0%nat v s) ["8"; "80"]
          (makeCellEditable Example.browser 0%nat loaded))) 0%nat
    = Some (Text (trim "25.0%")).
Proof.
  split; [reflexivity|].
  assert (Ec : exists cl, nth_error (cells loaded) 0%nat = Some cl /\
                          data_field cl = "status" /\ content cl = Text "25.0%").
  { eexists. split; [reflexivity|]. split; reflexivity. }
  destruct Ec as (cl & Ec & F & C).
  exact (proj1 (escape_restores_cell Example.browser loaded 0%nat cl "25.0%"
                  ["8"; "80"] Ec eq_refl F C)).
Defined.

(** ** The rows kept from the last fetch, after an inline edit *)

Lemma get_set_prop (o : obj) (k k' : string) (v : jsval) :
  get (set_prop o k v) k' = if String.eqb k k' then v else get o k'.
Proof.
  induction o as [|[k0 w] o IH]; cbn [set_prop get].
  - destruct (String.eqb k k'); reflexivity.
  - destruct (String.eqb_spec k0 k) as [->|N]; cbn [get].
    + destruct (String.eqb k k'); reflexivity.
    + rewrite IH. destruct (String.eqb_spec k0 k') as [->|N'].
      * destruct (String.eqb_spec k k'); [congruence|reflexivity].
      * reflexivity.
Qed.

(** [{...a, ...b}] has the properties of [b], and those of [a] that [b]
    does not have. *)
Lemma get_spread_other (a b : obj) (k : string) :
  ~ In k (map fst b) -> get (spread a b) k = get a k.
Proof.
  unfold spread. revert a.
  induction b as [|[k0 v] b IH]; intros a H; cbn [fold_left fst snd]; auto.
  cbn [map fst In] in H. rewrite IH by tauto. rewrite get_set_prop.
  destruct (String.eqb_spec k0 k); [tauto|reflexivity].
Qed.

Lemma get_spread_in (a b : obj) (k : string) (v : jsval) :
  NoDup (map fst b) -> In (k, v) b -> get (spread a b) k = v.
Proof.
  unfold spread. revert a.
  induction b as [|[k0 w] b IH]; intros a N H; [destruct H|].
  cbn [fold_left fst snd]. cbn [map fst] in N. inversion N as [|? ? N1 N2]; subst.
  destruct H as [H|H].
  - injection H as -> ->.
    fold (spread (set_prop a k v) b). rewrite get_spread_other by exact N1.
    now rewrite get_set_prop, String.eqb_refl.
  - now apply IH.
Qed.

Lemma length_list_set {A : Type} (i : nat) (v : A) (l : list A) :
  List.length (list_set i v l) = List.length l.
Proof. revert i. induction l as [|x l IH]; intros [|i]; simpl; auto. Qed.

Lemma data_update_cell f c st :
  currentProjectsData (update_cell c f st) = currentProjectsData st /\
  currentCompletedProjectsData (update_cell c f st) = currentCompletedProjectsData st /\
  shownActive (update_cell c f st) = shownActive st /\
  shownCompleted (update_cell c f st) = shownCompleted st /\
  currentSort (update_cell c f st) = currentSort st.
Proof. unfold update_cell. destruct (nth_error (cells st) c); repeat split. Qed.

Section CacheFacts.
Variable h : Host.

(** After a save that the server answered with the updated project, for a
    project found among the active rows: the request that follows, if any,
    is the one for the dashboard metrics. *)
Lemma saved_in_active_row c pid fk vs dv ov rows u st i :
  findIndex (fun p => loose_eq_string (get p "id") pid) (currentProjectsData st)
    = Some i ->
  let st' := saveEdit_resume h c pid fk vs dv ov (Ok rows (Some u)) st in
  currentProjectsData st'
    = list_set i (spread (nth i (currentProjectsData st) []) u) (currentProjectsData st) /\
  currentCompletedProjectsData st' = currentCompletedProjectsData st /\
  shownActive st' = shownActive st /\
  shownCompleted st' = shownCompleted st /\
  (requests st' = requests st \/
   requests st' = (requests st ++ [{| req_method := GET; req_url := DASHBOARD_API;
                                      req_body := [] |}])%list).
Proof.
  intros F st'. unfold st', saveEdit_resume. cbv zeta.
  destruct (data_update_cell (with_content (Text dv)) c st) as (D1 & D2 & D3 & D4 & _).
  fold (set_textContent c dv st) in D1, D2, D3, D4.
  rewrite D1, D2, F.
  set (st2 := set_data _ _ (set_textContent c dv st)).
  assert (R2 : requests st2 = requests st)
    by (unfold st2; cbn [requests set_data]; apply requests_set_textContent).
  destruct (status_or_amount fk).
  - destruct (remainingCell_of c st2) as [rc|].
    + set (st3 := set_textContent rc _ st2).
      destruct (data_update_cell (with_content (Text (formatCurrency h (get u "remaining_amount") "N/A")))
                  rc st2) as (E1 & E2 & E3 & E4 & _).
      fold (set_textContent rc (formatCurrency h (get u "remaining_amount") "N/A") st2)
        in E1, E2, E3, E4.
      fold st3 in E1, E2, E3, E4.
      cbn [currentProjectsData currentCompletedProjectsData shownActive shownCompleted
           requests fetchDashboardData apiFetch].
      rewrite E1, E2, E3, E4. unfold st3. rewrite requests_set_textContent, R2.
      unfold st2. cbn [currentProjectsData currentCompletedProjectsData shownActive
                       shownCompleted set_data].
      rewrite D3, D4. repeat split. now right.
    + cbn [currentProjectsData currentCompletedProjectsData shownActive shownCompleted
           requests fetchDashboardData apiFetch].
      rewrite R2. unfold st2.
      cbn [currentProjectsData currentCompletedProjectsData shownActive
           shownCompleted set_data].
      rewrite D3, D4. repeat split. now right.
  - rewrite R2. unfold st2.
    cbn [currentProjectsData currentCompletedProjectsData shownActive
         shownCompleted set_data].
    rewrite D3, D4. repeat split. now left.
Qed.
End CacheFacts.

(** X6.  When the server answers an inline edit with the updated project
    and the project is among the active rows, [saveEdit] patches the kept
    copy in place: the first row whose id equals the project id gets the
    properties of the answer on top of its own, every other row and the
    completed rows stay as they are, and the table is not rendered again:
    the rows on the page keep the order they had before the edit. *)
Theorem inline_save_patches_kept_row (h : Host)
    (c : cellId) (pid fk : string) (vs : num) (dv : string) (ov : num)
    (rows : list obj) (u : obj) (st : state) (i : nat) :
  findIndex (fun p => loose_eq_string (get p "id") pid) (currentProjectsData st)
    = Some i ->
  let st' := saveEdit_resume h c pid fk vs dv ov (Ok rows (Some u)) st in
  (exists old,
     nth_error (currentProjectsData st) i = Some old /\
     loose_eq_string (get old "id") pid = true /\
     nth_error (currentProjectsData st') i = Some (spread old u) /\
     (forall k, ~ In k (map fst u) -> get (spread old u) k = get old k) /\
     (forall k v, NoDup (map fst u) -> In (k, v) u -> get (spread old u) k = v)) /\
  (forall j, j <> i ->
     nth_error (currentProjectsData st') j = nth_error (currentProjectsData st) j) /\
  List.length (currentProjectsData st') = List.length (currentProjectsData st) /\
  currentCompletedProjectsData st' = currentCompletedProjectsData st /\
  shownActive st' = shownActive st /\
  shownCompleted st' = shownCompleted st.
Proof.
  intros F st'.
  destruct (saved_in_active_row h c pid fk vs dv ov rows u st i F)
    as (D & Dc & Sa & Sc & _).
  fold st' in D, Dc, Sa, Sc.
  destruct (findIndex_Some _ _ _ F) as (old & Eo & Po).
  split; [|split; [|split; [|split; [|split]]]]; auto.
  - exists old. split; [exact Eo|]. split; [exact Po|]. split.
    + rewrite D, (nth_error_nth _ _ _ Eo). eapply nth_error_list_set_eq. exact Eo.
    + split.
      * intros k. apply get_spread_other.
      * intros k v. apply get_spread_in.
  - intros j N. rewrite D. apply nth_error_list_set_neq. congruence.
  - rewrite D. apply length_list_set.
Qed.

Lemma inline_save_patches_kept_row_witness :
  let st' :=
    step Example.browser
      (OpResponse 0%nat
         (Ok [] (Some [("status", JNum (Fin 80%Q));
                       ("remaining_amount", JNum (Fin 160%Q))])))
      saving_first in
  shownActive saving_first = [pier; warehouse] /\
  currentProjectsData st'
    = [ warehouse;
        [ ("id", JNum (Fin 2%Q)); ("project_name", JStr "Pier");
          ("amount", JNum (Fin 800%Q)); ("status", JNum (Fin 80%Q));
          ("remaining_amount", JNum (Fin 160%Q)) ] ] /\
  shownActive st' = shownActive saving_first.
Proof.
  cbv zeta. split; [vm_compute; reflexivity|]. split; [vm_compute; reflexivity|].
  assert (F : findIndex (fun p => loose_eq_string (get p "id") "2")
                (currentProjectsData
                   (set_awaiting (remove_nth 0 (awaiting saving_first)) saving_first))
              = Some 1%nat) by (vm_compute; reflexivity).
  pose proof (inline_save_patches_kept_row Example.browser 0%nat "2" "status"
                (parseFloat "80") "80.0%" (parseFloat "25.0") []
                [("status", JNum (Fin 80%Q)); ("remaining_amount", JNum (Fin 160%Q))]
                _ 1%nat F) as P.
  cbv zeta in P. destruct P as (_ & _ & _ & _ & Sa & _).
  exact Sa.
Defined.

(** ** The sort state of the two tables *)

Lemma currentSort_renderProjectTable h data t st :
  currentSort (renderProjectTable h data t st) = currentSort st.
Proof. destruct t; reflexivity. Qed.

Lemma currentSort_clear_table t st : currentSort (clear_table t st) = currentSort st.
Proof. destruct t; reflexivity. Qed.

Lemma currentSort_set_textContent c s st :
  currentSort (set_textContent c s st) = currentSort st.
Proof. apply data_update_cell. Qed.

Section SortStateFacts.
Variable h : Host.

Lemma currentSort_fetch_resume r st :
  currentSort (fetchActiveProjects_resume h r st) = currentSort st /\
  currentSort (fetchCompletedProjects_resume h r st) = currentSort st.
Proof.
  unfold fetchActiveProjects_resume, fetchCompletedProjects_resume,
    applyFiltersAndRender, renderActiveTable, renderCompletedTable.
  destruct r as [data u|message]; cbv iota beta.
  - now rewrite !currentSort_renderProjectTable.
  - destruct (String.eqb message "Unauthorized"); [split; reflexivity|].
    now rewrite !currentSort_clear_table.
Qed.

Lemma currentSort_refetch st :
  currentSort (fetchCompletedProjects (fetchActiveProjects st)) = currentSort st.
Proof.
  unfold fetchCompletedProjects, fetchActiveProjects.
  cbn [currentSort apiFetch]. rewrite currentSort_clear_table.
  cbn [currentSort apiFetch]. apply currentSort_clear_table.
Qed.

Lemma currentSort_saveEdit_resume c pid fk v dv ov r st :
  currentSort (saveEdit_resume h c pid fk v dv ov r st) = currentSort st.
Proof.
  unfold saveEdit_resume.
  destruct r as [rows [u|]|message]; cbv zeta.
  - destruct (findIndex _ (currentProjectsData _));
      [|destruct (findIndex _ (currentCompletedProjectsData _))];
      destruct (status_or_amount fk);
      try destruct (remainingCell_of _ _);
      cbn [currentSort fetchDashboardData apiFetch set_data];
      rewrite ?currentSort_set_textContent, ?currentSort_refetch;
      cbn [currentSort set_data];
      rewrite ?currentSort_set_textContent; reflexivity.
  - destruct (status_or_amount fk);
      cbn [currentSort fetchDashboardData apiFetch];
      rewrite currentSort_refetch; apply currentSort_set_textContent.
  - destruct (String.eqb message "Unauthorized"); [reflexivity|].
    rewrite currentSort_set_textContent. reflexivity.
Qed.

Lemma currentSort_saveEdit v c pid fk ov st :
  currentSort (saveEdit h v c pid fk ov st) = currentSort st.
Proof.
  unfold saveEdit.
  destruct (nth_error (cells st) c) as [cl|]; [|reflexivity].
  destruct (currentlyEditingCell st) as [e|]; [|reflexivity].
  destruct (negb (Nat.eqb e c)); [reflexivity|].
  cbv zeta.
  assert (E : currentSort (set_editing None (update_cell c (with_listeners None) st))
              = currentSort st).
  { cbn [currentSort set_editing]. apply data_update_cell. }
  destruct (String.eqb fk "status").
  - destruct (isNaN _ || num_lt _ _ || num_gt _ _)%bool.
    + rewrite currentSort_set_textContent. exact E.
    + destruct (negb (negb _)).
      * rewrite currentSort_set_textContent. exact E.
      * cbn [currentSort apiFetch]. rewrite currentSort_set_textContent. exact E.
  - rewrite currentSort_set_textContent. exact E.
Qed.

Lemma currentSort_cancelEdit c o st :
  currentSort (cancelEdit c o st) = currentSort st.
Proof.
  unfold cancelEdit.
  destruct (nth_error (cells st) c) as [cl|]; [|reflexivity].
  destruct (currentlyEditingCell st) as [e|]; [|reflexivity].
  destruct (negb (Nat.eqb e c)); [reflexivity|].
  cbn [currentSort set_editing].
  destruct (data_update_cell (with_originalValue None) c
              (set_textContent c o (update_cell c (with_listeners None) st)))
    as (_ & _ & _ & _ & ->).
  rewrite currentSort_set_textContent. apply data_update_cell.
Qed.

(** An operation other than a click on a header with a sort key leaves
    the sort state as it is. *)
Lemma currentSort_step op st :
  currentSort (step h op st) = currentSort st \/
  exists t key, op = OpSortClick t key /\ key <> EmptyString /\
                sort_key (currentSort (step h op st)) = key.
Proof.
  destruct op; cbn [step].
  - left. unfold fetchActiveProjects. cbn [currentSort apiFetch].
    apply currentSort_clear_table.
  - left. unfold fetchCompletedProjects. cbn [currentSort apiFetch].
    apply currentSort_clear_table.
  - destruct sortKey as [|a k].
    + left. reflexivity.
    + right. exists t, (String a k). split; [reflexivity|]. split; [discriminate|].
      apply sortHeaderClick_sets_key. discriminate.
  - left. unfold makeCellEditable.
    destruct (nth_error (cells st) c); auto.
    destruct (currentlyEditingCell st) as [e|].
    + destruct (Nat.eqb e c); reflexivity.
    + destruct (negb _); [reflexivity|].
      destruct (data_update_cell
                  (fun cl0 =>
                     with_listeners
                       (Some {| input_value :=
                                  num_toString h
                                    (safeFloat h (JStr (trim (Dashboard.textContent c0)))
                                               (Fin 0%Q));
                                originalNumericValue :=
                                  safeFloat h (JStr (trim (Dashboard.textContent c0)))
                                            (Fin 0%Q);
                                originalDisplayValue := trim (Dashboard.textContent c0) |})
                       (with_content InputBox
                          (with_originalValue (Some (trim (Dashboard.textContent c0))) cl0)))
                  c (set_editing (Some c) st))
        as (_ & _ & _ & _ & E).
      exact E.
  - left. unfold Dashboard.typeInto. apply data_update_cell.
  - left. unfold handleKeyDown.
    destruct (nth_error (cells st) c) as [cl|]; auto.
    destruct (inlineEditListeners cl); auto.
    destruct (String.eqb key "Enter"); [apply currentSort_saveEdit|].
    destruct (String.eqb key "Escape"); [apply currentSort_cancelEdit|auto].
  - left. unfold handleBlur.
    destruct (nth_error (cells st) c) as [cl|]; auto.
    destruct (inlineEditListeners cl); auto.
    destruct (currentlyEditingCell st); auto.
    destruct (Nat.eqb _ _); [apply currentSort_saveEdit|auto].
  - left. unfold closeEditProjectModal.
    destruct (currentlyEditingCell st); auto.
    destruct (nth_error (cells st) _) as [cl|]; auto.
    destruct (content cl); [auto|apply currentSort_cancelEdit].
  - left. unfold openEditModal.
    destruct (match find_project projectId (currentProjectsData (clearFeedback st)) with
              | Some p => Some p
              | None => find_project projectId
                          (currentCompletedProjectsData (clearFeedback st))
              end); reflexivity.
  - left. unfold exportActiveToCSV, exportToCSV.
    destruct (currentProjectsData st); reflexivity.
  - left. unfold exportCompletedToCSV, exportToCSV.
    destruct (currentCompletedProjectsData st); reflexivity.
  - left. destruct (nth_error (awaiting st) i) as [k|]; auto.
    destruct k; unfold resume.
    + now rewrite currentSort_saveEdit_resume.
    + now rewrite (proj1 (currentSort_fetch_resume _ _)).
    + now rewrite (proj2 (currentSort_fetch_resume _ _)).
    + reflexivity.
Qed.

Lemma sort_key_run ops st :
  sort_key (currentSort st) <> EmptyString ->
  sort_key (currentSort (run h ops st)) <> EmptyString.
Proof.
  revert st. induction ops as [|op ops IH]; intros st H; simpl; auto.
  apply IH. destruct (currentSort_step op st) as [->|(t & key & _ & N & ->)]; auto.
Qed.
End SortStateFacts.

(** X7.  The two tables share one sort state.  A click on a header of the
    completed table leaves the rows of the active table on the page as
    they are, but sets the key and the direction by which the active table
    is sorted the next time it is rendered, for instance when the active
    projects arrive again; and the same holds with the tables exchanged. *)
Theorem sort_state_is_shared (h : Host)
    (key : string) (st : state) (data : list obj) (u : option obj) :
  key <> EmptyString ->
  (let st1 := sortHeaderClick h CompletedTable key st in
   let st2 := fetchActiveProjects_resume h (Ok data u) st1 in
   shownActive st1 = shownActive st /\
   sort_key (currentSort st1) = key /\
   Permutation data (shownActive st2) /\
   StronglySorted
     (fun a b => in_order h key (sort_direction (currentSort st1)) a b = true)
     (shownActive st2)) /\
  (let st1 := sortHeaderClick h ActiveTable key st in
   let st2 := fetchCompletedProjects_resume h (Ok data u) st1 in
   shownCompleted st1 = shownCompleted st /\
   sort_key (currentSort st1) = key /\
   Permutation data (shownCompleted st2) /\
   StronglySorted
     (fun a b => in_order h key (sort_direction (currentSort st1)) a b = true)
     (shownCompleted st2)).
Proof.
  intros N. split; intros st1 st2.
  - assert (K : sort_key (currentSort st1) = key)
      by (apply sortHeaderClick_sets_key; exact N).
    split; [|split; [exact K|]].
    + unfold st1, sortHeaderClick. destruct key; [congruence|]. reflexivity.
    + unfold st2, fetchActiveProjects_resume, applyFiltersAndRender, renderActiveTable.
      rewrite shownActive_renderProjectTable. cbn [currentSort set_data currentProjectsData].
      pose proof (sortedForRender_sorted h (currentSort st1) data) as S.
      rewrite K in S. exact (S N).
  - assert (K : sort_key (currentSort st1) = key)
      by (apply sortHeaderClick_sets_key; exact N).
    split; [|split; [exact K|]].
    + unfold st1, sortHeaderClick. destruct key; [congruence|]. reflexivity.
    + unfold st2, fetchCompletedProjects_resume, renderCompletedTable.
      rewrite shownCompleted_renderProjectTable.
      cbn [currentSort set_data currentCompletedProjectsData].
      pose proof (sortedForRender_sorted h (currentSort st1) data) as S.
      rewrite K in S. exact (S N).
Qed.

Lemma sort_state_is_shared_witness :
  shownActive loaded = [pier; warehouse] /\
  shownActive (sortHeaderClick Example.browser CompletedTable "status" loaded)
    = [pier; warehouse] /\
  StronglySorted
    (fun a b =>
       in_order Example.browser "status"
         (sort_direction
            (currentSort (sortHeaderClick Example.browser CompletedTable "status" loaded)))
         a b = true)
    (shownActive
       (fetchActiveProjects_resume Example.browser (Ok [warehouse; pier] None)
          (sortHeaderClick Example.browser CompletedTable "status" loaded))).
Proof.
  assert (N : "status" <> EmptyString) by discriminate.
  destruct (sort_state_is_shared Example.browser "status" loaded [warehouse; pier] None N)
    as [(S1 & _ & _ & S2) _].
  split; [vm_compute; reflexivity|]. split; [rewrite S1; vm_compute; reflexivity|].
  exact S2.
Defined.

(** X8.  The sort key is never empty: the page starts sorted by the
    remaining amount, and a click on a header without a key changes
    nothing.  So in every state the page can reach, the render functions
    sort the rows; their branch for rendering unsorted is never taken. *)
Theorem sort_key_never_empty (h : Host) (ops : list operation) :
  let st := run h ops initial_state in
  sort_key (currentSort st) <> EmptyString /\
  forall data,
    sortedForRender h (currentSort st) data
      = Array_sort (compareRows h (sort_key (currentSort st))
                                  (sort_direction (currentSort st))) data.
Proof.
  intros st.
  assert (N : sort_key (currentSort st) <> EmptyString)
    by (apply sort_key_run; discriminate).
  split; [exact N|].
  intros data. unfold sortedForRender.
  destruct (sort_key (currentSort st)); [congruence|reflexivity].
Qed.

(** ** A fetch of the project rows that fails *)

(** X9.  When the request for the active projects fails, other than by a
    401, the rows kept from the earlier fetch are thrown away with the rows
    on the page: the kept list and the table are empty, and an export of the
    active projects that follows writes no file and shows the warning that
    there is no data.  The completed projects are not touched.  After a 401
    nothing is changed. *)
Theorem failed_fetch_discards_rows (h : Host) (message : string) (st : state) :
  (message <> "Unauthorized" ->
   let st' := fetchActiveProjects_resume h (Error message) st in
   currentProjectsData st' = [] /\
   shownActive st' = [] /\
   currentCompletedProjectsData st' = currentCompletedProjectsData st /\
   shownCompleted st' = shownCompleted st /\
   downloads (exportActiveToCSV h st') = downloads st /\
   feedback (exportActiveToCSV h st')
     = Some ("No data available to export for Active_Projects.", "warning")) /\
  fetchActiveProjects_resume h (Error "Unauthorized") st = st.
Proof.
  split; [|reflexivity].
  intros N st'. unfold st', fetchActiveProjects_resume.
  destruct (String.eqb_spec message "Unauthorized") as [E|_]; [congruence|].
  repeat split.
Qed.

Lemma failed_fetch_discards_rows_witness :
  currentProjectsData loaded = [warehouse; pier] /\
  currentProjectsData
    (fetchActiveProjects_resume Example.browser (Error "Server error") loaded) = [] /\
  shownActive
    (fetchActiveProjects_resume Example.browser (Error "Server error") loaded) = [].
Proof.
  split; [reflexivity|].
  assert (N : "Server error" <> "Unauthorized") by discriminate.
  destruct (proj1 (failed_fetch_discards_rows Example.browser "Server error" loaded) N)
    as (D & S & _).
  split; [exact D | exact S].
Defined.

(** ** [parseDate]: what it returns is a day *)

Lemma Date_UTC_midnight y m d t :
  Date_UTC y m d = Some t ->
  t mod msPerDay = 0 /\ Z.abs t <= 8640000000000000.
Proof.
  unfold Date_UTC, TimeClip.
  destruct (Z.leb_spec (Z.abs (MakeDay (if (0 <=? y) && (y <=? 99) then 1900 + y else y)
                                   m d * msPerDay)) 8640000000000000) as [L|L];
    [|discriminate].
  intros E. injection E as <-. split; [apply Z_mod_mult | exact L].
Qed.

Lemma checked_utc_midnight y m d t :
  checked_utc y m d = Some t ->
  t mod msPerDay = 0 /\ Z.abs t <= 8640000000000000.
Proof.
  unfold checked_utc.
  destruct ((1 <=? m) && (m <=? 12) && (1 <=? d) && (d <=? 31))%bool; [|discriminate].
  destruct (Date_UTC y (m - 1) d) as [z|] eqn:E; [|discriminate].
  destruct ((getUTCFullYear z =? y) && _ && _)%bool; [|discriminate].
  intros Q. injection Q as <-. exact (Date_UTC_midnight _ _ _ _ E).
Qed.

(** X10.  Whatever [parseDate] is given, a date it returns is a whole day:
    its time value is midnight UTC, within the range of time values of
    ECMAScript.  The time of day of a timestamp and the time zone of the
    browser never show in the result. *)
Theorem parseDate_returns_utc_midnight (h : Host) (dateStr : jsval) (t : Z) :
  parseDate h dateStr = Some t ->
  t mod msPerDay = 0 /\ Z.abs t <= 8640000000000000.
Proof.
  unfold parseDate.
  destruct (negb (truthy dateStr)); [discriminate|].
  destruct (str_empty _); [discriminate|].
  destruct (parseDate_iso _) as [a|] eqn:I.
  - intros E. injection E as <-. unfold parseDate_iso in I.
    destruct (isoMatch _) as [[[g1 g2] g3]|]; [|discriminate].
    exact (checked_utc_midnight _ _ _ _ I).
  - destruct (parseDate_slash _) as [b|] eqn:S.
    + intros E. injection E as <-. unfold parseDate_slash in S.
      destruct (slashMatch _) as [[[g1 g2] g3]|]; [|discriminate].
      exact (checked_utc_midnight _ _ _ _ S).
    + unfold parseDate_fallback.
      destruct (Date_parse h _) as [z|]; [|discriminate].
      apply Date_UTC_midnight.
Qed.

Lemma parseDate_returns_utc_midnight_witness :
  parseDate Example.browser (JStr "2024-02-29T17:45:00") = Some 1709164800000 /\
  1709164800000 mod msPerDay = 0.
Proof.
  assert (P : parseDate Example.browser (JStr "2024-02-29T17:45:00") = Some 1709164800000)
    by (vm_compute; reflexivity).
  split; [exact P|].
  exact (proj1 (parseDate_returns_utc_midnight Example.browser _ _ P)).
Defined.

(** ** [parseDate] and [formatDate] on dates in US form *)

Lemma parseInt10_two a b : parseInt10 (String a (String b EmptyString)) = two_digits a b.
Proof. unfold parseInt10, two_digits. cbn [digits_val]. lia. Qed.

Lemma parseInt10_four a b c d :
  parseInt10 (String a (String b (String c (String d EmptyString))))
    = four_digits a b c d.
Proof. unfold parseInt10, four_digits. cbn [digits_val]. lia. Qed.

Lemma is_digit_not_slash c : is_digit c = true -> c <> "/"%char /\ c <> "-"%char.
Proof. intros H. split; intros ->; discriminate H. Qed.

(** The ISO pattern does not match a text in US form. *)
Lemma isoMatch_slash_text ms ds y1 y2 y3 y4 :
  all_digits ms = true -> all_digits ds = true ->
  (1 <= String.length ms <= 2)%nat -> (1 <= String.length ds <= 2)%nat ->
  is_digit y1 = true ->
  isoMatch (slash_text ms ds y1 y2 y3 y4) = None.
Proof.
  intros Am Ad Lm Ld Y1. unfold slash_text.
  destruct ms as [|a [|b [|? ?]]]; cbn [String.length] in Lm; try lia;
    destruct ds as [|c [|d [|? ?]]]; cbn [String.length] in Ld; try lia;
    cbn [String.append].
  - destruct y1 as [[] [] [] [] [] [] [] []]; try reflexivity; discriminate Y1.
  - reflexivity.
  - reflexivity.
  - cbn [all_digits] in Ad. rewrite !andb_true_iff in Ad. destruct Ad as (_ & D & _).
    destruct d as [[] [] [] [] [] [] [] []]; try reflexivity; discriminate D.
Qed.

Lemma slashMatch_slash_text ms ds y1 y2 y3 y4 :
  all_digits ms = true -> all_digits ds = true ->
  (1 <= String.length ms <= 2)%nat -> (1 <= String.length ds <= 2)%nat ->
  forallb is_digit [y1; y2; y3; y4] = true ->
  slashMatch (slash_text ms ds y1 y2 y3 y4)
    = Some (ms, ds, String y1 (String y2 (String y3 (String y4 EmptyString)))).
Proof.
  intros Am Ad Lm Ld Y. unfold slash_text.
  cbn [forallb] in Y. rewrite !andb_true_iff in Y. destruct Y as (Y1 & Y2 & Y3 & Y4 & _).
  destruct ms as [|a [|b [|? ?]]]; cbn [String.length] in Lm; try lia;
    destruct ds as [|c [|d [|? ?]]]; cbn [String.length] in Ld; try lia;
    cbn [all_digits] in Am, Ad;
    repeat match goal with
    | H : (_ && _)%bool = true |- _ => apply andb_true_iff in H; destruct H
    end;
    cbn [String.append]; unfold slashMatch, digits_1_2;
    repeat first
      [ progress (change (is_digit "/") with false)
      | progress (cbv iota beta)
      | match goal with
        | H : is_digit ?x = true |- context [is_digit ?x] => rewrite H
        end ];
    reflexivity.
Qed.

Lemma trim_slash_text ms ds y1 y2 y3 y4 :
  all_digits ms = true ->
  (1 <= String.length ms <= 2)%nat -> (1 <= String.length ds <= 2)%nat ->
  is_digit y4 = true ->
  trim (slash_text ms ds y1 y2 y3 y4) = slash_text ms ds y1 y2 y3 y4 /\
  str_empty (slash_text ms ds y1 y2 y3 y4) = false.
Proof.
  intros Am Lm Ld Y4. unfold slash_text.
  apply is_digit_facts in Y4. destruct Y4 as [S4 _].
  destruct ms as [|a [|b [|? ?]]]; cbn [String.length] in Lm; try lia;
    destruct ds as [|c [|d [|? ?]]]; cbn [String.length] in Ld; try lia;
    cbn [all_digits] in Am; apply andb_true_iff in Am; destruct Am as [Ha _];
    apply is_digit_facts in Ha; destruct Ha as [Sa _];
    (split; [|reflexivity]);
    unfold trim; cbn [String.append trimStart]; rewrite Sa;
    cbn [rev_string trimStart]; rewrite S4; reflexivity.
Qed.

(** A text [M/D/YYYY] that names a real date of a year from 100 on is
    parsed by the US branch as midnight UTC of that date. *)
Lemma parseDate_of_slash_text (h : Host) ms ds y1 y2 y3 y4 :
  all_digits ms = true -> all_digits ds = true ->
  (1 <= String.length ms <= 2)%nat -> (1 <= String.length ds <= 2)%nat ->
  forallb is_digit [y1; y2; y3; y4] = true ->
  100 <= four_digits y1 y2 y3 y4 ->
  real_date (four_digits y1 y2 y3 y4) (parseInt10 ms) (parseInt10 ds) ->
  parseDate h (JStr (slash_text ms ds y1 y2 y3 y4))
    = Some (utc_midnight (four_digits y1 y2 y3 y4) (parseInt10 ms) (parseInt10 ds)).
Proof.
  intros Am Ad Lm Ld Y Hy R.
  pose proof (slashMatch_slash_text ms ds y1 y2 y3 y4 Am Ad Lm Ld Y) as M.
  cbn [forallb] in Y. rewrite !andb_true_iff in Y. destruct Y as (Y1 & Y2 & Y3 & Y4 & _).
  pose proof (isoMatch_slash_text ms ds y1 y2 y3 y4 Am Ad Lm Ld Y1) as I.
  destruct (trim_slash_text ms ds y1 y2 y3 y4 Am Lm Ld Y4) as [T E].
  assert (Y9 : four_digits y1 y2 y3 y4 <= 9999).
  { unfold four_digits.
    pose proof (proj2 (is_digit_facts _ Y1)). pose proof (proj2 (is_digit_facts _ Y2)).
    pose proof (proj2 (is_digit_facts _ Y3)). pose proof (proj2 (is_digit_facts _ Y4)).
    lia. }
  unfold parseDate. cbn [truthy ToString]. rewrite E, T, E. cbn [negb].
  unfold parseDate_iso. rewrite I.
  unfold parseDate_slash. rewrite M, parseInt10_four.
  rewrite checked_utc_real by (auto; lia). reflexivity.
Qed.

(** X11.  The US branch of [parseDate] reads a real date.  For a text
    [M/D/YYYY], the month and the day written with one digit or two, that
    names a date of the calendar in a year from 100 on, [parseDate]
    returns midnight UTC of that date, and the year, month and day read
    back from the result are those of the text. *)
Theorem parseDate_us_real_date (h : Host) (ms ds : string) (y1 y2 y3 y4 : ascii) :
  all_digits ms = true -> all_digits ds = true ->
  (1 <= String.length ms <= 2)%nat -> (1 <= String.length ds <= 2)%nat ->
  forallb is_digit [y1; y2; y3; y4] = true ->
  let y := four_digits y1 y2 y3 y4 in
  let m := parseInt10 ms in
  let d := parseInt10 ds in
  100 <= y -> real_date y m d ->
  parseDate h (JStr (slash_text ms ds y1 y2 y3 y4)) = Some (utc_midnight y m d) /\
  getUTCFullYear (utc_midnight y m d) = y /\
  getUTCMonth (utc_midnight y m d) + 1 = m /\
  getUTCDate (utc_midnight y m d) = d.
Proof.
  intros Am Ad Lm Ld Y y m d Hy R.
  split; [now apply parseDate_of_slash_text | exact (utc_roundtrip y m d R)].
Qed.

Lemma parseDate_us_real_date_witness :
  real_date 2024 2 29 /\
  parseDate Example.browser (JStr "2/29/2024") = Some (utc_midnight 2024 2 29).
Proof.
  assert (R : real_date 2024 2 29) by (vm_compute; intuition discriminate).
  split; [exact R|].
  refine (proj1 (parseDate_us_real_date Example.browser "2" "29" "2" "0" "2" "4"
                   eq_refl eq_refl _ _ eq_refl _ R)).
  - cbn; lia.
  - cbn; lia.
  - vm_compute. discriminate.
Defined.

(** ** [formatDate] on dates in ISO form: the digits in the US order *)

Lemma Z_toString_nonneg n : 0 <= n -> Z_toString n = Z_digits n.
Proof. intros H. unfold Z_toString. destruct (Z.ltb_spec n 0); [lia|reflexivity]. Qed.

Lemma digit_val_zero c : is_digit c = true -> digit_val c = 0 -> c = "0"%char.
Proof.
  intros D V. unfold is_digit in D. unfold digit_val in V.
  apply andb_true_iff in D. destruct D as [D1 D2]. apply N.leb_le in D1, D2.
  assert (E : N_of_ascii c = 48%N) by lia.
  rewrite <- (ascii_N_embedding c), E. reflexivity.
Qed.

(** Two digits that spell a number from 1 on are what [padStart(2, '0')]
    makes of the text of the number. *)
Lemma pad2_two_digits a b :
  is_digit a = true -> is_digit b = true -> 1 <= two_digits a b ->
  padStart0 2 (Z_toString (two_digits a b)) = String a (String b EmptyString).
Proof.
  intros Da Db H.
  pose proof (proj2 (is_digit_facts _ Da)) as Ra.
  pose proof (proj2 (is_digit_facts _ Db)) as Rb.
  rewrite Z_toString_nonneg by (unfold two_digits; lia).
  destruct (Ascii.eqb_spec a "0") as [->|Na].
  - assert (Nb : b <> "0"%char).
    { intros ->. unfold two_digits in H. cbn in H. lia. }
    replace (two_digits "0" b) with (parseInt10 (String b EmptyString))
      by (unfold parseInt10, two_digits; cbn [digits_val]; change (digit_val "0") with 0; lia).
    rewrite Z_digits_parseInt10 by (cbn [all_digits]; rewrite ?Db; auto).
    reflexivity.
  - rewrite <- parseInt10_two.
    rewrite Z_digits_parseInt10 by (cbn [all_digits]; rewrite ?Da, ?Db; auto).
    reflexivity.
Qed.

Lemma Z_toString_four_digits a b c d :
  forallb is_digit [a; b; c; d] = true -> a <> "0"%char ->
  Z_toString (four_digits a b c d)
    = String a (String b (String c (String d EmptyString))).
Proof.
  intros D Na. cbn [forallb] in D. rewrite !andb_true_iff in D.
  destruct D as (Da & Db & Dc & Dd & _).
  pose proof (proj2 (is_digit_facts _ Da)). pose proof (proj2 (is_digit_facts _ Db)).
  pose proof (proj2 (is_digit_facts _ Dc)). pose proof (proj2 (is_digit_facts _ Dd)).
  rewrite Z_toString_nonneg by (unfold four_digits; lia).
  rewrite <- parseInt10_four.
  apply Z_digits_parseInt10; [|exact Na].
  cbn [all_digits]. now rewrite Da, Db, Dc, Dd.
Qed.

(** A text [YYYY-MM-DD] that names a real date of a year from 100 on is
    parsed by the ISO branch as midnight UTC of that date. *)
Lemma parseDate_of_iso_text (h : Host) y1 y2 y3 y4 m1 m2 d1 d2 :
  forallb is_digit [y1; y2; y3; y4; m1; m2; d1; d2] = true ->
  100 <= four_digits y1 y2 y3 y4 ->
  real_date (four_digits y1 y2 y3 y4) (two_digits m1 m2) (two_digits d1 d2) ->
  parseDate h (JStr (iso_text y1 y2 y3 y4 m1 m2 d1 d2))
    = Some (utc_midnight (four_digits y1 y2 y3 y4) (two_digits m1 m2) (two_digits d1 d2)).
Proof.
  intros D Hy R.
  pose proof (isoMatch_iso_text _ _ _ _ _ _ _ _ D) as M.
  cbn [forallb] in D. rewrite !andb_true_iff in D.
  destruct D as (A & B & C & E & F & G & H & I & _).
  assert (Y9 : four_digits y1 y2 y3 y4 <= 9999).
  { unfold four_digits.
    pose proof (proj2 (is_digit_facts _ A)). pose proof (proj2 (is_digit_facts _ B)).
    pose proof (proj2 (is_digit_facts _ C)). pose proof (proj2 (is_digit_facts _ E)).
    lia. }
  unfold parseDate. cbn [truthy ToString str_empty negb iso_text].
  fold (iso_text y1 y2 y3 y4 m1 m2 d1 d2).
  rewrite trim_iso_text by assumption.
  unfold parseDate_iso. rewrite M, parseInt10_four, !parseInt10_two.
  rewrite checked_utc_real by (auto; lia). reflexivity.
Qed.

(** X12.  For a real date of a year from 1000 on, [formatDate] turns the
    text [YYYY-MM-DD] into [MM/DD/YYYY] with the very same digits; what it
    prints is read by [parseDate] as the same day, and formatting it again
    changes nothing. *)
Theorem formatDate_rearranges_iso (h : Host)
    (y1 y2 y3 y4 m1 m2 d1 d2 : ascii) (fallback : string) :
  forallb is_digit [y1; y2; y3; y4; m1; m2; d1; d2] = true ->
  y1 <> "0"%char ->
  real_date (four_digits y1 y2 y3 y4) (two_digits m1 m2) (two_digits d1 d2) ->
  let iso := JStr (iso_text y1 y2 y3 y4 m1 m2 d1 d2) in
  let us := JStr (us_text m1 m2 d1 d2 y1 y2 y3 y4) in
  formatDate h iso fallback = us_text m1 m2 d1 d2 y1 y2 y3 y4 /\
  parseDate h us = parseDate h iso /\
  formatDate h us fallback = us_text m1 m2 d1 d2 y1 y2 y3 y4.
Proof.
  intros D Ny R iso us.
  pose proof D as D'. cbn [forallb] in D'. rewrite !andb_true_iff in D'.
  destruct D' as (A & B & C & E & F & G & H & I & _).
  assert (Hy : 1000 <= four_digits y1 y2 y3 y4).
  { unfold four_digits.
    pose proof (proj2 (is_digit_facts _ A)) as Ra.
    pose proof (proj2 (is_digit_facts _ B)). pose proof (proj2 (is_digit_facts _ C)).
    pose proof (proj2 (is_digit_facts _ E)).
    assert (digit_val y1 <> 0) by (intros Z; apply Ny; now apply digit_val_zero).
    lia. }
  pose proof (parseDate_of_iso_text h y1 y2 y3 y4 m1 m2 d1 d2 D ltac:(lia) R) as Pi.
  assert (Pu : parseDate h us
               = Some (utc_midnight (four_digits y1 y2 y3 y4) (two_digits m1 m2)
                                    (two_digits d1 d2))).
  { pose proof (parseDate_of_slash_text h (String m1 (String m2 EmptyString))
                  (String d1 (String d2 EmptyString)) y1 y2 y3 y4) as P.
    rewrite !parseInt10_two in P. apply P; try (cbn [String.length]; lia); try lia; auto.
    - cbn [all_digits]. now rewrite F, G.
    - cbn [all_digits]. now rewrite H, I.
    - cbn [forallb]. now rewrite A, B, C, E. }
  destruct (utc_roundtrip _ _ _ R) as (R1 & R2 & R3).
  destruct R as [Rm Rd].
  assert (Fm : forall v, truthy v = true ->
                 parseDate h v = Some (utc_midnight (four_digits y1 y2 y3 y4)
                                         (two_digits m1 m2) (two_digits d1 d2)) ->
                 formatDate h v fallback = us_text m1 m2 d1 d2 y1 y2 y3 y4).
  { intros v Tv Pv. unfold formatDate. rewrite Tv, Pv. cbn [negb].
    rewrite R1, R2, R3.
    rewrite (pad2_two_digits m1 m2 F G) by lia.
    rewrite (pad2_two_digits d1 d2 H I) by lia.
    rewrite Z_toString_four_digits by (cbn [forallb]; rewrite ?A, ?B, ?C, ?E; auto).
    reflexivity. }
  split; [apply Fm; [reflexivity | exact Pi]|].
  split; [rewrite Pu; symmetry; exact Pi|].
  apply Fm; [reflexivity | exact Pu].
Qed.

Lemma formatDate_rearranges_iso_witness :
  real_date 2024 2 29 /\
  formatDate Example.browser (JStr "2024-02-29") "N/A" = "02/29/2024" /\
  formatDate Example.browser (JStr "02/29/2024") "N/A" = "02/29/2024".
Proof.
  assert (R : real_date 2024 2 29) by (vm_compute; intuition discriminate).
  split; [exact R|].
  assert (N : "2"%char <> "0"%char) by discriminate.
  destruct (formatDate_rearranges_iso Example.browser
              "2" "0" "2" "4" "0" "2" "2" "9" "N/A" eq_refl N R) as (F1 & _ & F2).
  split; [exact F1 | exact F2].
Defined.

(** ** [apiFetch]: which responses it returns, and what it throws *)

Section ApiFacts.
Variable h : Host.

Lemma read_body_ok r :
  Api.ok r = true -> exists data, Api.read_body r = inl data.
Proof.
  intros O. unfold Api.read_body. rewrite O. cbn [negb].
  destruct (match Api.content_type r with
            | Some contentType => Api.str_includes contentType "application/json"
            | None => false
            end).
  - destruct (Api.body_json r); eauto.
  - destruct (Api.body_text r); eauto.
Qed.

Lemma ok_status r : Api.ok r = true -> 200 <= Api.status r <= 299.
Proof. unfold Api.ok. rewrite andb_true_iff, !Z.leb_le. auto. Qed.

Lemma handle_response_returns r :
  (exists data, Api.handle_response h r = Api.Returns data) <-> Api.ok r = true.
Proof.
  unfold Api.handle_response. split.
  - intros [data E]. revert E.
    destruct (Z.eqb_spec (Api.status r) 401); [discriminate|].
    destruct (Z.eqb_spec (Api.status r) 204) as [S|_].
    + intros _. unfold Api.ok. rewrite S. reflexivity.
    + destruct (Api.read_body r); [|discriminate].
      destruct (Api.ok r); [reflexivity|discriminate].
  - intros O. pose proof (ok_status r O) as S.
    destruct (Z.eqb_spec (Api.status r) 401); [lia|].
    destruct (Z.eqb_spec (Api.status r) 204); [eauto|].
    destruct (read_body_ok r O) as [data ->]. rewrite O. cbn [negb]. eauto.
Qed.
End ApiFacts.

(** X13.  [apiFetch] returns data exactly for the responses with a status
    from 200 to 299.  For every other response, and when the request got
    no response, it throws: a caller never receives the body of a failed
    request as if it were data. *)
Theorem apiFetch_returns_iff_ok (h : Host) (url : string) :
  (forall r,
     (exists data, fst (Api.apiFetch_resume h url (Api.Response r)) = Api.Returns data)
     <-> 200 <= Api.status r <= 299) /\
  (forall message,
     exists e, fst (Api.apiFetch_resume h url (Api.NetworkFailure message))
               = Api.Throws e).
Proof.
  split.
  - intros r. cbn [Api.apiFetch_resume fst].
    assert (K : Api.ok r = true <-> 200 <= Api.status r <= 299)
      by (unfold Api.ok; rewrite andb_true_iff, !Z.leb_le; tauto).
    rewrite <- K, <- (handle_response_returns h r).
    destruct (Api.handle_response h r) as [d|e]; split; intros [x E]; eauto;
      discriminate.
  - intros message. cbn [Api.apiFetch_resume fst]. eauto.
Qed.

(** X14.  A response with status 401 makes [apiFetch] remove the stored
    token, send the browser to the login page and throw [Unauthorized],
    whatever the body says; and no other response, and no failure of the
    network, removes the token or leaves the page. *)
Theorem apiFetch_unauthorized (h : Host) (url : string) (f : Api.fetched) :
  (forall r, f = Api.Response r -> Api.status r = 401 ->
     Api.apiFetch_resume h url f
       = (Api.Throws (Api.new_Error "Unauthorized"),
          {| Api.removes_authToken := true;
             Api.location_href := Some "login.html" |})) /\
  ((forall r, f = Api.Response r -> Api.status r <> 401) ->
     snd (Api.apiFetch_resume h url f) = Api.no_effects).
Proof.
  split.
  - intros r -> S. cbn [Api.apiFetch_resume]. unfold Api.handle_response.
    rewrite S. reflexivity.
  - intros N. destruct f as [r|message]; [|reflexivity].
    cbn [Api.apiFetch_resume snd].
    destruct (Z.eqb_spec (Api.status r) 401) as [S|_]; [|reflexivity].
    exfalso. exact (N r eq_refl S).
Qed.

Lemma apiFetch_unauthorized_witness :
  Api.status expired_401 = 401 /\
  Api.apiFetch_resume Example.browser "/api/projects" (Api.Response expired_401)
    = (Api.Throws (Api.new_Error "Unauthorized"),
       {| Api.removes_authToken := true; Api.location_href := Some "login.html" |}).
Proof.
  split; [reflexivity|].
  exact (proj1 (apiFetch_unauthorized Example.browser "/api/projects"
                  (Api.Response expired_401)) expired_401 eq_refl eq_refl).
Defined.

(** X15.  What a caller sees of a failed response (not a 401).  When the
    body is not announced as JSON, or cannot be read as JSON, the error
    thrown is the one for a failure of the network: the status and the
    text that the server sent are lost.  When the body is JSON, the error
    carries the status and the body, and its message is the [error]
    property of the body, else its [message] property, else the text
    [HTTP Error] with the status. *)
Theorem apiFetch_failed_response (h : Host) (url : string) (r : Api.httpResponse) :
  Api.ok r = false -> Api.status r <> 401 ->
  let is_json :=
    match Api.content_type r with
    | Some contentType => Api.str_includes contentType "application/json"
    | None => false
    end in
  (is_json = false \/ Api.body_json r = None ->
   fst (Api.apiFetch_resume h url (Api.Response r)) = Api.Throws (network_error url)) /\
  (forall data, is_json = true -> Api.body_json r = Some data -> Api.status r <> 0 ->
   fst (Api.apiFetch_resume h url (Api.Response r))
     = Api.Throws
         {| Api.err_message :=
              ToString h
                (or_else (Api.prop data "error")
                   (or_else (Api.prop data "message")
                      (JStr ("HTTP Error " ++ Z_toString (Api.status r)))));
            Api.err_status := Some (Api.status r);
            Api.err_data := Some data |}).
Proof.
  intros O N is_json.
  assert (N4 : Api.status r <> 204).
  { intros S. unfold Api.ok in O. rewrite S in O. discriminate O. }
  cbn [Api.apiFetch_resume fst]. unfold Api.handle_response.
  destruct (Z.eqb_spec (Api.status r) 401); [congruence|].
  destruct (Z.eqb_spec (Api.status r) 204); [congruence|].
  unfold Api.read_body. fold is_json. rewrite O. cbn [negb].
  split.
  - intros [J|J].
    + rewrite J. destruct (Api.body_text r); reflexivity.
    + destruct is_json; [rewrite J|destruct (Api.body_text r)]; reflexivity.
  - intros data J B S. rewrite J, B.
    unfold Api.rethrow. cbn [Api.err_status Api.err_data Api.err_message].
    destruct (Z.eqb_spec (Api.status r) 0); [congruence|]. reflexivity.
Qed.

Lemma apiFetch_failed_response_witness :
  fst (Api.apiFetch_resume Example.browser "/api/projects/2" (Api.Response html_500))
    = Api.Throws (network_error "/api/projects/2") /\
  fst (Api.apiFetch_resume Example.browser "/api/projects/2" (Api.Response json_400))
    = Api.Throws {| Api.err_message := "Status must be 0-100";
                    Api.err_status := Some 400;
                    Api.err_data :=
                      Some (Api.JsonObject [("error", JStr "Status must be 0-100")]) |}.
Proof.
  split.
  - refine (proj1 (apiFetch_failed_response Example.browser "/api/projects/2" html_500
                     eq_refl _) _).
    + discriminate.
    + left. reflexivity.
  - refine (proj2 (apiFetch_failed_response Example.browser "/api/projects/2" json_400
                     eq_refl _) _ eq_refl eq_refl _).
    + discriminate.
    + discriminate.
Defined.

Lemma apiFetch_returns_iff_ok_witness :
  fst (Api.apiFetch_resume Example.browser "/api/projects" (Api.Response json_200))
    = Api.Returns (Api.JsonArray [warehouse; pier]) /\
  200 <= Api.status json_200 <= 299.
Proof.
  split; [reflexivity|].
  apply (proj1 (apiFetch_returns_iff_ok Example.browser "/api/projects") json_200).
  eexists. reflexivity.
Defined.
